(** * Educational Article Generator: the article-to-PDF layout pass

    A shallow embedding of [src/app.py] (hosted-API variant) and
    [src/main.py] (local-model variant), together with the parts of the
    Python runtime they call ([str] methods, [textwrap.TextWrapper]) and
    a small model of the FPDF backend as a sequence of draw instructions.

    Python strings are sequences of Unicode code points; they are lists
    of [N] here.  Integers that the code only uses as lengths, columns
    and indices are [nat].

    What lies outside the two source files is modelled as follows.
    - The Unicode tables behind [isalnum], [isdecimal], [upper], [lower]
      and [title] are a parameter ([Ucd]); whitespace and line
      boundaries are the fixed, small sets CPython uses.
    - [textwrap] follows CPython 3.10 and later (long words are broken
      after a hyphen when there is one).
    - The text generators are functions from the topic to a reply or an
      exception.
    - The backend (fpdf2) records the draw calls it executes.  It
      raises on a text its core font cannot encode in Latin-1, and on a
      [multi_cell] of width 0 that has something to draw while the
      cursor stands at the right margin, where the [multi_cell] or the
      open [cell] before it left it.  Page breaks and the page footer
      are its own business and are not part of a document here.
    - The clock and the disk form an explicit [world]; of the calls to
      the file system only [os.makedirs] of the empty path fails. *)

From Stdlib Require Import String Ascii DecimalString List NArith Arith Bool.
From Stdlib Require Import ZArith Lia Zify ZifyNat.
Import ListNotations.

Set Implicit Arguments.

(** ** Strings *)

Abbreviation char := N (only parsing).
Abbreviation pystr := (list N) (only parsing).

(** ASCII literals. *)
Definition str (s : string) : pystr := map N_of_ascii (list_ascii_of_string s).

Definition pystr_eqb (a b : pystr) : bool :=
  if list_eq_dec N.eq_dec a b then true else false.

Definition is_empty {A} (l : list A) : bool :=
  match l with [] => true | _ => false end.

(** The Unicode character database, as far as the program consults it.
    [str.isalnum] and [str.isdecimal] are per character; the case
    conversions are whole-string functions ([str.lower] is context
    sensitive, [str.upper] may lengthen the string). *)
Record Ucd := mkUcd {
  isalnum : char -> bool;
  isdecimal : char -> bool;
  upper : pystr -> pystr;
  lower : pystr -> pystr;
  title : pystr -> pystr
}.

Module Py.

(** [str.isspace] on one character: the 29 code points CPython treats as
    whitespace. *)
Definition isspace (c : char) : bool :=
  ((9 <=? c) && (c <=? 13) || (28 <=? c) && (c <=? 32) ||
   (c =? 133) || (c =? 160) || (c =? 5760) ||
   (8192 <=? c) && (c <=? 8202) || (c =? 8232) || (c =? 8233) ||
   (c =? 8239) || (c =? 8287) || (c =? 12288))%N.

(** Line boundaries recognised by [str.splitlines]. *)
Definition is_linebreak (c : char) : bool :=
  ((10 <=? c) && (c <=? 13) || (28 <=? c) && (c <=? 30) ||
   (c =? 133) || (c =? 8232) || (c =? 8233))%N.

Fixpoint dropwhile (p : char -> bool) (s : pystr) : pystr :=
  match s with
  | [] => []
  | c :: s' => if p c then dropwhile p s' else s
  end.

Definition lstrip (s : pystr) : pystr := dropwhile isspace s.
Definition rstrip (s : pystr) : pystr := rev (dropwhile isspace (rev s)).
Definition strip (s : pystr) : pystr := lstrip (rstrip s).

(** [s.rstrip(chars)] *)
Definition rstrip_chars (chars : pystr) (s : pystr) : pystr :=
  rev (dropwhile (fun c => existsb (N.eqb c) chars) (rev s)).

Fixpoint startswith (s prefix : pystr) : bool :=
  match prefix, s with
  | [], _ => true
  | p :: prefix', c :: s' => (c =? p)%N && startswith s' prefix'
  | _ :: _, [] => false
  end.

Definition endswith (s suffix : pystr) : bool :=
  startswith (rev s) (rev suffix).

(** [s.startswith((p1, p2, ...))] *)
Definition startswith_any (s : pystr) (prefixes : list pystr) : bool :=
  existsb (startswith s) prefixes.

(** [sub in s] *)
Fixpoint contains (s sub : pystr) : bool :=
  startswith s sub ||
  match s with
  | [] => false
  | _ :: s' => contains s' sub
  end.

(** [str.splitlines()]: [cur] is the line being read, reversed;
    [after_cr] is set right after a carriage return, whose following
    line feed belongs to the same boundary. *)
Fixpoint splitlines_from (after_cr : bool) (cur : pystr) (s : pystr)
  : list pystr :=
  match s with
  | [] => if is_empty cur then [] else [rev cur]
  | c :: s' =>
      if after_cr && (c =? 10)%N then splitlines_from false cur s'
      else if is_linebreak c
           then rev cur :: splitlines_from (c =? 13)%N [] s'
           else splitlines_from false (c :: cur) s'
  end.

Definition splitlines (s : pystr) : list pystr := splitlines_from false [] s.

(** [str.split()] with no argument: the maximal runs of non-whitespace. *)
Fixpoint split_from (cur : pystr) (s : pystr) : list pystr :=
  match s with
  | [] => if is_empty cur then [] else [rev cur]
  | c :: s' =>
      if isspace c
      then if is_empty cur then split_from [] s'
           else rev cur :: split_from [] s'
      else split_from (c :: cur) s'
  end.

Definition split (s : pystr) : list pystr := split_from [] s.

(** [s.split(sep)] for a one-character separator: empty fields are kept. *)
Fixpoint split_on_from (sep : char) (cur : pystr) (s : pystr) : list pystr :=
  match s with
  | [] => [rev cur]
  | c :: s' =>
      if (c =? sep)%N then rev cur :: split_on_from sep [] s'
      else split_on_from sep (c :: cur) s'
  end.

Definition split_on (sep : char) (s : pystr) : list pystr :=
  split_on_from sep [] s.

(** [sep.join(parts)] *)
Fixpoint join (sep : pystr) (parts : list pystr) : pystr :=
  match parts with
  | [] => []
  | [p] => p
  | p :: rest => p ++ sep ++ join sep rest
  end.

(** [str.expandtabs(tabsize)] *)
Fixpoint expandtabs_from (tabsize col : nat) (s : pystr) : pystr :=
  match s with
  | [] => []
  | c :: s' =>
      if (c =? 9)%N then
        let incr := tabsize - col mod tabsize in
        repeat 32%N incr ++ expandtabs_from tabsize (col + incr) s'
      else if (c =? 10)%N || (c =? 13)%N then c :: expandtabs_from tabsize 0 s'
      else c :: expandtabs_from tabsize (S col) s'
  end.

Definition expandtabs (tabsize : nat) (s : pystr) : pystr :=
  expandtabs_from tabsize 0 s.

(** [s.rfind(c, 0, stop)]: the last index below [stop] holding [c]. *)
Fixpoint rfind_from (c : char) (i stop : nat) (s : pystr) : option nat :=
  match s with
  | [] => None
  | d :: s' =>
      match rfind_from c (S i) stop s' with
      | Some j => Some j
      | None => if (d =? c)%N && (i <? stop) then Some i else None
      end
  end.

Definition rfind (c : char) (stop : nat) (s : pystr) : option nat :=
  rfind_from c 0 stop s.

(** [s.encode('latin-1', 'replace').decode('latin-1')] *)
Definition encode_latin1_replace (s : pystr) : pystr :=
  map (fun c => if (c <? 256)%N then c else 63%N) s.

End Py.

(** ** [textwrap.TextWrapper]

    The wrapper the program builds is
    [TextWrapper(width=90, replace_whitespace=False)]; every other option
    keeps its default: [expand_tabs], [drop_whitespace],
    [break_long_words] and [break_on_hyphens] are on, [tabsize] is 8,
    both indents are empty, [fix_sentence_endings] is off and
    [max_lines] is [None]. *)

Module TextWrap.

Section Wrapper.

Variable U : Ucd.

(** [_whitespace = '\t\n\x0b\x0c\r '] *)
Definition ws (c : char) : bool :=
  ((9 <=? c) && (c <=? 13) || (c =? 32))%N.

Definition hyphen : char := 45%N.

(** [\w] *)
Definition word_char (c : char) : bool := isalnum U c || (c =? 95)%N.

(** [letter = [^\d\W]] *)
Definition letter (c : char) : bool := word_char c && negb (isdecimal U c).

(** [word_punct]: a [\w] character or one of the seven marks
    ! (33), double quote (34), ' (39), & (38), . (46), comma (44), ? (63). *)
Definition word_punct (c : char) : bool :=
  word_char c ||
  existsb (N.eqb c) [33; 34; 39; 38; 46; 44; 63]%N.

Definition opt_test (p : char -> bool) (o : option char) : bool :=
  match o with Some c => p c | None => false end.

Definition is_hyphen (c : char) : bool := (c =? hyphen)%N.

(** [-{2,}\w] at the head of [s]. *)
Definition emdash_then_word (s : pystr) : bool :=
  let run := length s - length (Py.dropwhile is_hyphen s) in
  (2 <=? run) && opt_test word_char (hd_error (Py.dropwhile is_hyphen s)).

(** [(?= lt -? lt)] at the head of [s]. *)
Definition letter_pair_ahead (s : pystr) : bool :=
  match s with
  | a :: b :: rest =>
      letter a &&
      (letter b || is_hyphen b && opt_test letter (hd_error rest))
  | _ => false
  end.

(** The third alternative of [wordsep_re], after its lazy [nws+?] has
    taken at least one character: [p1] is the last character taken, [p2]
    and [p3] the two before it (possibly from before the match), [s] the
    text that follows.  The result is how many more characters the match
    takes. *)
Fixpoint word_tail (p3 p2 p1 : option char) (s : pystr) : nat :=
  if opt_test is_hyphen (hd_error s) &&
     (opt_test letter p2 && opt_test letter p1 ||
      opt_test letter p3 && opt_test is_hyphen p2 && opt_test letter p1) &&
     letter_pair_ahead (tl s)
  then 1
  else if is_empty s || opt_test ws (hd_error s) then 0
  else if opt_test word_punct p1 && emdash_then_word s then 0
  else match s with
       | [] => 0
       | c :: s' => S (word_tail p2 p1 (Some c) s')
       end.

(** Length of the match of [wordsep_re] that starts at the head of a
    non-empty [s]; [before] is the text to the left, nearest character
    first. *)
Definition chunk_len (before : pystr) (s : pystr) : nat :=
  match s with
  | [] => 0
  | c :: s' =>
      if ws c then length s - length (Py.dropwhile ws s)
      else if opt_test word_punct (hd_error before) && emdash_then_word s
      then length s - length (Py.dropwhile is_hyphen s)
      else S (word_tail (nth_error before 1) (hd_error before) (Some c) s')
  end.

(** [_split]: successive matches of [wordsep_re].  Every position of the
    text starts a match, so [re.split] leaves nothing in between. *)
Fixpoint split_at (fuel : nat) (before : pystr) (s : pystr) : list pystr :=
  match fuel, s with
  | _, [] => []
  | 0, _ => [s]
  | S fuel', _ =>
      let n := chunk_len before s in
      firstn n s :: split_at fuel' (rev (firstn n s) ++ before) (skipn n s)
  end.

Definition _split (text : pystr) : list pystr :=
  split_at (length text) [] text.

(** [_munge_whitespace] with [replace_whitespace=False] *)
Definition _munge_whitespace (text : pystr) : pystr := Py.expandtabs 8 text.

Definition _split_chunks (text : pystr) : list pystr :=
  _split (_munge_whitespace text).

(** [chunk.strip() == ''] *)
Definition blank (chunk : pystr) : bool := is_empty (Py.strip chunk).

(** The inner [while chunks:] loop of [_wrap_chunks]. *)
Fixpoint fill_line (width : nat) (cur_line : list pystr) (cur_len : nat)
  (chunks : list pystr) : list pystr * nat * list pystr :=
  match chunks with
  | [] => (cur_line, cur_len, [])
  | c :: rest =>
      if cur_len + length c <=? width
      then fill_line width (cur_line ++ [c]) (cur_len + length c) rest
      else (cur_line, cur_len, chunks)
  end.

(** [_handle_long_word], [break_long_words] and [break_on_hyphens] on.
    [chunk] is the chunk on top of the stack. *)
Definition _handle_long_word (chunk : pystr) (rest : list pystr)
  (cur_line : list pystr) (cur_len width : nat) : list pystr * list pystr :=
  let space_left := if width <? 1 then 1 else width - cur_len in
  let stop :=
    if space_left <? length chunk then
      match Py.rfind hyphen space_left chunk with
      | Some h =>
          if (0 <? h) && existsb (fun c => negb (is_hyphen c)) (firstn h chunk)
          then S h else space_left
      | None => space_left
      end
    else space_left in
  (cur_line ++ [firstn stop chunk], skipn stop chunk :: rest).

Definition drop_last_blank (cur_line : list pystr) : list pystr :=
  match rev cur_line with
  | c :: before => if blank c then rev before else cur_line
  | [] => cur_line
  end.

(** One pass through the body of the outer [while chunks:] loop of
    [_wrap_chunks], entered with the stack [c0 :: rest0] (next chunk
    first) and the lines finished so far: the stack and the lines it
    leaves. *)
Definition wrap_iteration (width : nat) (c0 : pystr) (rest0 : list pystr)
  (lines : list pystr) : list pystr * list pystr :=
  let chunks1 :=
    if blank c0 && negb (is_empty lines) then rest0 else c0 :: rest0 in
  let '(cur_line, cur_len, chunks2) := fill_line width [] 0 chunks1 in
  let '(cur_line', chunks3) :=
    match chunks2 with
    | c :: rest =>
        if width <? length c
        then _handle_long_word c rest cur_line cur_len width
        else (cur_line, chunks2)
    | [] => (cur_line, chunks2)
    end in
  let cur_line'' := drop_last_blank cur_line' in
  (chunks3,
   if is_empty cur_line'' then lines else lines ++ [concat cur_line'']).

(** The outer loop.  [None] only when [fuel] runs out. *)
Fixpoint wrap_loop (fuel width : nat) (chunks lines : list pystr)
  : option (list pystr) :=
  match chunks with
  | [] => Some lines
  | c0 :: rest0 =>
      match fuel with
      | 0 => None
      | S fuel' =>
          let '(chunks', lines') := wrap_iteration width c0 rest0 lines in
          wrap_loop fuel' width chunks' lines'
      end
  end.

(** Enough iterations for [wrap_loop]: each one pops a chunk or shortens
    the long chunk on top of the stack. *)
Definition wrap_fuel (chunks : list pystr) : nat :=
  length chunks + length (concat chunks).

Definition _wrap_chunks (width : nat) (chunks : list pystr)
  : option (list pystr) :=
  wrap_loop (wrap_fuel chunks) width chunks [].

(** [TextWrapper(width=width, replace_whitespace=False).wrap(text)] *)
Definition wrap (width : nat) (text : pystr) : list pystr :=
  match _wrap_chunks width (_split_chunks text) with
  | Some lines => lines
  | None => []
  end.

End Wrapper.

End TextWrap.

(** The tables restricted to ASCII: exact on code points below 128,
    every other character is taken to be caseless and non-alphanumeric.
    Used to evaluate the model on ASCII inputs. *)
Module Ascii7.

Definition is_digit (c : char) : bool := ((48 <=? c) && (c <=? 57))%N.
Definition is_upper (c : char) : bool := ((65 <=? c) && (c <=? 90))%N.
Definition is_lower (c : char) : bool := ((97 <=? c) && (c <=? 122))%N.

Definition upper_char (c : char) : char :=
  if is_lower c then (c - 32)%N else c.
Definition lower_char (c : char) : char :=
  if is_upper c then (c + 32)%N else c.

Fixpoint title_from (in_word : bool) (s : pystr) : pystr :=
  match s with
  | [] => []
  | c :: s' =>
      (if in_word then lower_char c else upper_char c)
        :: title_from (is_upper c || is_lower c) s'
  end.

Definition db : Ucd :=
  {| isalnum := fun c => is_digit c || is_upper c || is_lower c;
     isdecimal := is_digit;
     upper := map upper_char;
     lower := map lower_char;
     title := title_from false |}.

End Ascii7.

(** ** Exceptions, the clock and the file system *)

Definition decimal (n : nat) : pystr := str (NilEmpty.string_of_uint (Nat.to_uint n)).

Definition nl : pystr := [10%N].

(** The exceptions that can reach the program's [except Exception]
    handlers: the backend's refusal of a character its font cannot
    encode, its refusal to break a text into a column without width,
    the refusal of [os.makedirs] to make the empty path, and whatever
    the upstream text generator raises. *)
Inductive exn :=
| FPDFUnicodeEncodingException (text_index : nat) (character : char)
    (font_name : pystr)
| FPDFException (message : pystr)
| FileNotFoundError (path : pystr)
| UpstreamError (message : pystr).

(** [str(e)] *)
Definition exn_str (e : exn) : pystr :=
  match e with
  | FPDFUnicodeEncodingException i c font =>
      str "Character " ++ [34%N; c; 34%N] ++ str " at index " ++ decimal i ++
      str " in text is outside the range of characters supported by the font used: " ++
      [34%N] ++ font ++ [34%N] ++ str ". Please consider using a Unicode font."
  | FPDFException m => m
  | FileNotFoundError path =>
      str "[Errno 2] No such file or directory: '" ++ path ++ str "'"
  | UpstreamError m => m
  end.

Inductive result (A : Type) :=
| Ok (a : A)
| Raise (e : exn).

Arguments Ok {A} a.
Arguments Raise {A} e.

Record datetime := mkDatetime {
  year : nat; month : nat; day : nat;
  hour : nat; minute : nat; second : nat
}.

(** Field ranges of the [datetime] objects [datetime.now()] returns
    (four-digit years). *)
Definition valid_datetime (t : datetime) : Prop :=
  1000 <= year t < 10 * 1000 /\ 1 <= month t <= 12 /\ 1 <= day t <= 31 /\
  hour t < 24 /\ minute t < 60 /\ second t < 60.

Definition digit (d : nat) : char := (48 + N.of_nat (d mod 10))%N.

(** Zero-padded decimal fields of [strftime]. *)
Definition pad2 (n : nat) : pystr := [digit (n / 10); digit n].
Definition pad4 (n : nat) : pystr :=
  [digit (n / 1000); digit (n / 100); digit (n / 10); digit n].

Definition month_name (m : nat) : pystr :=
  nth (m - 1)
    (map str ["January"; "February"; "March"; "April"; "May"; "June"; "July";
              "August"; "September"; "October"; "November"; "December"]%string)
    [].

(** [t.strftime("%Y%m%d_%H%M%S")] *)
Definition strftime_stamp (t : datetime) : pystr :=
  pad4 (year t) ++ pad2 (month t) ++ pad2 (day t) ++ str "_" ++
  pad2 (hour t) ++ pad2 (minute t) ++ pad2 (second t).

(** [t.strftime("%B %d, %Y %H:%M:%S")] *)
Definition strftime_long (t : datetime) : pystr :=
  month_name (month t) ++ str " " ++ pad2 (day t) ++ str ", " ++
  pad4 (year t) ++ str " " ++
  pad2 (hour t) ++ str ":" ++ pad2 (minute t) ++ str ":" ++ pad2 (second t).

(** ** The FPDF backend

    A document is the sequence of draw instructions the backend has
    executed.  With a core font (Helvetica, Arial) the backend encodes
    every text it is handed in Latin-1 and raises on the first character
    it cannot encode; this is the limit main.py's own re-encoding to
    ['latin-1'] is written for.  It also keeps a cursor: [multi_cell]
    leaves it at the right edge of the cell, so that a [multi_cell] of
    width 0 drawn next, without [ln] in between, has no width to break
    its text into and raises.  The widths that occur in the two
    programs are the full line (190), the line after the bullet indent
    (182) and none. *)
Module Fpdf.

Inductive align := AlignLeft | AlignCenter.

Inductive draw_op :=
| set_auto_page_break (auto : bool) (margin : nat)
| add_page
| set_font (family style : pystr) (size : nat)
| set_text_color (r g b : nat)
| multi_cell (w h : nat) (txt : pystr) (a : align)
| cell (w h : nat) (txt : pystr) (newline : bool) (a : align)
| ln (h : nat).

Definition document := list draw_op.

Definition font_supports (c : char) : bool := (c <? 256)%N.

Definition op_text (op : draw_op) : pystr :=
  match op with
  | multi_cell _ _ txt _ => txt
  | cell _ _ txt _ _ => txt
  | _ => []
  end.

(** Index and value of the first character of [txt] the font lacks. *)
Fixpoint first_unsupported (i : nat) (txt : pystr) : option (nat * char) :=
  match txt with
  | [] => None
  | c :: txt' =>
      if font_supports c then first_unsupported (S i) txt' else Some (i, c)
  end.

(** [set_font] keeps the family lower-cased, with Arial standing for
    Helvetica, and the style upper-cased; the name of the font in an
    error message is the two put together, as in [helveticaB]. *)
Definition font_name (family style : pystr) : pystr :=
  (if pystr_eqb (map Ascii7.lower_char family) (str "arial")
   then str "helvetica" else map Ascii7.lower_char family) ++
  map Ascii7.upper_char style.

(** The font in force: that of the last [set_font]. *)
Definition current_font (doc : document) : pystr :=
  fold_left
    (fun name op =>
       match op with
       | set_font family style _ => font_name family style
       | _ => name
       end) doc [].

(** The width between the margins of the A4 page, in millimetres. *)
Definition full : nat := 190.

(** The width left between the cursor and the right margin after an
    instruction.  [multi_cell] and a [cell] that does not end its line
    leave the cursor at the right edge of what they drew, a width of 0
    meaning all that is left; [ln] and a new page take the cursor back
    to the left margin. *)
Definition advance (room : nat) (op : draw_op) : nat :=
  match op with
  | add_page => full
  | ln _ => full
  | multi_cell w _ _ _ => match w with 0 => 0 | _ => room - w end
  | cell w _ _ newline _ =>
      if newline then full else match w with 0 => 0 | _ => room - w end
  | _ => room
  end.

Definition room (doc : document) : nat := fold_left advance doc full.

(** The line breaker drops blanks and line feeds; any other character
    has to be placed. *)
Definition has_glyph (txt : pystr) : bool :=
  existsb (fun c => negb ((c =? 32) || (c =? 10) || (c =? 13))%N) txt.

(** A [multi_cell] of width 0 takes the width that is left; with none
    left, the line breaker cannot place a single character. *)
Definition crowded (room : nat) (op : draw_op) : bool :=
  match op with
  | multi_cell 0 _ txt _ => (room =? 0) && has_glyph txt
  | _ => false
  end.

Definition no_space : exn :=
  FPDFException
    (str "Not enough horizontal space to render a single character").

(** The text is encoded first, then broken into lines. *)
Definition exec (op : draw_op) (pdf : document) : result document :=
  match first_unsupported 0 (op_text op) with
  | Some (i, c) => Raise (FPDFUnicodeEncodingException i c (current_font pdf))
  | None => if crowded (room pdf) op then Raise no_space else Ok (pdf ++ [op])
  end.

Fixpoint run (ops : list draw_op) (pdf : document) : result document :=
  match ops with
  | [] => Ok pdf
  | op :: ops' =>
      match exec op pdf with
      | Ok pdf' => run ops' pdf'
      | Raise e => Raise e
      end
  end.

End Fpdf.

(** The world outside the process: the directories and files on disk
    and the wall clock, [clock w i] being the [i]-th reading of
    [datetime.now()].  Of the file-system calls, only [os.makedirs]
    of the empty path is taken to fail. *)
Record world := mkWorld {
  clock : nat -> datetime;
  ticks : nat;
  dirs : list pystr;
  files : list (pystr * Fpdf.document)
}.

Definition M (A : Type) : Type := world -> result A * world.

Definition ret {A} (a : A) : M A := fun w => (Ok a, w).

Definition bind {A B} (c : M A) (k : A -> M B) : M B :=
  fun w =>
    match c w with
    | (Ok a, w') => k a w'
    | (Raise e, w') => (Raise e, w')
    end.

Definition lift {A} (r : result A) : M A := fun w => (r, w).

(** [try: c  except Exception as e: handler(e)] *)
Definition try_except {A} (c : M A) (handler : exn -> M A) : M A :=
  fun w =>
    match c w with
    | (Ok a, w') => (Ok a, w')
    | (Raise e, w') => handler e w'
    end.

Declare Scope monad_scope.
Delimit Scope monad_scope with monad.
Notation "x <- c ;; k" := (bind c (fun x => k))
  (at level 61, c at next level, right associativity) : monad_scope.
Notation "c ;; k" := (bind c (fun _ => k))
  (at level 61, right associativity) : monad_scope.
Open Scope monad_scope.

(** [datetime.now()] *)
Definition now : M datetime :=
  fun w => (Ok (clock w (ticks w)),
            mkWorld (clock w) (S (ticks w)) (dirs w) (files w)).

(** [os.makedirs(d, exist_ok=True)] *)
Definition makedirs (d : pystr) : M unit :=
  fun w =>
    if is_empty d then (Raise (FileNotFoundError d), w)
    else (Ok tt,
          mkWorld (clock w) (ticks w)
            (if existsb (pystr_eqb d) (dirs w) then dirs w else dirs w ++ [d])
            (files w)).

(** [pdf.output(path)]: the file is created or replaced. *)
Definition output (path : pystr) (pdf : Fpdf.document) : M unit :=
  fun w => (Ok tt,
            mkWorld (clock w) (ticks w) (dirs w)
              ((path, pdf) ::
               filter (fun f => negb (pystr_eqb (fst f) path)) (files w))).

(** [os.path.join(a, b)] for a relative [b]. *)
Definition path_join (a b : pystr) : pystr :=
  if is_empty a || Py.endswith a (str "/") then a ++ b else a ++ str "/" ++ b.

Definition lookup_file (path : pystr) (w : world) : option Fpdf.document :=
  match find (fun f => pystr_eqb (fst f) path) (files w) with
  | Some f => Some (snd f)
  | None => None
  end.

(** ** [src/app.py]: the hosted-API variant *)
Module App.

Import Fpdf.

Section WithTables.

Variable U : Ucd.

(** What [genai.generate] hands back: an object with optional [content]
    and [text] attributes, or a dictionary with an optional list of
    candidate dictionaries.  [repr] is [str(response)]. *)
Record candidate := mkCandidate {
  cand_content : option pystr;
  cand_output : option pystr
}.

Inductive response :=
| RespObject (content text : option pystr) (repr : pystr)
| RespDict (candidates : option (list candidate)) (repr : pystr).

(** The upstream collaborator: the call
    [genai.generate(model=..., prompt=build_prompt(topic), ...)] as a
    function of the topic. *)
Variable genai_generate : pystr -> result response.

(** [a or b] on optional strings: [None] and the empty string are falsy. *)
Definition opt_or (o : option pystr) (d : pystr) : pystr :=
  match o with Some s => if is_empty s then d else s | None => d end.

Definition extract_text (r : response) : pystr :=
  match r with
  | RespObject content text repr => opt_or content (opt_or text repr)
  | RespDict (Some (c :: _)) repr =>
      match cand_content c with
      | Some s => s
      | None => match cand_output c with Some s => s | None => repr end
      end
  | RespDict _ repr => repr
  end.

Definition generate_article_from_gemini (topic : pystr) : pystr :=
  match genai_generate topic with
  | Ok response => Py.strip (extract_text response)
  | Raise e => str "ERROR: Failed to generate article from Gemini: " ++ exn_str e
  end.

(** Lines 132-141: one raw line to its wrapped lines. *)
Definition looks_like_heading (stripped : pystr) : bool :=
  Py.endswith stripped (str ":") ||
  pystr_eqb stripped (upper U stripped) && (length (Py.split stripped) <=? 6).

Definition layout_line (line : pystr) : list pystr :=
  if is_empty (Py.strip line) then [[]]
  else
    let stripped := Py.strip line in
    if looks_like_heading stripped then [stripped]
    else TextWrap.wrap U 90 stripped.

Definition layout (article_text : pystr) : list pystr :=
  flat_map layout_line (Py.splitlines article_text).

Definition section_labels : list pystr :=
  map str ["title:"; "introduction:"; "key concepts:"; "practical examples:";
           "further reading:"; "summary:"]%string.

Definition bullet_markers : list pystr :=
  [str "- "; [8226; 32]%N; str "* "].

Definition helvetica : pystr := str "Helvetica".

Definition heading_ops (heading : pystr) : list draw_op :=
  [set_font helvetica (str "B") 14; set_text_color 40 40 80;
   multi_cell 0 8 heading AlignLeft; ln 2;
   set_font helvetica [] 11; set_text_color 10 10 30].

Definition bullet_ops (line : pystr) : list draw_op :=
  [set_font helvetica [] 11; cell 8 0 [] false AlignLeft;
   multi_cell 0 6 line AlignLeft].

Definition body_ops (line : pystr) : list draw_op :=
  [set_font helvetica [] 11; multi_cell 0 6 line AlignLeft].

(** Lines 160-183: the draw calls issued for one wrapped line. *)
Definition render_line (line : pystr) : list draw_op :=
  if is_empty (Py.strip line) then [ln 4]
  else if Py.endswith line (str ":") ||
          Py.startswith_any (lower U line) section_labels
  then heading_ops (Py.strip (Py.rstrip_chars (str ":") line))
  else if Py.startswith_any line bullet_markers then bullet_ops line
  else body_ops line.

(** Lines 143-150. *)
Definition title_ops (topic : pystr) : list draw_op :=
  [set_auto_page_break true 15; add_page;
   set_font helvetica (str "B") 20; set_text_color 40 40 80;
   multi_cell 0 10
     (if is_empty (Py.strip topic) then str "Educational Article"
      else Py.strip topic) AlignCenter;
   ln 4].

(** Lines 152-156. *)
Definition subtitle_ops (t : datetime) : list draw_op :=
  [set_font helvetica [] 10; set_text_color 90 90 110;
   multi_cell 0 6 (str "Generated on: " ++ strftime_long t) AlignCenter;
   ln 8].

Definition content_ops (wrapped_lines : list pystr) : list draw_op :=
  set_text_color 10 10 30 :: flat_map render_line wrapped_lines.

(** Line 122. *)
Definition safe_topic (topic : pystr) : pystr :=
  firstn 40
    (Py.strip
       (filter (fun c => isalnum U c || existsb (N.eqb c) [32; 45; 95]%N)
          topic)).

(** Line 123. *)
Definition filename (topic : pystr) (t : datetime) : pystr :=
  str "article_" ++
  (if is_empty (safe_topic topic) then str "topic" else safe_topic topic) ++
  str "_" ++ strftime_stamp t ++ str ".pdf".

Definition create_pdf_from_article (article_text topic out_dir : pystr)
  : M pystr :=
  makedirs out_dir ;;
  t <- now ;;
  let filepath := path_join out_dir (filename topic t) in
  let wrapped_lines := layout article_text in
  pdf <- lift (run (title_ops topic) []) ;;
  generated_on <- now ;;
  pdf <- lift (run (subtitle_ops generated_on) pdf) ;;
  pdf <- lift (run (content_ops wrapped_lines) pdf) ;;
  output filepath pdf ;;
  ret filepath.

Definition outputs : pystr := str "outputs".

Definition required_sections : list pystr :=
  map str ["Title:"; "Introduction:"; "Key Concepts:"; "Practical Examples:";
           "Further Reading:"; "Summary:"]%string.

(** Lines 215-235: the skeleton put around an article without any of
    the section labels.  8212 is the em dash. *)
Definition skeleton (topic article_text : pystr) : pystr :=
  Py.join nl
    [str "Title: " ++ title U (Py.strip topic);
     [];
     str "Introduction:";
     article_text;
     [];
     str "Key Concepts:";
     str "- (See above " ++ [8212%N] ++ str " split into bullets for clarity)";
     [];
     str "Practical Examples:";
     str "- Example 1: (Please refine)";
     str "- Example 2: (Please refine)";
     [];
     str "Further Reading:";
     str "- (Search current resources on the topic)";
     [];
     str "Summary:";
     str "- (Brief summary)"].

(** Lines 211-235: the text handed to PDF creation. *)
Definition structured (topic article_text : pystr) : pystr :=
  if existsb (Py.contains article_text) required_sections then article_text
  else skeleton topic article_text.

Definition pdf_failure_text (e : exn) (article_text : pystr) : pystr :=
  str "ERROR: Article generated but failed to create PDF: " ++ exn_str e ++
  nl ++ nl ++ str "Article content below:" ++ nl ++ nl ++ article_text.

Definition on_generate (topic : pystr) : M (pystr * option pystr) :=
  let topic := Py.strip topic in
  if is_empty topic
  then ret (str "Please enter a topic to generate an article.", None)
  else
    let article_text := generate_article_from_gemini topic in
    if Py.startswith article_text (str "ERROR:")
    then ret (article_text, None)
    else
      let article_text := structured topic article_text in
      try_except
        (pdf_path <- create_pdf_from_article article_text topic outputs ;;
         ret (article_text, Some pdf_path))
        (fun e => ret (pdf_failure_text e article_text, None)).

End WithTables.

End App.

(** ** [src/main.py]: the local-model variant *)
Module Main.

Import Fpdf.

Section WithTables.

Variable U : Ucd.

(** The upstream collaborator: tokenising the prompt, [model.generate]
    and decoding, as a function of the topic. *)
Variable model_generate : pystr -> result pystr.

Definition format_article (article topic : pystr) : pystr :=
  let article := Py.strip article in
  str "# " ++ title U topic ++ nl ++ nl ++
  str "## Introduction" ++ nl ++ nl ++
  article ++ nl ++ nl ++
  str "## Key Points" ++ nl ++ nl ++
  str "This article covers the essential aspects of " ++ topic ++
  str ", providing readers with a comprehensive understanding of the subject matter." ++
  nl ++ nl ++
  str "## Further Reading" ++ nl ++ nl ++
  str "For more information on " ++ topic ++
  str ", consider exploring academic journals, reputable online resources, and educational materials from established institutions." ++
  nl ++ nl ++
  str "## Conclusion" ++ nl ++ nl ++
  str "Understanding " ++ topic ++
  str " is valuable for educational and practical purposes. This overview provides a foundation for further exploration of the subject." ++
  nl.

Definition generate_article (topic : pystr) : result pystr :=
  match model_generate topic with
  | Ok article => Ok (format_article article topic)
  | Raise e => Raise e
  end.

Definition arial : pystr := str "Arial".

Definition flush (current_line : pystr) : list pystr :=
  if is_empty current_line then [] else [Py.strip current_line].

(** Lines 120-131: the texts of the cells drawn for the words of one
    line. *)
Fixpoint fill_words (current_line : pystr) (words : list pystr)
  : list pystr :=
  match words with
  | [] => flush current_line
  | word :: rest =>
      if length (current_line ++ word) <? 80
      then fill_words (current_line ++ word ++ str " ") rest
      else flush current_line ++ fill_words (word ++ str " ") rest
  end.

(** Lines 111-133: a line that is not a header. *)
Definition regular_line_ops (line : pystr) : list draw_op :=
  if is_empty (Py.strip line) then [ln 3]
  else
    let line_encoded := Py.encode_latin1_replace line in
    map (fun txt => cell 0 6 txt true AlignLeft)
      (fill_words [] (Py.split_on 32%N line_encoded)).

(** Lines 97-133. *)
Definition line_ops (line : pystr) : list draw_op :=
  if Py.startswith line (str "# ") then
    [set_font arial (str "B") 14; cell 0 8 (skipn 2 line) true AlignLeft;
     ln 3; set_font arial [] 11]
  else if Py.startswith line (str "## ") then
    [set_font arial (str "B") 12; cell 0 7 (skipn 3 line) true AlignLeft;
     ln 2; set_font arial [] 11]
  else regular_line_ops line.

(** Lines 82-92. *)
Definition header_ops (title : pystr) : list draw_op :=
  [add_page; set_font arial [] 12; set_font arial (str "B") 16;
   cell 0 10 title true AlignCenter; ln 10; set_font arial [] 11].

Definition stamped_name (t : datetime) : pystr :=
  str "article_" ++ strftime_stamp t ++ str ".pdf".

Definition create_pdf (title content : pystr) : M pystr :=
  pdf <- lift (run (header_ops title) []) ;;
  pdf <- lift (run (flat_map line_ops (Py.split_on 10%N content)) pdf) ;;
  t <- now ;;
  output (stamped_name t) pdf ;;
  ret (stamped_name t).

Definition generate_and_create_pdf (topic : pystr)
  : M (pystr * option pystr) :=
  if is_empty (Py.strip topic)
  then ret (str "Please enter a topic to generate an article.", None)
  else
    try_except
      (article <- lift (generate_article topic) ;;
       pdf_filename <- create_pdf (title U topic) article ;;
       ret (article, Some pdf_filename))
      (fun e => ret (str "Error generating article: " ++ exn_str e, None)).

End WithTables.

End Main.

(** ** Vocabulary of the properties *)

(** The characters that carry text content. *)
Definition nonspace (c : char) : bool := negb (Py.isspace c).

(** [w] occurs contiguously in [l]. *)
Definition infix (w l : pystr) : Prop := exists a b, l = a ++ w ++ b.

(** The texts a sequence of draw calls puts on the page. *)
Definition drawn_texts (ops : list Fpdf.draw_op) : list pystr :=
  flat_map
    (fun op =>
       match op with
       | Fpdf.multi_cell _ _ txt _ => [txt]
       | Fpdf.cell _ _ (c :: txt) _ _ => [c :: txt]
       | _ => []
       end) ops.




(** The properties as the specification words them. *)
Module Spec.

(** Number of words: the positions where a run of non-whitespace
    starts. *)
Fixpoint count_words (in_word : bool) (s : pystr) : nat :=
  match s with
  | [] => 0
  | c :: s' =>
      if Py.isspace c then count_words false s'
      else (if in_word then 0 else 1) + count_words true s'
  end.

(** (a) the line ends with a colon, or (b) the line, uppercased, equals
    itself and has at most six words. *)
Definition heading (U : Ucd) (s : pystr) : Prop :=
  (s <> [] /\ last s 0%N = 58%N) \/
  (upper U s = s /\ count_words false s <= 6).

(** The line minus its trailing colon. *)
Definition minus_trailing_colon (s : pystr) : pystr :=
  if Py.endswith s (str ":") then removelast s else s.

(** Topic sanitised to alphanumerics, spaces, hyphens and underscores,
    truncated to 40 characters. *)
Definition sanitize (U : Ucd) (topic : pystr) : pystr :=
  firstn 40
    (filter (fun c => isalnum U c || (c =? 32)%N || (c =? 45)%N || (c =? 95)%N)
       topic).

(** [article_<sanitized-topic-or-default>_<timestamp>.<ext>] *)
Definition file_name (U : Ucd) (default topic timestamp ext : pystr) : pystr :=
  str "article_" ++
  (if is_empty (sanitize U topic) then default else sanitize U topic) ++
  str "_" ++ timestamp ++ str "." ++ ext.

Definition decimal_digit (c : char) : bool := ((48 <=? c) && (c <=? 57))%N.

(** [YYYYMMDD_HHMMSS] *)
Definition is_stamp (s : pystr) : bool :=
  match s with
  | [y1; y2; y3; y4; m1; m2; d1; d2; u; h1; h2; n1; n2; s1; s2] =>
      forallb decimal_digit [y1; y2; y3; y4; m1; m2; d1; d2; h1; h2; n1; n2; s1; s2]
      && (u =? 95)%N
  | _ => false
  end.

Definition digit_val (c : char) : nat := N.to_nat (c - 48).

(** Reading the fields back out of a stamp. *)
Definition parse_stamp (s : pystr) : option datetime :=
  match s with
  | [y1; y2; y3; y4; m1; m2; d1; d2; _; h1; h2; n1; n2; s1; s2] =>
      Some (mkDatetime
              (digit_val y1 * 1000 + digit_val y2 * 100 + digit_val y3 * 10
               + digit_val y4)
              (digit_val m1 * 10 + digit_val m2)
              (digit_val d1 * 10 + digit_val d2)
              (digit_val h1 * 10 + digit_val h2)
              (digit_val n1 * 10 + digit_val n2)
              (digit_val s1 * 10 + digit_val s2))
  | _ => None
  end.

End Spec.

(** A world for the examples: noon of 1 January 2024 at every reading of
    the clock, nothing on disk. *)
Definition noon : datetime := mkDatetime 2024 1 1 12 0 0.
Definition w0 : world := mkWorld (fun _ => noon) 0 [] [].

Definition short_story : pystr -> result pystr :=
  fun _ => Ok (str "Tokyo is the capital of Japan.").

Definition plain_reply : pystr -> result App.response :=
  fun _ => Ok (App.RespObject None
                 (Some (str "Tokyo is the capital of Japan.")) []).

(** An instruction whose text the font can encode. *)
Definition accepted (op : Fpdf.draw_op) : bool :=
  forallb Fpdf.font_supports (Fpdf.op_text op).

(** Every text of the instructions finds room: no [multi_cell] with
    something to draw starts where the line before left the cursor at
    the right margin. *)
Fixpoint flows (room : nat) (ops : list Fpdf.draw_op) : bool :=
  match ops with
  | [] => true
  | op :: ops' =>
      negb (Fpdf.crowded room op) && flows (Fpdf.advance room op) ops'
  end.

(** The directories after [makedirs], the files after [output]. *)
Definition made (d : pystr) (ds : list pystr) : list pystr :=
  if existsb (pystr_eqb d) ds then ds else ds ++ [d].

Definition written (path : pystr) (pdf : Fpdf.document)
  (fs : list (pystr * Fpdf.document)) : list (pystr * Fpdf.document) :=
  (path, pdf) :: filter (fun f => negb (pystr_eqb (fst f) path)) fs.

(** A text the font can encode. *)
Definition latin1 (s : pystr) : bool := forallb Fpdf.font_supports s.

(** A character that is neither whitespace nor a colon. *)
Definition inked (c : char) : bool := nonspace c && negb (c =? 58)%N.

(** What main.py hands to the backend for a header line, as it stands:
    the line without its [# ] or [## ] marker; empty for any other
    line. *)
Definition header_text (line : pystr) : pystr :=
  if Py.startswith line (str "# ") then skipn 2 line
  else if Py.startswith line (str "## ") then skipn 3 line
  else [].

(** More upstream replies for the examples: an article that carries a
    section label, and a text that happens to open with the error
    marker. *)
Definition labelled_reply : pystr -> result App.response :=
  fun _ => Ok (App.RespObject None
                 (Some (str "Introduction:" ++ nl ++ str "Tea is a drink."))
                 []).
Definition crowded_reply : pystr -> result App.response :=
  fun _ => Ok (App.RespObject None
                 (Some (str "Summary:" ++ nl ++ str "Tea is a drink." ++ nl ++
                        str "Coffee is a drink."))
                 []).
Definition error_titled_reply : pystr -> result App.response :=
  fun _ => Ok (App.RespObject None
                 (Some (str "ERROR: the word and its history")) []).

(** The message for a blank topic. *)
Definition please_enter : pystr :=
  str "Please enter a topic to generate an article.".

(** The order of Python strings: code point by code point, a proper
    prefix first. *)
Fixpoint lex_compare (a b : pystr) : comparison :=
  match a, b with
  | [], [] => Eq
  | [], _ :: _ => Lt
  | _ :: _, [] => Gt
  | x :: a', y :: b' =>
      match (x ?= y)%N with
      | Eq => lex_compare a' b'
      | c => c
      end
  end.

Definition and_then (c d : comparison) : comparison :=
  match c with Eq => d | _ => c end.

(** The order of time, to the second. *)
Definition datetime_compare (t t' : datetime) : comparison :=
  and_then (year t ?= year t')
    (and_then (month t ?= month t')
       (and_then (day t ?= day t')
          (and_then (hour t ?= hour t')
             (and_then (minute t ?= minute t') (second t ?= second t'))))).

(** The wrapped lines leave room for each other: no line with
    something to draw comes directly after a body or bullet line, whose
    [multi_cell] leaves the cursor at the right margin.  A blank line
    and a heading both end with [ln] and give the room back; [room]
    tells whether the line before did. *)
Fixpoint aired (U : Ucd) (room : bool) (lines : list pystr) : bool :=
  match lines with
  | [] => true
  | line :: rest =>
      if is_empty (Py.strip line) then aired U true rest
      else if Py.endswith line (str ":") ||
              Py.startswith_any (lower U line) App.section_labels
      then (room ||
            negb (Fpdf.has_glyph (Py.strip (Py.rstrip_chars (str ":") line))))
           && aired U true rest
      else room && aired U false rest
  end.

(** [cut text lines]: the text is the lines in their order, with a run
    of whitespace, possibly empty, before each line and after the
    last. *)
Inductive cut : pystr -> list pystr -> Prop :=
| cut_end gap : forallb Py.isspace gap = true -> cut gap []
| cut_line gap line rest lines :
    forallb Py.isspace gap = true -> cut rest lines ->
    cut (gap ++ line ++ rest) (line :: lines).

(** The words of a group as main.py accumulates them in
    [current_line]: each followed by one blank. *)
Definition spaced (words : list pystr) : pystr :=
  concat (map (fun word => word ++ str " ") words).

(** Division and remainder by literals, for [lia]. *)
Ltac Zify.zify_post_hook ::= Z.div_mod_to_equations.

(** * Properties *)

(** ** Strings *)

Lemma pystr_eqb_eq (a b : pystr) : pystr_eqb a b = true <-> a = b.
Proof.
  unfold pystr_eqb. destruct (list_eq_dec N.eq_dec a b); split; congruence.
Qed.

Lemma is_empty_true {A} (l : list A) : is_empty l = true <-> l = [].
Proof. destruct l; simpl; split; congruence. Qed.

Lemma is_empty_false {A} (l : list A) : is_empty l = false <-> l <> [].
Proof. destruct l; simpl; split; congruence. Qed.

Lemma dropwhile_suffix p s : exists a, s = a ++ Py.dropwhile p s /\ forallb p a = true.
Proof.
  induction s as [|c s IH]; simpl.
  - exists []. auto.
  - destruct (p c) eqn:E.
    + destruct IH as [a [H1 H2]]. exists (c :: a). simpl. rewrite E, H2.
      split; [f_equal; exact H1 | reflexivity].
    + exists []. auto.
Qed.

Lemma dropwhile_head p s c t : Py.dropwhile p s = c :: t -> p c = false.
Proof.
  induction s as [|d s IH]; simpl; [discriminate|].
  destruct (p d) eqn:E; [exact IH|]. intros H. injection H as -> _. exact E.
Qed.

Lemma dropwhile_fixed p s : p (hd 0%N s) = false -> Py.dropwhile p s = s.
Proof. destruct s as [|c s]; simpl; [reflexivity|]. intros ->. reflexivity. Qed.

Lemma dropwhile_filter p s :
  filter (fun c => negb (p c)) (Py.dropwhile p s) = filter (fun c => negb (p c)) s.
Proof.
  induction s as [|c s IH]; simpl; [reflexivity|].
  destruct (p c) eqn:E; simpl; [exact IH | rewrite E; reflexivity].
Qed.

Lemma rstrip_nonspace s : filter nonspace (Py.rstrip s) = filter nonspace s.
Proof.
  unfold Py.rstrip, nonspace. rewrite filter_rev, dropwhile_filter, <- filter_rev.
  rewrite rev_involutive. reflexivity.
Qed.

Lemma strip_nonspace s : filter nonspace (Py.strip s) = filter nonspace s.
Proof.
  unfold Py.strip, Py.lstrip. unfold nonspace at 1. rewrite dropwhile_filter.
  apply rstrip_nonspace.
Qed.

Lemma strip_keeps c s : In c s -> Py.isspace c = false -> In c (Py.strip s).
Proof.
  intros Hin Hc.
  assert (H : In c (filter nonspace (Py.strip s))).
  { rewrite strip_nonspace. apply filter_In. split; [exact Hin|].
    unfold nonspace. rewrite Hc. reflexivity. }
  apply filter_In in H. tauto.
Qed.

Lemma strip_blank s : Py.strip s = [] -> filter nonspace s = [].
Proof. intros H. rewrite <- strip_nonspace, H. reflexivity. Qed.

Lemma rev_head_last {A} (s : list A) c t : rev s = c :: t -> s = rev t ++ [c].
Proof.
  intros H. rewrite <- (rev_involutive s), H. reflexivity.
Qed.

Lemma lstrip_head s : Py.isspace (hd 0%N (Py.lstrip s)) = false.
Proof.
  unfold Py.lstrip. destruct (Py.dropwhile Py.isspace s) as [|c t] eqn:E;
    [reflexivity|]. simpl. eapply dropwhile_head; exact E.
Qed.

Lemma rstrip_last s : Py.isspace (last (Py.rstrip s) 0%N) = false.
Proof.
  unfold Py.rstrip.
  destruct (Py.dropwhile Py.isspace (rev s)) as [|c t] eqn:E; [reflexivity|].
  simpl. rewrite last_last. eapply dropwhile_head; exact E.
Qed.

Lemma last_suffix (a b : pystr) d : b <> [] -> last (a ++ b) d = last b d.
Proof.
  intros Hb. induction a as [|x a IH]; [reflexivity|].
  simpl. destruct (a ++ b) eqn:E; [|exact IH].
  destruct a; destruct b; simpl in E; congruence.
Qed.

Lemma strip_ends s :
  Py.isspace (hd 0%N (Py.strip s)) = false /\
  Py.isspace (last (Py.strip s) 0%N) = false.
Proof.
  split; [apply lstrip_head|].
  unfold Py.strip, Py.lstrip.
  destruct (dropwhile_suffix Py.isspace (Py.rstrip s)) as [a [Ha _]].
  destruct (Py.dropwhile Py.isspace (Py.rstrip s)) as [|c t] eqn:E;
    [reflexivity|].
  pose proof (rstrip_last s) as Hl. rewrite Ha in Hl.
  rewrite last_suffix in Hl by discriminate. exact Hl.
Qed.

Lemma strip_fixed s :
  Py.isspace (hd 0%N s) = false -> Py.isspace (last s 0%N) = false ->
  Py.strip s = s.
Proof.
  intros Hh Hl. unfold Py.strip, Py.lstrip.
  assert (Hr : Py.rstrip s = s).
  { unfold Py.rstrip. rewrite dropwhile_fixed; [apply rev_involutive|].
    destruct (rev s) as [|c t] eqn:E; [reflexivity|].
    apply rev_head_last in E. subst s. rewrite last_last in Hl. exact Hl. }
  rewrite Hr. apply dropwhile_fixed. exact Hh.
Qed.

Lemma strip_idempotent s : Py.strip (Py.strip s) = Py.strip s.
Proof. apply strip_fixed; apply strip_ends. Qed.

Lemma startswith_nil s : Py.startswith s [] = true.
Proof. destruct s; reflexivity. Qed.

Lemma endswith_char s c :
  Py.endswith s [c] = true <-> s <> [] /\ last s 0%N = c.
Proof.
  unfold Py.endswith. simpl.
  destruct (rev s) as [|d t] eqn:E.
  - assert (s = []) by (rewrite <- (rev_involutive s), E; reflexivity).
    subst s. simpl. split; [discriminate | intros [H _]; congruence].
  - apply rev_head_last in E. subst s. simpl. rewrite last_last.
    rewrite startswith_nil, andb_true_r, N.eqb_eq. split.
    + intros ->. split; [destruct (rev t); discriminate | reflexivity].
    + tauto.
Qed.

Lemma endswith_colon s :
  Py.endswith s (str ":") = true <-> s <> [] /\ last s 0%N = 58%N.
Proof. apply endswith_char. Qed.

Lemma in_colons c : existsb (N.eqb c) (str ":") = (c =? 58)%N.
Proof. simpl. apply orb_false_r. Qed.

(** [rstrip(":")] removes the whole run of colons that ends the line. *)
Lemma rstrip_colons s :
  exists k,
    s = Py.rstrip_chars (str ":") s ++ repeat 58%N k /\
    Py.endswith (Py.rstrip_chars (str ":") s) (str ":") = false.
Proof.
  unfold Py.rstrip_chars.
  set (p := fun c : char => existsb (N.eqb c) (str ":")).
  destruct (dropwhile_suffix p (rev s)) as [a [Ha Hall]].
  exists (length a). split.
  - rewrite <- (rev_involutive s) at 1. rewrite Ha at 1.
    rewrite rev_app_distr. f_equal.
    assert (Hrep : a = repeat 58%N (length a)).
    { clear Ha. induction a as [|x a IH]; [reflexivity|].
      simpl in Hall. apply andb_true_iff in Hall as [Hx Ha].
      unfold p in Hx. rewrite in_colons in Hx. apply N.eqb_eq in Hx.
      subst x. simpl. f_equal. auto. }
    rewrite Hrep at 1. clear. induction (length a) as [|n IH]; [reflexivity|].
    simpl. rewrite IH. clear. induction n; simpl; congruence.
  - unfold Py.endswith. rewrite rev_involutive.
    destruct (Py.dropwhile p (rev s)) as [|c t] eqn:E; [reflexivity|].
    apply dropwhile_head in E. unfold p in E. rewrite in_colons in E.
    simpl. rewrite E. reflexivity.
Qed.

Lemma rstrip_colons_fixed s :
  Py.endswith s (str ":") = false -> Py.rstrip_chars (str ":") s = s.
Proof.
  intros H. unfold Py.rstrip_chars.
  rewrite dropwhile_fixed; [apply rev_involutive|].
  rewrite in_colons. unfold Py.endswith in H. simpl in H. revert H.
  destruct (rev s) as [|c t]; [reflexivity|]. simpl.
  rewrite startswith_nil, andb_true_r. tauto.
Qed.

Lemma ends_with_colon_not_blank s :
  Py.endswith s (str ":") = true -> is_empty (Py.strip s) = false.
Proof.
  intros H. apply endswith_colon in H as [Hne Hl].
  apply is_empty_false. intros E.
  assert (Hin : In 58%N (Py.strip s)).
  { apply strip_keeps; [|reflexivity].
    rewrite (app_removelast_last 0%N Hne), Hl. apply in_or_app.
    right. left. reflexivity. }
  rewrite E in Hin. exact Hin.
Qed.

Lemma split_count cur s :
  length (Py.split_from cur s) =
  if is_empty cur then Spec.count_words false s
  else S (Spec.count_words true s).
Proof.
  revert cur. induction s as [|c s IH]; intros cur; simpl.
  - destruct cur; reflexivity.
  - destruct (Py.isspace c).
    + destruct cur; simpl; rewrite IH; reflexivity.
    + rewrite IH. simpl. destruct cur; reflexivity.
Qed.

(** ** C10 *)

Lemma dropwhile_keeps_last p (l : pystr) c :
  p c = false -> exists d, Py.dropwhile p (l ++ [c]) = d ++ [c].
Proof.
  intros Hc. induction l as [|x l IH]; simpl.
  - rewrite Hc. exists []. reflexivity.
  - destruct (p x); [exact IH|]. exists (x :: l). reflexivity.
Qed.

Lemma rstrip_chars_cons chars c s :
  existsb (N.eqb c) chars = false ->
  exists t, Py.rstrip_chars chars (c :: s) = c :: t.
Proof.
  intros Hc. unfold Py.rstrip_chars. cbn [rev].
  destruct (dropwhile_keeps_last (fun c => existsb (N.eqb c) chars) (rev s) c Hc)
    as [d ->].
  rewrite rev_app_distr. exists (rev d). reflexivity.
Qed.

Lemma strip_cons c s :
  Py.isspace c = false -> exists t, Py.strip (c :: s) = c :: t.
Proof.
  intros Hc. unfold Py.strip, Py.lstrip, Py.rstrip. cbn [rev].
  destruct (dropwhile_keeps_last Py.isspace (rev s) c Hc) as [d ->].
  rewrite rev_app_distr. exists (rev d). simpl. rewrite Hc. reflexivity.
Qed.

Lemma current_font_app pdf family style size ops :
  forallb (fun op => match op with Fpdf.set_font _ _ _ => false
                     | _ => true end) ops = true ->
  Fpdf.current_font (pdf ++ Fpdf.set_font family style size :: ops) =
  Fpdf.font_name family style.
Proof.
  unfold Fpdf.current_font. rewrite fold_left_app. cbn [fold_left].
  generalize (Fpdf.font_name family style) as name.
  induction ops as [|op ops IH]; intros name H; [reflexivity|].
  simpl in H. apply andb_true_iff in H as [H1 H2]. cbn [fold_left].
  destruct op; try discriminate H1; apply IH; exact H2.
Qed.

(** ** C2 *)

Lemma looks_like_heading_spec (U : Ucd) (s : pystr) :
  App.looks_like_heading U s = true <-> Spec.heading U s.
Proof.
  unfold App.looks_like_heading, Spec.heading, Py.split.
  rewrite orb_true_iff, andb_true_iff, endswith_colon, pystr_eqb_eq.
  rewrite Nat.leb_le, split_count. simpl.
  split; (intros [H|[H1 H2]]; [left; exact H | right; split; congruence]).
Qed.

Lemma render_stripped_text (U : Ucd) (s : pystr) :
  s <> [] -> Py.strip s = s ->
  drawn_texts (App.render_line U s) =
  [Py.strip (Py.rstrip_chars (str ":") s)].
Proof.
  intros Hne Hs. unfold App.render_line. rewrite Hs.
  apply is_empty_false in Hne. rewrite Hne.
  destruct (Py.endswith s (str ":")) eqn:Hend;
    rewrite ?orb_true_l, ?orb_false_l; [reflexivity|].
  destruct (Py.startswith_any (lower U s) App.section_labels);
    [reflexivity|].
  rewrite (rstrip_colons_fixed _ Hend), Hs.
  destruct (Py.startswith_any s App.bullet_markers); reflexivity.
Qed.

(** C2 (as amended). For a non-blank line the wrap stage takes the
    heading branch exactly when the stripped line ends with a colon, or
    equals its own uppercasing and has at most six words.  A heading
    line is not wrapped: it yields the stripped line as one wrapped
    line, whatever its length, and the text drawn for it is that line
    without the whole run of colons that ends it, stripped again.  Any
    other non-blank line goes through the wrapper at width 90. *)
Theorem heading_lines_pass_unwrapped (U : Ucd) (line : pystr) :
  Py.strip line <> [] ->
  (App.looks_like_heading U (Py.strip line) = true <->
   Spec.heading U (Py.strip line)) /\
  (App.looks_like_heading U (Py.strip line) = true ->
   App.layout_line U line = [Py.strip line] /\
   drawn_texts (flat_map (App.render_line U) (App.layout_line U line)) =
   [Py.strip (Py.rstrip_chars (str ":") (Py.strip line))]) /\
  (App.looks_like_heading U (Py.strip line) = false ->
   App.layout_line U line = TextWrap.wrap U 90 (Py.strip line)).
Proof.
  intros Hne. split; [apply looks_like_heading_spec|].
  unfold App.layout_line. rewrite (proj2 (is_empty_false _) Hne).
  split; intros ->; [|reflexivity].
  split; [reflexivity|]. simpl. rewrite app_nil_r.
  apply render_stripped_text; [exact Hne | apply strip_idempotent].
Qed.

Lemma heading_lines_pass_unwrapped_witness :
  (App.looks_like_heading Ascii7.db (Py.strip (str "  Key Concepts: ")) = true <->
   Spec.heading Ascii7.db (Py.strip (str "  Key Concepts: "))) /\
  (App.looks_like_heading Ascii7.db (Py.strip (str "  Key Concepts: ")) = true ->
   App.layout_line Ascii7.db (str "  Key Concepts: ") =
   [Py.strip (str "  Key Concepts: ")] /\
   drawn_texts (flat_map (App.render_line Ascii7.db)
                  (App.layout_line Ascii7.db (str "  Key Concepts: "))) =
   [Py.strip (Py.rstrip_chars (str ":") (Py.strip (str "  Key Concepts: ")))]) /\
  (App.looks_like_heading Ascii7.db (Py.strip (str "  Key Concepts: ")) = false ->
   App.layout_line Ascii7.db (str "  Key Concepts: ") =
   TextWrap.wrap Ascii7.db 90 (Py.strip (str "  Key Concepts: "))).
Proof.
  apply (heading_lines_pass_unwrapped Ascii7.db (str "  Key Concepts: ")).
  vm_compute. discriminate.
Defined.

(** C2, the claim as worded fails: the line [Note::] is a heading at the
    wrap stage, and the text drawn for it is [Note], not the line minus
    its trailing colon. *)
Lemma double_colon_heading_loses_both_colons :
  App.looks_like_heading Ascii7.db (Py.strip (str "Note::")) = true /\
  drawn_texts (flat_map (App.render_line Ascii7.db)
                 (App.layout_line Ascii7.db (str "Note::"))) = [str "Note"] /\
  Spec.minus_trailing_colon (Py.strip (str "Note::")) = str "Note:" /\
  drawn_texts (flat_map (App.render_line Ascii7.db)
                 (App.layout_line Ascii7.db (str "Note::"))) <>
  [Spec.minus_trailing_colon (Py.strip (str "Note::"))].
Proof.
  repeat split; try reflexivity. vm_compute. discriminate.
Qed.

(** ** The backend and the two PDF writers *)

Lemma first_unsupported_none i txt :
  forallb Fpdf.font_supports txt = true -> Fpdf.first_unsupported i txt = None.
Proof.
  revert i. induction txt as [|c txt IH]; intros i; simpl; [reflexivity|].
  intros H. apply andb_true_iff in H as [Hc Ht]. rewrite Hc. auto.
Qed.

Lemma first_unsupported_some i txt :
  forallb Fpdf.font_supports txt = false ->
  exists j c, Fpdf.first_unsupported i txt = Some (j, c).
Proof.
  revert i. induction txt as [|c txt IH]; intros i; simpl; [discriminate|].
  destruct (Fpdf.font_supports c); simpl; [apply IH | eauto].
Qed.

Lemma run_app ops1 ops2 pdf :
  Fpdf.run (ops1 ++ ops2) pdf =
  match Fpdf.run ops1 pdf with
  | Ok pdf' => Fpdf.run ops2 pdf'
  | Raise e => Raise e
  end.
Proof.
  revert pdf. induction ops1 as [|op ops1 IH]; intros pdf; simpl;
    [reflexivity|].
  destruct (Fpdf.exec op pdf); [apply IH | reflexivity].
Qed.

Lemma room_app pdf ops :
  Fpdf.room (pdf ++ ops) = fold_left Fpdf.advance ops (Fpdf.room pdf).
Proof. unfold Fpdf.room. apply fold_left_app. Qed.

Lemma flows_app r ops1 ops2 :
  flows r (ops1 ++ ops2) =
  flows r ops1 && flows (fold_left Fpdf.advance ops1 r) ops2.
Proof.
  revert r. induction ops1 as [|op ops1 IH]; intros r; simpl; [reflexivity|].
  rewrite IH, andb_assoc. reflexivity.
Qed.

(** The backend either executes every instruction or stops at the first
    text it cannot encode or cannot place. *)
Lemma run_result ops pdf :
  (forallb accepted ops && flows (Fpdf.room pdf) ops = true /\
   Fpdf.run ops pdf = Ok (pdf ++ ops)) \/
  (forallb accepted ops && flows (Fpdf.room pdf) ops = false /\
   exists e, Fpdf.run ops pdf = Raise e).
Proof.
  revert pdf. induction ops as [|op ops IH]; intros pdf; simpl.
  - left. rewrite app_nil_r. auto.
  - unfold Fpdf.exec. destruct (accepted op) eqn:Hop.
    + rewrite (first_unsupported_none 0 _ Hop). simpl.
      destruct (Fpdf.crowded (Fpdf.room pdf) op) eqn:Hc; simpl.
      * right. rewrite andb_false_r. eauto.
      * destruct (IH (pdf ++ [op])) as [[H1 H2]|[H1 H2]];
          rewrite room_app in H1; simpl in H1.
        -- left. rewrite H2, <- app_assoc. auto.
        -- right. auto.
    + destruct (first_unsupported_some 0 _ Hop) as [j [c ->]].
      right. simpl. eauto.
Qed.

Lemma pystr_eqb_refl s : pystr_eqb s s = true.
Proof. apply pystr_eqb_eq. reflexivity. Qed.

Lemma lookup_written path pdf fs c n ds :
  lookup_file path (mkWorld c n ds (written path pdf fs)) = Some pdf.
Proof.
  unfold lookup_file, written. simpl. rewrite pystr_eqb_refl. reflexivity.
Qed.

Lemma is_empty_nonempty {A} (l : list A) : l <> [] -> is_empty l = false.
Proof. destruct l; [congruence | reflexivity]. Qed.

(** The title block and the subtitle start a line and end one. *)
Lemma title_ops_flow topic r pdf :
  flows r (App.title_ops topic) = true /\
  Fpdf.room (pdf ++ App.title_ops topic) = Fpdf.full.
Proof. split; [|rewrite room_app]; reflexivity. Qed.

Lemma subtitle_ops_flow t pdf :
  Fpdf.room pdf = Fpdf.full ->
  flows Fpdf.full (App.subtitle_ops t) = true /\
  Fpdf.room (pdf ++ App.subtitle_ops t) = Fpdf.full.
Proof. intros H. split; [|rewrite room_app]; reflexivity. Qed.

(** [os.makedirs] refuses the empty path before anything else
    happens. *)
Lemma create_in_no_directory (U : Ucd) article topic w :
  App.create_pdf_from_article U article topic [] w =
  (Raise (FileNotFoundError []), w).
Proof. reflexivity. Qed.

(** Everything [create_pdf_from_article] can do in a directory it can
    make: write the whole document after two readings of the clock, or
    raise after one or two readings and leave the files alone. *)
Lemma create_pdf_from_article_result (U : Ucd) article topic out_dir w :
  out_dir <> [] ->
  let ops := App.title_ops topic ++
             App.subtitle_ops (clock w (S (ticks w))) ++
             App.content_ops U (App.layout U article) in
  let path := path_join out_dir (App.filename U topic (clock w (ticks w))) in
  (forallb accepted ops &&
   flows Fpdf.full (App.content_ops U (App.layout U article)) = true /\
   App.create_pdf_from_article U article topic out_dir w =
   (Ok path,
    mkWorld (clock w) (S (S (ticks w))) (made out_dir (dirs w))
      (written path ops (files w)))) \/
  (forallb accepted ops &&
   flows Fpdf.full (App.content_ops U (App.layout U article)) = false /\
   exists e n,
     App.create_pdf_from_article U article topic out_dir w =
     (Raise e,
      mkWorld (clock w) (S n + ticks w) (made out_dir (dirs w)) (files w))
     /\ n <= 1).
Proof.
  intros Hdir ops path. subst ops.
  unfold App.create_pdf_from_article, bind, makedirs, now, lift, output, ret.
  rewrite (is_empty_nonempty Hdir).
  cbn [clock ticks dirs files].
  rewrite !forallb_app.
  destruct (title_ops_flow topic Fpdf.full []) as [F1 M1].
  destruct (subtitle_ops_flow (clock w (S (ticks w))) (App.title_ops topic) M1)
    as [F2 M2].
  destruct (run_result (App.title_ops topic) []) as [[H1 R1]|[H1 [e R1]]];
    change (Fpdf.room []) with Fpdf.full in H1;
    rewrite F1, andb_true_r in H1; rewrite H1, R1; cbn [app andb].
  2:{ right. split; [reflexivity|]. exists e, 0. auto. }
  destruct (run_result (App.subtitle_ops (clock w (S (ticks w))))
              (App.title_ops topic)) as [[H2 R2]|[H2 [e R2]]];
    change ([] ++ App.title_ops topic) with (App.title_ops topic) in M1;
    rewrite M1, F2, andb_true_r in H2; rewrite H2, R2; cbn [app andb].
  2:{ right. split; [reflexivity|]. exists e, 1. auto. }
  destruct (run_result (App.content_ops U (App.layout U article))
              (App.title_ops topic ++
               App.subtitle_ops (clock w (S (ticks w)))))
    as [[H3 R3]|[H3 [e R3]]]; rewrite M2 in H3; rewrite H3, R3.
  - left. split; [reflexivity|]. rewrite <- app_assoc. reflexivity.
  - right. split; [reflexivity|]. exists e, 1. auto.
Qed.

Arguments create_pdf_from_article_result : clear implicits.

Lemma outputs_nonempty : App.outputs <> [].
Proof. discriminate. Qed.

Lemma create_ok_dir (U : Ucd) article topic out_dir w path w' :
  App.create_pdf_from_article U article topic out_dir w = (Ok path, w') ->
  out_dir <> [].
Proof. intros H ->. rewrite create_in_no_directory in H. discriminate. Qed.

Lemma no_multi_cell_flows r ops :
  forallb (fun op => match op with Fpdf.multi_cell _ _ _ _ => false
                     | _ => true end) ops = true ->
  flows r ops = true.
Proof.
  revert r. induction ops as [|op ops IH]; intros r; simpl; [reflexivity|].
  intros H. apply andb_true_iff in H as [H1 H2].
  rewrite IH by exact H2. destruct op; try discriminate; reflexivity.
Qed.

Lemma line_ops_no_multi_cell line :
  forallb (fun op => match op with Fpdf.multi_cell _ _ _ _ => false
                     | _ => true end) (Main.line_ops line) = true.
Proof.
  unfold Main.line_ops, Main.regular_line_ops.
  destruct (Py.startswith line (str "# ")); [reflexivity|].
  destruct (Py.startswith line (str "## ")); [reflexivity|].
  destruct (is_empty (Py.strip line)); [reflexivity|].
  apply forallb_forall. intros op Hop. apply in_map_iff in Hop as [t [<- _]].
  reflexivity.
Qed.

(** main.py ends every cell's line, so its texts always find room. *)
Lemma main_ops_flow r lines :
  flows r (flat_map Main.line_ops lines) = true.
Proof.
  apply no_multi_cell_flows. induction lines as [|l ls IH]; simpl;
    [reflexivity|].
  rewrite forallb_app, line_ops_no_multi_cell. exact IH.
Qed.

(** The same for [PDFGenerator.create_pdf]: the clock is read once,
    after all drawing. *)
Lemma create_pdf_result title content w :
  let ops := Main.header_ops title ++
             flat_map Main.line_ops (Py.split_on 10%N content) in
  let path := Main.stamped_name (clock w (ticks w)) in
  (forallb accepted ops = true /\
   Main.create_pdf title content w =
   (Ok path,
    mkWorld (clock w) (S (ticks w)) (dirs w) (written path ops (files w)))) \/
  (forallb accepted ops = false /\
   exists e, Main.create_pdf title content w = (Raise e, w)).
Proof.
  intros ops path. subst ops.
  unfold Main.create_pdf, bind, now, lift, output, ret.
  cbn [clock ticks dirs files].
  rewrite !forallb_app.
  destruct (run_result (Main.header_ops title) []) as [[H1 R1]|[H1 [e R1]]];
    change (flows (Fpdf.room []) (Main.header_ops title)) with true in H1;
    rewrite andb_true_r in H1; rewrite H1, R1; cbn [app andb].
  2:{ right. split; [reflexivity|]. exists e. reflexivity. }
  destruct (run_result (flat_map Main.line_ops (Py.split_on 10%N content))
              (Main.header_ops title)) as [[H2 R2]|[H2 [e R2]]];
    rewrite main_ops_flow, andb_true_r in H2; rewrite H2, R2.
  - left. auto.
  - right. split; [reflexivity|]. exists e. reflexivity.
Qed.

Lemma infix_here (w b : pystr) : infix w (w ++ b).
Proof. exists [], b. reflexivity. Qed.

Lemma infix_app_r (w p l : pystr) : infix w l -> infix w (p ++ l).
Proof.
  intros [a [b ->]]. exists (p ++ a), b. rewrite app_assoc. reflexivity.
Qed.

Lemma infix_app_l (w l q : pystr) : infix w l -> infix w (l ++ q).
Proof.
  intros [a [b ->]]. exists a, (b ++ q). rewrite <- !app_assoc. reflexivity.
Qed.

Lemma infix_refl (w : pystr) : infix w w.
Proof. exists [], []. rewrite app_nil_r. reflexivity. Qed.

Lemma structured_keeps_article (U : Ucd) topic article :
  infix article (App.structured U topic article).
Proof.
  unfold App.structured.
  destruct (existsb (Py.contains article) App.required_sections);
    [apply infix_refl|].
  unfold App.skeleton. cbn [Py.join].
  do 6 apply infix_app_r. apply infix_here.
Qed.

(** ** C5 *)

(** C5 (as amended). When generation succeeds and PDF creation raises,
    [on_generate] of app.py answers with no file reference and with the
    text [ERROR: Article generated but failed to create PDF: <e>]
    followed by the article, so the generated text is still part of what
    the caller receives; [generate_and_create_pdf] of main.py answers
    with no file reference and with [Error generating article: <e>]
    alone, the article being dropped. *)
Theorem pdf_failure_degrades (U : Ucd) :
  (forall genai topic w e w',
     Py.strip topic <> [] ->
     Py.startswith (App.generate_article_from_gemini genai (Py.strip topic))
       (str "ERROR:") = false ->
     App.create_pdf_from_article U
       (App.structured U (Py.strip topic)
          (App.generate_article_from_gemini genai (Py.strip topic)))
       (Py.strip topic) App.outputs w = (Raise e, w') ->
     App.on_generate U genai topic w =
     (Ok (App.pdf_failure_text e
            (App.structured U (Py.strip topic)
               (App.generate_article_from_gemini genai (Py.strip topic))),
          None), w') /\
     infix (App.generate_article_from_gemini genai (Py.strip topic))
       (App.pdf_failure_text e
          (App.structured U (Py.strip topic)
             (App.generate_article_from_gemini genai (Py.strip topic))))) /\
  (forall model topic article w e w',
     Py.strip topic <> [] ->
     Main.generate_article U model topic = Ok article ->
     Main.create_pdf (title U topic) article w = (Raise e, w') ->
     Main.generate_and_create_pdf U model topic w =
     (Ok (str "Error generating article: " ++ exn_str e, None), w')).
Proof.
  split.
  - intros genai topic w e w' Hne Hok Hpdf. split.
    + unfold App.on_generate. rewrite (proj2 (is_empty_false _) Hne), Hok.
      unfold try_except, bind. rewrite Hpdf. reflexivity.
    + unfold App.pdf_failure_text. do 7 apply infix_app_r.
      apply structured_keeps_article.
  - intros model topic article w e w' Hne Hgen Hpdf.
    unfold Main.generate_and_create_pdf.
    rewrite (proj2 (is_empty_false _) Hne).
    unfold try_except, bind, lift. rewrite Hgen, Hpdf. reflexivity.
Qed.

Lemma pdf_failure_degrades_witness :
  (exists e w',
     App.on_generate Ascii7.db plain_reply (str "AI") w0 =
     (Ok (App.pdf_failure_text e
            (App.structured Ascii7.db (str "AI")
               (str "Tokyo is the capital of Japan.")), None), w')) /\
  (exists e,
     Main.generate_and_create_pdf Ascii7.db short_story [26085; 26412]%N w0 =
     (Ok (str "Error generating article: " ++ exn_str e, None), w0)).
Proof.
  split.
  - exists (FPDFUnicodeEncodingException 13 8212%N (str "helvetica")).
    eexists.
    refine (proj1 (proj1 (pdf_failure_degrades Ascii7.db)
                     plain_reply (str "AI") w0 _ _ _ _ _)).
    + vm_compute. discriminate.
    + vm_compute. reflexivity.
    + vm_compute. reflexivity.
  - exists (FPDFUnicodeEncodingException 0 26085%N (str "helveticaB")).
    refine (proj2 (pdf_failure_degrades Ascii7.db)
              short_story [26085; 26412]%N _ w0 _ w0 _ _ _).
    + vm_compute. discriminate.
    + vm_compute. reflexivity.
    + vm_compute. reflexivity.
Defined.

(** C5, the claim as worded fails in main.py: for the topic of two CJK
    characters generation succeeds, drawing the title raises, and the
    text handed back is the error message alone; the generated article
    is not part of it. *)
Lemma main_pdf_failure_drops_article :
  Main.generate_article Ascii7.db short_story [26085; 26412]%N =
    Ok (Main.format_article Ascii7.db (str "Tokyo is the capital of Japan.")
          [26085; 26412]%N) /\
  (exists e,
     Main.create_pdf (title Ascii7.db [26085; 26412]%N)
       (Main.format_article Ascii7.db (str "Tokyo is the capital of Japan.")
          [26085; 26412]%N) w0 = (Raise e, w0)) /\
  (exists text,
     fst (Main.generate_and_create_pdf Ascii7.db short_story
            [26085; 26412]%N w0) = Ok (text, None) /\
     Py.contains text (str "Tokyo is the capital of Japan.") = false).
Proof.
  split; [reflexivity|]. split; [eexists; vm_compute; reflexivity|].
  eexists; split; vm_compute; reflexivity.
Qed.

(** ** C6 *)

Lemma made_in d ds : In d (made d ds).
Proof.
  unfold made. destruct (existsb (pystr_eqb d) ds) eqn:E.
  - apply existsb_exists in E as [x [Hin Hx]].
    apply pystr_eqb_eq in Hx. subst x. exact Hin.
  - apply in_or_app. right. left. reflexivity.
Qed.




(** ** Time stamps *)

Lemma digit_val_digit d : Spec.digit_val (digit d) = d mod 10.
Proof. unfold Spec.digit_val, digit. lia. Qed.

Lemma digit_is_digit d : Spec.decimal_digit (digit d) = true.
Proof.
  unfold Spec.decimal_digit, digit. apply andb_true_iff.
  rewrite !N.leb_le. pose proof (Nat.mod_upper_bound d 10). lia.
Qed.

Lemma digit_supported d : Fpdf.font_supports (digit d) = true.
Proof.
  unfold Fpdf.font_supports, digit. apply N.ltb_lt.
  pose proof (Nat.mod_upper_bound d 10). lia.
Qed.

Lemma two_digits n : n < 100 -> (n / 10) mod 10 * 10 + n mod 10 = n.
Proof. intros H. lia. Qed.

Lemma four_digits n :
  n < 10 * 1000 ->
  (n / 1000) mod 10 * 1000 + (n / 100) mod 10 * 100 + (n / 10) mod 10 * 10
  + n mod 10 = n.
Proof. intros H. lia. Qed.

Lemma stamp_shape t : Spec.is_stamp (strftime_stamp t) = true.
Proof.
  unfold strftime_stamp, pad4, pad2. cbn [app str map list_ascii_of_string].
  unfold Spec.is_stamp. cbn [forallb]. rewrite !digit_is_digit. reflexivity.
Qed.

(** The stamp holds the six fields in decimal. *)
Lemma stamp_roundtrip t :
  valid_datetime t -> Spec.parse_stamp (strftime_stamp t) = Some t.
Proof.
  intros (Hy & Hm & Hd & Hh & Hn & Hs).
  unfold strftime_stamp, pad4, pad2. cbn [app str map list_ascii_of_string].
  unfold Spec.parse_stamp. rewrite !digit_val_digit.
  rewrite four_digits by lia. rewrite !two_digits by lia.
  destruct t; reflexivity.
Qed.

Lemma stamp_injective t t' :
  valid_datetime t -> valid_datetime t' ->
  strftime_stamp t = strftime_stamp t' -> t = t'.
Proof.
  intros Ht Ht' H. apply stamp_roundtrip in Ht, Ht'.
  rewrite H in Ht. congruence.
Qed.

Lemma month_name_supported m :
  forallb Fpdf.font_supports (month_name m) = true.
Proof.
  unfold month_name.
  do 12 (destruct m as [|m]; [reflexivity|]); simpl.
  do 12 (destruct m as [|m]; [reflexivity|]). reflexivity.
Qed.

Lemma subtitle_supported t :
  forallb Fpdf.font_supports (str "Generated on: " ++ strftime_long t) = true.
Proof.
  unfold strftime_long, pad4, pad2.
  rewrite !forallb_app, month_name_supported. cbn [forallb].
  rewrite !digit_supported. reflexivity.
Qed.

(** ** C9 *)

Lemma title_ops_accepted topic :
  forallb Fpdf.font_supports (Py.strip topic) = true ->
  forallb accepted (App.title_ops topic) = true.
Proof.
  intros H. unfold App.title_ops, accepted. cbn [forallb Fpdf.op_text].
  destruct (is_empty (Py.strip topic)); [reflexivity|].
  rewrite H. reflexivity.
Qed.

Lemma subtitle_ops_accepted t : forallb accepted (App.subtitle_ops t) = true.
Proof.
  unfold App.subtitle_ops, accepted. cbn [forallb Fpdf.op_text].
  rewrite subtitle_supported. reflexivity.
Qed.

(** The title is the first text drawn: a character of the stripped
    topic that the font cannot encode stops the run at the title, in
    the bold Helvetica set for it. *)
Lemma title_run_raises topic :
  forallb Fpdf.font_supports (Py.strip topic) = false ->
  exists i c,
    Fpdf.first_unsupported 0 (Py.strip topic) = Some (i, c) /\
    Fpdf.run (App.title_ops topic) [] =
    Raise (FPDFUnicodeEncodingException i c (str "helveticaB")).
Proof.
  intros H. destruct (first_unsupported_some 0 _ H) as [i [c Hic]].
  exists i, c. split; [exact Hic|].
  assert (Hne : is_empty (Py.strip topic) = false).
  { destruct (Py.strip topic); [discriminate H | reflexivity]. }
  unfold App.title_ops. rewrite Hne.
  cbn [Fpdf.run Fpdf.exec Fpdf.op_text Fpdf.first_unsupported Fpdf.crowded
       app].
  unfold Fpdf.exec at 1. cbn [Fpdf.op_text]. rewrite Hic. reflexivity.
Qed.

(** C9 (as amended). For the empty body, in an output directory with a
    name, and a topic whose stripped characters the font can encode,
    PDF creation does not raise: it returns the path of a file that is
    on disk afterwards and holds the title block, the timestamp subtitle
    and nothing of a body (the only instruction after the subtitle sets
    the text colour); the texts on the page are the title and the
    [Generated on:] line.  When the stripped topic holds a character the
    font cannot encode, drawing the title raises on the first such
    character, in the font [helveticaB], after one reading of the clock,
    and no file is written.  With the empty directory name
    [os.makedirs] raises before anything else happens. *)
Theorem empty_body_gives_title_page (U : Ucd) (topic out_dir : pystr)
  (w : world) :
  (out_dir <> [] ->
   forallb Fpdf.font_supports (Py.strip topic) = true ->
   exists path w',
     App.create_pdf_from_article U [] topic out_dir w = (Ok path, w') /\
     lookup_file path w' =
       Some (App.title_ops topic ++
             App.subtitle_ops (clock w (S (ticks w))) ++
             [Fpdf.set_text_color 10 10 30]) /\
     drawn_texts (App.title_ops topic ++
                  App.subtitle_ops (clock w (S (ticks w))) ++
                  [Fpdf.set_text_color 10 10 30]) =
       [if is_empty (Py.strip topic) then str "Educational Article"
        else Py.strip topic;
        str "Generated on: " ++ strftime_long (clock w (S (ticks w)))]) /\
  (out_dir <> [] ->
   forallb Fpdf.font_supports (Py.strip topic) = false ->
   exists i c,
     Fpdf.first_unsupported 0 (Py.strip topic) = Some (i, c) /\
     App.create_pdf_from_article U [] topic out_dir w =
     (Raise (FPDFUnicodeEncodingException i c (str "helveticaB")),
      mkWorld (clock w) (S (ticks w)) (made out_dir (dirs w)) (files w))) /\
  (out_dir = [] ->
   App.create_pdf_from_article U [] topic out_dir w =
   (Raise (FileNotFoundError []), w)).
Proof.
  split; [|split].
  - intros Hdir Htopic.
    destruct (create_pdf_from_article_result U [] topic out_dir w Hdir)
      as [[_ H]|[H _]].
    + do 2 eexists. split; [exact H|]. split; [apply lookup_written|].
      reflexivity.
    + exfalso.
      rewrite !forallb_app, title_ops_accepted, subtitle_ops_accepted
        in H by exact Htopic.
      discriminate H.
  - intros Hdir Htopic.
    destruct (title_run_raises topic Htopic) as [i [c [Hic Hrun]]].
    exists i, c. split; [exact Hic|].
    unfold App.create_pdf_from_article, bind, makedirs, now, lift.
    rewrite (is_empty_nonempty Hdir). cbn [clock ticks dirs files].
    rewrite Hrun. reflexivity.
  - intros ->. apply create_in_no_directory.
Qed.

Lemma empty_body_gives_title_page_witness :
  (exists path w',
     App.create_pdf_from_article Ascii7.db [] (str "AI") App.outputs w0 =
       (Ok path, w') /\
     lookup_file path w' =
       Some (App.title_ops (str "AI") ++
             App.subtitle_ops (clock w0 (S (ticks w0))) ++
             [Fpdf.set_text_color 10 10 30]) /\
     drawn_texts (App.title_ops (str "AI") ++
                  App.subtitle_ops (clock w0 (S (ticks w0))) ++
                  [Fpdf.set_text_color 10 10 30]) =
       [if is_empty (Py.strip (str "AI")) then str "Educational Article"
        else Py.strip (str "AI");
        str "Generated on: " ++ strftime_long (clock w0 (S (ticks w0)))]) /\
  (exists i c,
     Fpdf.first_unsupported 0 (Py.strip [26085; 26412]%N) = Some (i, c) /\
     App.create_pdf_from_article Ascii7.db [] [26085; 26412]%N App.outputs
       w0 =
     (Raise (FPDFUnicodeEncodingException i c (str "helveticaB")),
      mkWorld (clock w0) (S (ticks w0)) (made App.outputs (dirs w0))
        (files w0))) /\
  App.create_pdf_from_article Ascii7.db [] (str "AI") [] w0 =
  (Raise (FileNotFoundError []), w0).
Proof.
  split; [|split].
  - apply (proj1 (empty_body_gives_title_page Ascii7.db (str "AI")
                    App.outputs w0)); [discriminate | reflexivity].
  - apply (proj1 (proj2 (empty_body_gives_title_page Ascii7.db
                           [26085; 26412]%N App.outputs w0)));
      [discriminate | reflexivity].
  - apply (proj2 (proj2 (empty_body_gives_title_page Ascii7.db (str "AI")
                           [] w0))). reflexivity.
Defined.

(** C9, the claim as worded fails: with the empty body and a topic of
    two CJK characters, drawing the title raises and no file is
    written. *)
Lemma empty_body_with_cjk_topic_raises :
  App.create_pdf_from_article Ascii7.db [] [26085; 26412]%N App.outputs w0 =
  (Raise (FPDFUnicodeEncodingException 0 26085%N (str "helveticaB")),
   mkWorld (clock w0) 1 [App.outputs] []).
Proof. vm_compute. reflexivity. Qed.

(** ** C8 *)

Lemma strip_infix s : exists a b, s = a ++ Py.strip s ++ b.
Proof.
  unfold Py.strip, Py.lstrip.
  destruct (dropwhile_suffix Py.isspace (Py.rstrip s)) as [a [Ha _]].
  unfold Py.rstrip in Ha at 1.
  destruct (dropwhile_suffix Py.isspace (rev s)) as [b [Hb _]].
  exists a, (rev b). rewrite app_assoc, <- Ha.
  rewrite <- rev_app_distr, <- Hb. symmetry. apply rev_involutive.
Qed.

Lemma strip_forallb p s :
  forallb p s = true -> forallb p (Py.strip s) = true.
Proof.
  destruct (strip_infix s) as [a [b H]]. intros Hp.
  rewrite H, !forallb_app in Hp.
  apply andb_true_iff in Hp as [_ Hp]. apply andb_true_iff in Hp. tauto.
Qed.

Lemma firstn_forallb {A} (p : A -> bool) n l :
  forallb p l = true -> forallb p (firstn n l) = true.
Proof.
  intros H. rewrite <- (firstn_skipn n l), forallb_app in H.
  apply andb_true_iff in H. tauto.
Qed.

Lemma filter_forallb {A} (p : A -> bool) l : forallb p (filter p l) = true.
Proof.
  apply forallb_forall. intros x Hx. apply filter_In in Hx. tauto.
Qed.

Lemma safe_topic_spec (U : Ucd) topic :
  Py.strip
    (filter (fun c => isalnum U c || existsb (N.eqb c) [32; 45; 95]%N) topic) =
  filter (fun c => isalnum U c || existsb (N.eqb c) [32; 45; 95]%N) topic ->
  App.safe_topic U topic = Spec.sanitize U topic.
Proof.
  intros H. unfold App.safe_topic, Spec.sanitize. rewrite H. f_equal.
  apply filter_ext. intros c. simpl. rewrite orb_false_r, !orb_assoc.
  reflexivity.
Qed.

(** Stripping takes a run of whitespace off each end and nothing
    else. *)
Lemma strip_decompose s :
  exists lead trail,
    s = lead ++ Py.strip s ++ trail /\
    forallb Py.isspace lead = true /\ forallb Py.isspace trail = true.
Proof.
  unfold Py.strip, Py.lstrip.
  destruct (dropwhile_suffix Py.isspace (Py.rstrip s)) as [a [Ha Hsa]].
  unfold Py.rstrip in Ha at 1.
  destruct (dropwhile_suffix Py.isspace (rev s)) as [b [Hb Hsb]].
  exists a, (rev b). split; [|split; [exact Hsa|]].
  - rewrite app_assoc, <- Ha.
    rewrite <- rev_app_distr, <- Hb. symmetry. apply rev_involutive.
  - apply forallb_forall. intros c Hc. apply in_rev in Hc.
    rewrite forallb_forall in Hsb. auto.
Qed.

(** C8 (as amended). The file app.py writes is
    [article_<name>_<stamp>.pdf] inside the output directory, where
    [<name>] is the topic filtered down to alphanumerics, spaces,
    hyphens and underscores, then stripped of surrounding whitespace,
    then cut to 40 characters, or [topic] when that is empty, and
    [<stamp>] is the clock reading as [YYYYMMDD_HHMMSS].  The stripping
    is spelled out for every topic: the filtered topic is a run of
    whitespace, a core that neither starts nor ends with whitespace,
    and a run of whitespace, and the name is the first 40 characters of
    the core.  When stripping changes nothing the name is the
    specification's.  The file main.py writes is [article_<stamp>.pdf]:
    it has no topic part. *)
Theorem output_file_names (U : Ucd) :
  (forall article topic out_dir w path w',
     App.create_pdf_from_article U article topic out_dir w = (Ok path, w') ->
     valid_datetime (clock w (ticks w)) ->
     path =
       path_join out_dir
         (str "article_" ++
          (if is_empty (App.safe_topic U topic) then str "topic"
           else App.safe_topic U topic) ++
          str "_" ++ strftime_stamp (clock w (ticks w)) ++ str ".pdf") /\
     forallb (fun c => isalnum U c || existsb (N.eqb c) [32; 45; 95]%N)
       (App.safe_topic U topic) = true /\
     length (App.safe_topic U topic) <= 40 /\
     (exists lead core trail,
        filter (fun c => isalnum U c || existsb (N.eqb c) [32; 45; 95]%N)
          topic = lead ++ core ++ trail /\
        forallb Py.isspace lead = true /\
        forallb Py.isspace trail = true /\
        Py.isspace (hd 0%N core) = false /\
        Py.isspace (last core 0%N) = false /\
        App.safe_topic U topic = firstn 40 core) /\
     (Py.strip
        (filter (fun c => isalnum U c || existsb (N.eqb c) [32; 45; 95]%N)
           topic) =
      filter (fun c => isalnum U c || existsb (N.eqb c) [32; 45; 95]%N) topic ->
      App.filename U topic (clock w (ticks w)) =
      Spec.file_name U (str "topic") topic
        (strftime_stamp (clock w (ticks w))) (str "pdf")) /\
     Spec.is_stamp (strftime_stamp (clock w (ticks w))) = true /\
     Spec.parse_stamp (strftime_stamp (clock w (ticks w))) =
       Some (clock w (ticks w)) /\
     lookup_file path w' <> None) /\
  (forall title content w path w',
     Main.create_pdf title content w = (Ok path, w') ->
     valid_datetime (clock w (ticks w)) ->
     path = str "article_" ++ strftime_stamp (clock w (ticks w)) ++ str ".pdf" /\
     Spec.is_stamp (strftime_stamp (clock w (ticks w))) = true /\
     Spec.parse_stamp (strftime_stamp (clock w (ticks w))) =
       Some (clock w (ticks w)) /\
     lookup_file path w' <> None).
Proof.
  split.
  - intros article topic out_dir w path w' Hrun Hvalid.
    destruct (create_pdf_from_article_result U article topic out_dir w
                (@create_ok_dir _ _ _ _ _ _ _ Hrun))
      as [[_ H]|[_ [e [n [H _]]]]]; rewrite H in Hrun; [|discriminate].
    injection Hrun as <- <-.
    split; [reflexivity|].
    split; [apply firstn_forallb, strip_forallb, filter_forallb|].
    split; [apply firstn_le_length|].
    split.
    { destruct (strip_decompose
                  (filter (fun c => isalnum U c ||
                                    existsb (N.eqb c) [32; 45; 95]%N) topic))
        as (lead & trail & Hd & Hl & Ht).
      exists lead, (Py.strip
                      (filter (fun c => isalnum U c ||
                                        existsb (N.eqb c) [32; 45; 95]%N)
                         topic)), trail.
      split; [exact Hd|]. split; [exact Hl|]. split; [exact Ht|].
      split; [apply strip_ends|]. split; [apply strip_ends | reflexivity]. }
    split.
    { intros Hs. unfold App.filename, Spec.file_name.
      rewrite (safe_topic_spec U topic Hs). reflexivity. }
    split; [apply stamp_shape|].
    split; [apply stamp_roundtrip; exact Hvalid|].
    rewrite lookup_written. discriminate.
  - intros title content w path w' Hrun Hvalid.
    destruct (create_pdf_result title content w) as [[_ H]|[_ [e H]]];
      rewrite H in Hrun; [|discriminate].
    injection Hrun as <- <-.
    split; [reflexivity|].
    split; [apply stamp_shape|].
    split; [apply stamp_roundtrip; exact Hvalid|].
    rewrite lookup_written. discriminate.
Qed.

Lemma noon_valid : valid_datetime noon.
Proof. unfold valid_datetime, noon. simpl. lia. Qed.

Lemma output_file_names_witness :
  (str "outputs/article_AI_20240101_120000.pdf" =
   path_join App.outputs
     (str "article_" ++
      (if is_empty (App.safe_topic Ascii7.db (str " AI!")) then str "topic"
       else App.safe_topic Ascii7.db (str " AI!")) ++
      str "_" ++ strftime_stamp (clock w0 (ticks w0)) ++ str ".pdf") /\
   exists lead core trail,
     filter (fun c => isalnum Ascii7.db c || existsb (N.eqb c) [32; 45; 95]%N)
       (str " AI!") = lead ++ core ++ trail /\
     forallb Py.isspace lead = true /\
     forallb Py.isspace trail = true /\
     Py.isspace (hd 0%N core) = false /\
     Py.isspace (last core 0%N) = false /\
     App.safe_topic Ascii7.db (str " AI!") = firstn 40 core) /\
  (str "article_20240101_120000.pdf" =
   str "article_" ++ strftime_stamp (clock w0 (ticks w0)) ++ str ".pdf").
Proof.
  split.
  - assert (H := proj1 (output_file_names Ascii7.db)
                   (str "Body") (str " AI!") App.outputs w0
                   (str "outputs/article_AI_20240101_120000.pdf")
                   (snd (App.create_pdf_from_article Ascii7.db (str "Body")
                           (str " AI!") App.outputs w0))
                   eq_refl noon_valid).
    split; [exact (proj1 H) | exact (proj1 (proj2 (proj2 (proj2 H))))].
  - refine (proj1 (proj2 (output_file_names Ascii7.db)
                     (str "AI") (str "Body") w0 _
                     (snd (Main.create_pdf (str "AI") (str "Body") w0)) _ _)).
    + vm_compute. reflexivity.
    + exact noon_valid.
Defined.

(** C8, the claim as worded fails: main.py names its file without any
    topic part, and app.py strips the sanitised topic, so a leading
    space the specification would keep is gone. *)
Lemma file_names_differ_from_the_pattern :
  fst (Main.create_pdf (str "AI") (str "Body") w0) =
    Ok (str "article_20240101_120000.pdf") /\
  Spec.file_name Ascii7.db (str "topic") (str "AI") (strftime_stamp noon)
    (str "pdf") = str "article_AI_20240101_120000.pdf" /\
  str "article_20240101_120000.pdf" <> str "article_AI_20240101_120000.pdf" /\
  App.filename Ascii7.db (str " AI") noon =
    str "article_AI_20240101_120000.pdf" /\
  Spec.file_name Ascii7.db (str "topic") (str " AI") (strftime_stamp noon)
    (str "pdf") = str "article_ AI_20240101_120000.pdf" /\
  App.filename Ascii7.db (str " AI") noon <>
  Spec.file_name Ascii7.db (str "topic") (str " AI") (strftime_stamp noon)
    (str "pdf").
Proof.
  repeat split; try (vm_compute; reflexivity); vm_compute; discriminate.
Qed.

(** ** C7 *)

Lemma app_same_length {A} (a a' b b' : list A) :
  length a = length a' -> a ++ b = a' ++ b' -> a = a' /\ b = b'.
Proof.
  revert a'. induction a as [|x a IH]; intros [|y a'] Hlen H;
    simpl in *; try discriminate; [auto|].
  injection H as -> H. injection Hlen as Hlen.
  destruct (IH a' Hlen H) as [-> ->]. auto.
Qed.

Lemma pad2_injective n m : n < 100 -> m < 100 -> pad2 n = pad2 m -> n = m.
Proof.
  intros Hn Hm H.
  assert (H1 : Spec.digit_val (nth 0 (pad2 n) 0%N) =
               Spec.digit_val (nth 0 (pad2 m) 0%N)) by (rewrite H; reflexivity).
  assert (H2 : Spec.digit_val (nth 1 (pad2 n) 0%N) =
               Spec.digit_val (nth 1 (pad2 m) 0%N)) by (rewrite H; reflexivity).
  cbn [pad2 nth] in H1, H2. rewrite !digit_val_digit in H1, H2.
  rewrite <- (two_digits Hn), <- (two_digits Hm). congruence.
Qed.

Lemma pad4_injective n m :
  n < 10 * 1000 -> m < 10 * 1000 -> pad4 n = pad4 m -> n = m.
Proof.
  intros Hn Hm H.
  assert (H0 : Spec.digit_val (nth 0 (pad4 n) 0%N) =
               Spec.digit_val (nth 0 (pad4 m) 0%N)) by (rewrite H; reflexivity).
  assert (H1 : Spec.digit_val (nth 1 (pad4 n) 0%N) =
               Spec.digit_val (nth 1 (pad4 m) 0%N)) by (rewrite H; reflexivity).
  assert (H2 : Spec.digit_val (nth 2 (pad4 n) 0%N) =
               Spec.digit_val (nth 2 (pad4 m) 0%N)) by (rewrite H; reflexivity).
  assert (H3 : Spec.digit_val (nth 3 (pad4 n) 0%N) =
               Spec.digit_val (nth 3 (pad4 m) 0%N)) by (rewrite H; reflexivity).
  cbn [pad4 nth] in H0, H1, H2, H3. rewrite !digit_val_digit in H0, H1, H2, H3.
  rewrite <- (four_digits Hn), <- (four_digits Hm). congruence.
Qed.

(** No month name continues into another one's following space. *)
Lemma month_name_prefix_free m m' (r r' : pystr) :
  1 <= m <= 12 -> 1 <= m' <= 12 ->
  month_name m ++ str " " ++ r = month_name m' ++ str " " ++ r' ->
  m = m' /\ r = r'.
Proof.
  intros Hm Hm'.
  assert (Em : m = 1 \/ m = 2 \/ m = 3 \/ m = 4 \/ m = 5 \/ m = 6 \/ m = 7 \/
               m = 8 \/ m = 9 \/ m = 10 \/ m = 11 \/ m = 12) by lia.
  assert (Em' : m' = 1 \/ m' = 2 \/ m' = 3 \/ m' = 4 \/ m' = 5 \/ m' = 6 \/
                m' = 7 \/ m' = 8 \/ m' = 9 \/ m' = 10 \/ m' = 11 \/ m' = 12)
    by lia.
  clear Hm Hm'.
  repeat (destruct Em as [Em|Em]); subst m;
    repeat (destruct Em' as [Em'|Em']); subst m';
    cbn; intros H; try discriminate H;
    (split; [reflexivity | congruence]).
Qed.

Lemma long_injective t t' :
  valid_datetime t -> valid_datetime t' ->
  strftime_long t = strftime_long t' -> t = t'.
Proof.
  intros (Hy & Hm & Hd & Hh & Hn & Hs) (Hy' & Hm' & Hd' & Hh' & Hn' & Hs').
  unfold strftime_long.
  intros H. apply month_name_prefix_free in H as [Emonth H]; try assumption.
  apply app_same_length in H as [Eday H]; [|reflexivity].
  apply app_inv_head in H.
  apply app_same_length in H as [Eyear H]; [|reflexivity].
  apply app_inv_head in H.
  apply app_same_length in H as [Ehour H]; [|reflexivity].
  apply app_inv_head in H.
  apply app_same_length in H as [Emin H]; [|reflexivity].
  apply app_inv_head in H. rename H into Esec.
  apply pad2_injective in Eday, Ehour, Emin, Esec; try lia.
  apply pad4_injective in Eyear; try lia.
  destruct t, t'; simpl in *; congruence.
Qed.

Lemma ok_pair_inv {A} (a b : A) (w w' : world) :
  (Ok a, w) = (Ok b, w') -> a = b /\ w = w'.
Proof. intros H. injection H as -> ->. auto. Qed.

Lemma path_join_injective d a b : path_join d a = path_join d b -> a = b.
Proof.
  unfold path_join.
  destruct (is_empty d || Py.endswith d (str "/")); intros H;
    repeat apply app_inv_head in H; exact H.
Qed.

Lemma filename_injective (U : Ucd) topic t t' :
  valid_datetime t -> valid_datetime t' ->
  App.filename U topic t = App.filename U topic t' -> t = t'.
Proof.
  intros Ht Ht' H. unfold App.filename in H.
  do 3 apply app_inv_head in H. apply app_inv_tail in H.
  apply stamp_injective; assumption.
Qed.

Lemma subtitle_injective t t' :
  valid_datetime t -> valid_datetime t' ->
  App.subtitle_ops t = App.subtitle_ops t' -> t = t'.
Proof.
  intros Ht Ht' H. unfold App.subtitle_ops in H.
  injection H as H. apply long_injective; assumption.
Qed.

(** C7 (as amended). Two sequential, successful invocations with the
    same article and topic draw the same title block and the same body
    instructions.  Their file names are equal exactly when the clock
    readings that name the files agree to the second, so a second call
    within the same second reuses the first call's name; their pages
    are equal exactly when the clock readings printed in the
    [Generated on:] subtitle agree to the second. *)
Theorem repeated_creation (U : Ucd) (article topic out_dir : pystr)
  (w w1 w2 : world) (p1 p2 : pystr) :
  (forall i, valid_datetime (clock w i)) ->
  App.create_pdf_from_article U article topic out_dir w = (Ok p1, w1) ->
  App.create_pdf_from_article U article topic out_dir w1 = (Ok p2, w2) ->
  exists sub1 sub2,
    lookup_file p1 w1 =
      Some (App.title_ops topic ++ sub1 ++
            App.content_ops U (App.layout U article)) /\
    lookup_file p2 w2 =
      Some (App.title_ops topic ++ sub2 ++
            App.content_ops U (App.layout U article)) /\
    (p1 = p2 <-> clock w (ticks w) = clock w (2 + ticks w)) /\
    (sub1 = sub2 <-> clock w (1 + ticks w) = clock w (3 + ticks w)).
Proof.
  intros Hvalid H1 H2.
  destruct (create_pdf_from_article_result U article topic out_dir w
              (@create_ok_dir _ _ _ _ _ _ _ H1))
    as [[_ R1]|[_ [e [n [R1 _]]]]]; rewrite R1 in H1; [|discriminate].
  destruct (create_pdf_from_article_result U article topic out_dir w1
              (@create_ok_dir _ _ _ _ _ _ _ H2))
    as [[_ R2]|[_ [e [n [R2 _]]]]]; rewrite R2 in H2; [|discriminate].
  apply ok_pair_inv in H1 as [<- <-]. apply ok_pair_inv in H2 as [<- <-].
  cbn [clock ticks dirs files].
  exists (App.subtitle_ops (clock w (S (ticks w)))),
         (App.subtitle_ops (clock w (S (S (S (ticks w)))))).
  split; [apply lookup_written|]. split; [apply lookup_written|].
  split; split.
  - intros H. apply path_join_injective in H.
    apply filename_injective in H; auto.
  - intros H. cbn [Nat.add] in H. rewrite <- H. reflexivity.
  - intros H. apply subtitle_injective in H; auto.
  - intros H. cbn [Nat.add] in H. rewrite <- H. reflexivity.
Qed.

Lemma repeated_creation_witness :
  exists sub1 sub2,
    lookup_file (str "outputs/article_AI_20240101_120000.pdf")
      (snd (App.create_pdf_from_article Ascii7.db (str "Body") (str "AI")
              App.outputs w0)) =
      Some (App.title_ops (str "AI") ++ sub1 ++
            App.content_ops Ascii7.db (App.layout Ascii7.db (str "Body"))) /\
    lookup_file (str "outputs/article_AI_20240101_120000.pdf")
      (snd (App.create_pdf_from_article Ascii7.db (str "Body") (str "AI")
              App.outputs
              (snd (App.create_pdf_from_article Ascii7.db (str "Body")
                      (str "AI") App.outputs w0)))) =
      Some (App.title_ops (str "AI") ++ sub2 ++
            App.content_ops Ascii7.db (App.layout Ascii7.db (str "Body"))) /\
    (str "outputs/article_AI_20240101_120000.pdf" =
     str "outputs/article_AI_20240101_120000.pdf" <->
     clock w0 (ticks w0) = clock w0 (2 + ticks w0)) /\
    (sub1 = sub2 <-> clock w0 (1 + ticks w0) = clock w0 (3 + ticks w0)).
Proof.
  apply (@repeated_creation Ascii7.db (str "Body") (str "AI") App.outputs w0).
  - intros i. exact noon_valid.
  - vm_compute. reflexivity.
  - vm_compute. reflexivity.
Defined.

(** C7, the claim as worded fails: two sequential calls whose clock
    readings fall in the same second return the same file name, and the
    second file replaces the first. *)
Lemma calls_in_one_second_share_a_filename :
  fst (App.create_pdf_from_article Ascii7.db (str "Body") (str "AI")
         App.outputs w0) =
    Ok (str "outputs/article_AI_20240101_120000.pdf") /\
  fst (App.create_pdf_from_article Ascii7.db (str "Body") (str "AI")
         App.outputs
         (snd (App.create_pdf_from_article Ascii7.db (str "Body") (str "AI")
                 App.outputs w0))) =
    Ok (str "outputs/article_AI_20240101_120000.pdf") /\
  length
    (files
       (snd (App.create_pdf_from_article Ascii7.db (str "Body") (str "AI")
               App.outputs
               (snd (App.create_pdf_from_article Ascii7.db (str "Body")
                       (str "AI") App.outputs w0))))) = 1.
Proof. repeat split; vm_compute; reflexivity. Qed.

(** ** Splitting into lines and expanding tabs *)

Lemma linebreak_is_space c : Py.is_linebreak c = true -> Py.isspace c = true.
Proof.
  unfold Py.is_linebreak, Py.isspace.
  rewrite !orb_true_iff, !andb_true_iff, !N.leb_le, !N.eqb_eq. lia.
Qed.

Lemma nonspace_space c : Py.isspace c = true -> nonspace c = false.
Proof. unfold nonspace. intros ->. reflexivity. Qed.

Lemma splitlines_from_nonspace after_cr cur s :
  filter nonspace (concat (Py.splitlines_from after_cr cur s)) =
  filter nonspace (rev cur ++ s).
Proof.
  revert after_cr cur. induction s as [|c s IH]; intros after_cr cur.
  - simpl. destruct cur as [|x cur]; simpl; rewrite ?app_nil_r; reflexivity.
  - cbn [Py.splitlines_from].
    destruct (after_cr && (c =? 10)%N) eqn:Ecr.
    + rewrite IH, !filter_app. simpl.
      apply andb_true_iff in Ecr as [_ Ec]. apply N.eqb_eq in Ec. subst c.
      reflexivity.
    + destruct (Py.is_linebreak c) eqn:Elb.
      * cbn [concat]. rewrite !filter_app, IH. simpl.
        rewrite (nonspace_space _ (linebreak_is_space _ Elb)). reflexivity.
      * rewrite IH. simpl. rewrite <- app_assoc. reflexivity.
Qed.

(** Splitting into lines removes whitespace only. *)
Lemma splitlines_nonspace s :
  filter nonspace (concat (Py.splitlines s)) = filter nonspace s.
Proof. apply splitlines_from_nonspace. Qed.

Lemma repeat_space_nonspace n : filter nonspace (repeat 32%N n) = [].
Proof. induction n; simpl; auto. Qed.

Lemma expandtabs_nonspace tabsize col s :
  filter nonspace (Py.expandtabs_from tabsize col s) = filter nonspace s.
Proof.
  revert col. induction s as [|c s IH]; intros col; simpl; [reflexivity|].
  destruct (c =? 9)%N eqn:Etab.
  - apply N.eqb_eq in Etab. subst c.
    rewrite filter_app, repeat_space_nonspace, IH. reflexivity.
  - destruct ((c =? 10)%N || (c =? 13)%N); simpl; rewrite IH; reflexivity.
Qed.

(** ** The wrapper: chunks *)

Section WrapperFacts.

Variable U : Ucd.

Lemma dropwhile_length p s : length (Py.dropwhile p s) <= length s.
Proof.
  induction s as [|c s IH]; simpl; [lia|]. destruct (p c); simpl; lia.
Qed.

Lemma dropwhile_shorter p c s :
  p c = true -> length (Py.dropwhile p (c :: s)) < length (c :: s).
Proof.
  intros H. simpl. rewrite H. pose proof (dropwhile_length p s). simpl. lia.
Qed.

Lemma word_tail_bound p3 p2 p1 s : TextWrap.word_tail U p3 p2 p1 s <= length s.
Proof.
  revert p3 p2 p1. induction s as [|c s IH]; intros p3 p2 p1.
  - simpl. reflexivity.
  - cbn [TextWrap.word_tail].
    repeat match goal with
           | |- context [if ?b then _ else _] => destruct b
           end; simpl; try lia.
    specialize (IH p2 p1 (Some c)). lia.
Qed.

(** Every match of [wordsep_re] takes at least one character and stays
    inside the text. *)
Lemma chunk_len_bounds before s :
  s <> [] -> 1 <= TextWrap.chunk_len U before s <= length s.
Proof.
  destruct s as [|c s]; [congruence|]. intros _.
  unfold TextWrap.chunk_len.
  destruct (TextWrap.ws c) eqn:Ews.
  - pose proof (dropwhile_shorter TextWrap.ws c s Ews). lia.
  - destruct (TextWrap.opt_test (TextWrap.word_punct U) (hd_error before) &&
              TextWrap.emdash_then_word U (c :: s)) eqn:Edash.
    + apply andb_true_iff in Edash as [_ Edash].
      unfold TextWrap.emdash_then_word in Edash.
      apply andb_true_iff in Edash as [Erun _]. apply Nat.leb_le in Erun.
      pose proof (dropwhile_length TextWrap.is_hyphen (c :: s)). lia.
    + pose proof (word_tail_bound (nth_error before 1) (hd_error before)
                    (Some c) s). cbn [length]. lia.
Qed.

Lemma split_from_concat fuel before s :
  concat (TextWrap.split_at U fuel before s) = s.
Proof.
  revert before s. induction fuel as [|fuel IH]; intros before s.
  - destruct s; simpl; rewrite ?app_nil_r; reflexivity.
  - destruct s as [|c s]; [reflexivity|].
    cbn [TextWrap.split_at concat]. rewrite IH. apply firstn_skipn.
Qed.

(** The chunks are the text, cut up. *)
Lemma split_concat text : concat (TextWrap._split U text) = text.
Proof. apply split_from_concat. Qed.

(** The fuel of [_split] is never used up: with at least [length s] of
    it, the text is cut into matches to its end. *)
Lemma split_from_enough fuel before s :
  length s <= fuel ->
  TextWrap.split_at U fuel before s =
  TextWrap.split_at U (length s) before s.
Proof.
  remember (length s) as n eqn:Hn. revert fuel before s Hn.
  induction n as [n IH] using lt_wf_ind. intros fuel before s Hn Hfuel.
  destruct s as [|c s]; [destruct fuel; subst n; reflexivity|].
  simpl in Hn. subst n. destruct fuel as [|fuel]; [simpl in Hfuel; lia|].
  cbn [TextWrap.split_at length].
  pose proof (@chunk_len_bounds before (c :: s) ltac:(discriminate)) as Hb.
  set (k := TextWrap.chunk_len U before (c :: s)) in *.
  f_equal.
  assert (Hlen : length (skipn k (c :: s)) < S (length s)).
  { rewrite length_skipn. cbn [length] in *. lia. }
  rewrite (IH _ Hlen fuel _ _ eq_refl) by (cbn [length] in *; lia).
  rewrite (IH _ Hlen (length s) _ _ eq_refl); [reflexivity|].
  rewrite length_skipn. cbn [length] in *. lia.
Qed.

End WrapperFacts.

(** ** The wrapper: lines *)

Lemma blank_nonspace c : TextWrap.blank c = true -> filter nonspace c = [].
Proof.
  unfold TextWrap.blank. intros H. apply is_empty_true in H.
  apply strip_blank. exact H.
Qed.

Lemma fill_line_spec width cur_line cur_len chunks :
  exists taken rest,
    TextWrap.fill_line width cur_line cur_len chunks =
      (cur_line ++ taken, cur_len + length (concat taken), rest) /\
    chunks = taken ++ rest /\
    (rest = [] \/ width < cur_len + length (concat taken) + length (hd [] rest)).
Proof.
  revert cur_line cur_len. induction chunks as [|c chunks IH];
    intros cur_line cur_len.
  - exists [], []. simpl. rewrite app_nil_r, Nat.add_0_r. auto.
  - cbn [TextWrap.fill_line].
    destruct (cur_len + length c <=? width) eqn:Efit.
    + destruct (IH (cur_line ++ [c]) (cur_len + length c))
        as (taken & rest & Hfill & Hchunks & Hfull).
      exists (c :: taken), rest. rewrite Hfill. cbn [concat].
      rewrite length_app, <- app_assoc, Nat.add_assoc. simpl.
      split; [reflexivity|]. split; [congruence|].
      destruct Hfull as [Hfull|Hfull]; [left; exact Hfull | right; lia].
    + apply Nat.leb_gt in Efit. exists [], (c :: chunks). simpl.
      rewrite app_nil_r, !Nat.add_0_r. auto.
Qed.

Lemma handle_long_word_spec c rest cur_line cur_len width :
  exists stop,
    TextWrap._handle_long_word c rest cur_line cur_len width =
      (cur_line ++ [firstn stop c], skipn stop c :: rest) /\
    (1 <= width - cur_len -> 1 <= stop).
Proof.
  unfold TextWrap._handle_long_word. eexists. split; [reflexivity|].
  intros Hroom.
  assert (Hleft : 1 <= (if width <? 1 then 1 else width - cur_len))
    by (destruct (width <? 1); lia).
  repeat match goal with
         | |- context [if ?b then _ else _] => destruct b
         | |- context [match ?o with Some _ => _ | None => _ end] => destruct o
         end; lia.
Qed.

Lemma drop_last_blank_spec cur_line :
  exists dropped,
    cur_line = TextWrap.drop_last_blank cur_line ++ dropped /\
    filter nonspace (concat dropped) = [] /\
    forall w, In w cur_line -> TextWrap.blank w = false ->
              In w (TextWrap.drop_last_blank cur_line).
Proof.
  unfold TextWrap.drop_last_blank.
  destruct (rev cur_line) as [|c before] eqn:E.
  - exists []. rewrite app_nil_r. auto.
  - apply rev_head_last in E.
    destruct (TextWrap.blank c) eqn:Eblank.
    + exists [c]. split; [exact E|]. simpl. rewrite app_nil_r.
      split; [apply blank_nonspace; exact Eblank|].
      intros w Hin Hw. rewrite E in Hin. apply in_app_or in Hin as [Hin|Hin];
        [exact Hin|].
      destruct Hin as [<-|[]]. congruence.
    + exists []. rewrite app_nil_r. auto.
Qed.

Lemma in_concat_infix (w : pystr) (l : list pystr) :
  In w l -> infix w (concat l).
Proof.
  intros Hin. apply in_split in Hin as (l1 & l2 & ->).
  rewrite concat_app. simpl. apply infix_app_r, infix_here.
Qed.

Lemma wrap_fuel_app a b :
  TextWrap.wrap_fuel (a ++ b) = TextWrap.wrap_fuel a + TextWrap.wrap_fuel b.
Proof.
  unfold TextWrap.wrap_fuel. rewrite concat_app, !length_app. lia.
Qed.

Lemma wrap_fuel_cons c l :
  TextWrap.wrap_fuel (c :: l) = S (length c) + TextWrap.wrap_fuel l.
Proof.
  unfold TextWrap.wrap_fuel. simpl. rewrite length_app. lia.
Qed.

(** What one pass of the outer loop does: the stack shrinks, no
    non-whitespace character is lost or invented, finished lines stay,
    and a chunk that fits the width and is not blank is either still on
    the stack or whole inside a line. *)
Lemma wrap_iteration_spec width c0 rest0 lines :
  1 <= width ->
  exists chunks' new,
    TextWrap.wrap_iteration width c0 rest0 lines = (chunks', lines ++ new) /\
    TextWrap.wrap_fuel chunks' < TextWrap.wrap_fuel (c0 :: rest0) /\
    filter nonspace (concat new ++ concat chunks') =
      filter nonspace (concat (c0 :: rest0)) /\
    forall w, In w (c0 :: rest0) -> length w <= width ->
              TextWrap.blank w = false ->
              In w chunks' \/ exists l, In l new /\ infix w l.
Proof.
  intros Hwidth. unfold TextWrap.wrap_iteration.
  set (chunks1 := if TextWrap.blank c0 && negb (is_empty lines)
                  then rest0 else c0 :: rest0).
  assert (H1 : TextWrap.wrap_fuel chunks1 <= TextWrap.wrap_fuel (c0 :: rest0) /\
               (chunks1 = c0 :: rest0 \/
                TextWrap.wrap_fuel chunks1 < TextWrap.wrap_fuel (c0 :: rest0)) /\
               filter nonspace (concat chunks1) =
                 filter nonspace (concat (c0 :: rest0)) /\
               forall w, In w (c0 :: rest0) -> TextWrap.blank w = false ->
                         In w chunks1).
  { subst chunks1. destruct (TextWrap.blank c0) eqn:Eb; cbn [andb].
    - destruct (negb (is_empty lines)).
      + rewrite wrap_fuel_cons. cbn [concat].
        rewrite filter_app, (blank_nonspace _ Eb).
        split; [lia|]. split; [right; lia|]. split; [reflexivity|].
        intros w [<-|Hin] Hw; [congruence | exact Hin].
      + split; [lia|]. split; [left; reflexivity|]. split; [reflexivity|].
        intros w Hin _. exact Hin.
    - split; [lia|]. split; [left; reflexivity|]. split; [reflexivity|].
      intros w Hin _. exact Hin. }
  destruct H1 as (Hle & Hstrict & Hcontent & Hkeep).
  destruct (fill_line_spec width [] 0 chunks1)
    as (cur_line & chunks2 & Hfill & Hchunks & Hfull).
  rewrite Hfill. cbn [app Nat.add] in *.
  set (step := match chunks2 with
               | c :: rest =>
                   if width <? length c
                   then TextWrap._handle_long_word c rest cur_line
                          (length (concat cur_line)) width
                   else (cur_line, chunks2)
               | [] => (cur_line, chunks2)
               end).
  assert (H2 : exists piece chunks3,
             step = (cur_line ++ piece, chunks3) /\
             concat piece ++ concat chunks3 = concat chunks2 /\
             TextWrap.wrap_fuel chunks3 <= TextWrap.wrap_fuel chunks2 /\
             (cur_line = [] -> chunks2 <> [] ->
              TextWrap.wrap_fuel chunks3 < TextWrap.wrap_fuel chunks2) /\
             forall w, In w chunks2 -> length w <= width -> In w chunks3).
  { subst step. destruct chunks2 as [|c rest].
    - exists [], []. rewrite app_nil_r. repeat split; auto. congruence.
    - destruct (width <? length c) eqn:Elong.
      + apply Nat.ltb_lt in Elong.
        destruct (handle_long_word_spec c rest cur_line
                    (length (concat cur_line)) width) as (stop & -> & Hstop).
        exists [firstn stop c], (skipn stop c :: rest).
        split; [reflexivity|]. cbn [concat]. rewrite app_nil_r.
        split; [rewrite app_assoc, firstn_skipn; reflexivity|].
        rewrite !wrap_fuel_cons, length_skipn.
        split; [lia|]. split.
        * intros -> _. simpl in Hstop. lia.
        * intros w [<-|Hin] Hw; [lia | right; exact Hin].
      + apply Nat.ltb_ge in Elong. exists [], (c :: rest).
        rewrite app_nil_r. repeat split; auto.
        intros -> _. destruct Hfull as [Hfull|Hfull]; [discriminate|].
        simpl in Hfull. lia. }
  destruct H2 as (piece & chunks3 & -> & Hpiece & Hle3 & Hstrict3 & Hkeep3).
  destruct (drop_last_blank_spec (cur_line ++ piece))
    as (dropped & Hdrop & Hdropped & Hkeepd).
  set (cur_line'' := TextWrap.drop_last_blank (cur_line ++ piece)) in *.
  clearbody cur_line''.
  exists chunks3, (if is_empty cur_line'' then [] else [concat cur_line'']).
  split.
  { destruct (is_empty cur_line''); rewrite ?app_nil_r; reflexivity. }
  split.
  { rewrite Hchunks, wrap_fuel_app in Hle, Hstrict.
    destruct cur_line as [|x cur_line].
    - destruct chunks2 as [|c rest].
      + destruct Hstrict as [Hbad|Hlt]; [discriminate | simpl in *; lia].
      + specialize (Hstrict3 eq_refl ltac:(discriminate)).
        unfold TextWrap.wrap_fuel at 1 in Hle. simpl in Hle. lia.
    - rewrite wrap_fuel_cons in Hle. lia. }
  split.
  { rewrite <- Hcontent, Hchunks, concat_app, <- Hpiece.
    assert (Hline : filter nonspace
                      (concat (if is_empty cur_line'' then []
                               else [concat cur_line''])) =
                    filter nonspace (concat (cur_line ++ piece))).
    { rewrite Hdrop, concat_app, filter_app, Hdropped, app_nil_r.
      destruct cur_line''; simpl; rewrite ?app_nil_r; reflexivity. }
    rewrite filter_app, Hline, concat_app, !filter_app, <- !app_assoc.
    reflexivity. }
  intros w Hin Hlen Hblank.
  specialize (Hkeep w Hin Hblank). rewrite Hchunks in Hkeep.
  apply in_app_or in Hkeep as [Hcur|Hrest].
  - right. assert (Hw : In w cur_line'').
    { apply Hkeepd; [apply in_or_app; left; exact Hcur | exact Hblank]. }
    destruct cur_line'' as [|x l] eqn:E; [destruct Hw|].
    exists (concat (x :: l)). split; [left; reflexivity|].
    apply in_concat_infix. exact Hw.
  - left. apply Hkeep3; assumption.
Qed.

(** The outer loop ends before its fuel does, and its lines carry the
    chunks' non-whitespace characters in order; a chunk that fits the
    width and is not blank lies whole inside one line. *)
Lemma wrap_loop_spec width fuel chunks lines :
  1 <= width -> TextWrap.wrap_fuel chunks <= fuel ->
  exists out,
    TextWrap.wrap_loop fuel width chunks lines = Some (lines ++ out) /\
    filter nonspace (concat out) = filter nonspace (concat chunks) /\
    forall w, In w chunks -> length w <= width -> TextWrap.blank w = false ->
              exists l, In l out /\ infix w l.
Proof.
  intros Hwidth. revert chunks lines.
  induction fuel as [|fuel IH]; intros chunks lines Hfuel.
  - destruct chunks as [|c0 rest0].
    + exists []. rewrite app_nil_r. simpl. repeat split. intros w [].
    + rewrite wrap_fuel_cons in Hfuel. lia.
  - destruct chunks as [|c0 rest0].
    + exists []. rewrite app_nil_r. simpl. repeat split. intros w [].
    + cbn [TextWrap.wrap_loop].
      destruct (wrap_iteration_spec c0 rest0 lines Hwidth)
        as (chunks' & new & -> & Hless & Hcontent & Hwords).
      destruct (IH chunks' (lines ++ new) ltac:(lia))
        as (out & -> & Hout & Hin).
      exists (new ++ out). rewrite <- app_assoc. split; [reflexivity|].
      split.
      * rewrite concat_app, filter_app, Hout, <- filter_app. exact Hcontent.
      * intros w Hw Hlen Hblank.
        destruct (Hwords w Hw Hlen Hblank) as [Hstack|(l & Hl & Hinfix)].
        -- destruct (Hin w Hstack Hlen Hblank) as (l & Hl & Hinfix).
           exists l. split; [apply in_or_app; right; exact Hl | exact Hinfix].
        -- exists l. split; [apply in_or_app; left; exact Hl | exact Hinfix].
Qed.

(** [wrap] always returns the lines of [_wrap_chunks]. *)
Lemma wrap_total (U : Ucd) width text :
  1 <= width ->
  TextWrap._wrap_chunks width (TextWrap._split_chunks U text) =
  Some (TextWrap.wrap U width text).
Proof.
  intros Hwidth. unfold TextWrap.wrap, TextWrap._wrap_chunks.
  destruct (@wrap_loop_spec width
              (TextWrap.wrap_fuel (TextWrap._split_chunks U text))
              (TextWrap._split_chunks U text) [] Hwidth (le_n _))
    as (out & -> & _). reflexivity.
Qed.

Lemma wrap_nonspace (U : Ucd) width text :
  1 <= width ->
  filter nonspace (concat (TextWrap.wrap U width text)) =
  filter nonspace text.
Proof.
  intros Hwidth. unfold TextWrap.wrap, TextWrap._wrap_chunks.
  destruct (@wrap_loop_spec width
              (TextWrap.wrap_fuel (TextWrap._split_chunks U text))
              (TextWrap._split_chunks U text) [] Hwidth (le_n _))
    as (out & -> & Hout & _).
  cbn [app]. rewrite Hout. unfold TextWrap._split_chunks.
  rewrite split_concat. apply expandtabs_nonspace.
Qed.

(** ** C1 *)

Lemma layout_line_nonspace (U : Ucd) line :
  filter nonspace (concat (App.layout_line U line)) = filter nonspace line.
Proof.
  unfold App.layout_line.
  destruct (is_empty (Py.strip line)) eqn:Eblank.
  - apply is_empty_true in Eblank. symmetry. apply strip_blank. exact Eblank.
  - destruct (App.looks_like_heading U (Py.strip line)).
    + simpl. rewrite app_nil_r. apply strip_nonspace.
    + rewrite wrap_nonspace by lia. apply strip_nonspace.
Qed.

Lemma layout_nonspace (U : Ucd) body :
  filter nonspace (concat (App.layout U body)) = filter nonspace body.
Proof.
  unfold App.layout. rewrite <- (splitlines_nonspace body).
  induction (Py.splitlines body) as [|line lines IH]; [reflexivity|].
  cbn [flat_map concat]. rewrite concat_app, !filter_app, IH.
  rewrite layout_line_nonspace. reflexivity.
Qed.

(** C1, the claim as worded fails: the two leading blanks of the body
    are lost, although they are not trailing whitespace of its line. *)
Lemma leading_blanks_are_lost :
  concat (App.layout Ascii7.db (str "  hello")) = str "hello" /\
  concat (map Py.rstrip (Py.splitlines (str "  hello"))) = str "  hello" /\
  concat (App.layout Ascii7.db (str "  hello")) <>
  concat (map Py.rstrip (Py.splitlines (str "  hello"))).
Proof.
  repeat split; try (vm_compute; reflexivity). vm_compute. discriminate.
Qed.

(** ** C4 *)

Lemma rstrip_chars_keeps chars c s :
  In c s -> existsb (N.eqb c) chars = false -> In c (Py.rstrip_chars chars s).
Proof.
  intros Hin Hc. unfold Py.rstrip_chars.
  set (p := fun c : N => existsb (N.eqb c) chars).
  destruct (dropwhile_suffix p (rev s)) as [a [Ha Hall]].
  apply in_rev. apply in_rev in Hin. rewrite Ha in Hin.
  rewrite rev_involutive.
  apply in_app_or in Hin as [Hin|Hin]; [|exact Hin].
  rewrite forallb_forall in Hall. specialize (Hall c Hin).
  unfold p in Hall. congruence.
Qed.

Lemma unsupported_text c txt :
  In c txt -> Fpdf.font_supports c = false ->
  forallb Fpdf.font_supports txt = false.
Proof.
  intros Hin Hc. destruct (forallb Fpdf.font_supports txt) eqn:E;
    [|reflexivity].
  rewrite forallb_forall in E. specialize (E c Hin). congruence.
Qed.

Lemma forallb_false_in {A} (p : A -> bool) x l :
  In x l -> p x = false -> forallb p l = false.
Proof.
  intros Hin Hx. destruct (forallb p l) eqn:E; [|reflexivity].
  rewrite forallb_forall in E. specialize (E x Hin). congruence.
Qed.

Lemma colon_supported c :
  Fpdf.font_supports c = false -> existsb (N.eqb c) (str ":") = false.
Proof.
  rewrite in_colons. unfold Fpdf.font_supports.
  rewrite N.ltb_ge, N.eqb_neq. lia.
Qed.

(** A wrapped line holding a character that is neither whitespace nor
    encodable is handed to the backend with that character in it. *)
Lemma render_line_rejected (U : Ucd) line c :
  In c line -> Py.isspace c = false -> Fpdf.font_supports c = false ->
  forallb accepted (App.render_line U line) = false.
Proof.
  intros Hin Hspace Hfont. unfold App.render_line.
  assert (Hne : is_empty (Py.strip line) = false).
  { apply is_empty_false. intros E.
    pose proof (strip_keeps _ _ Hin Hspace) as H. rewrite E in H. exact H. }
  rewrite Hne.
  destruct (Py.endswith line (str ":") ||
            Py.startswith_any (lower U line) App.section_labels).
  - apply forallb_false_in
      with (x := Fpdf.multi_cell 0 8
                   (Py.strip (Py.rstrip_chars (str ":") line))
                   Fpdf.AlignLeft).
    + right. right. left. reflexivity.
    + unfold accepted. cbn [Fpdf.op_text].
      apply unsupported_text with (c := c); [|exact Hfont].
      apply strip_keeps; [|exact Hspace].
      apply rstrip_chars_keeps; [exact Hin | apply colon_supported, Hfont].
  - destruct (Py.startswith_any line App.bullet_markers).
    + apply forallb_false_in
        with (x := Fpdf.multi_cell 0 6 line Fpdf.AlignLeft).
      * right. right. left. reflexivity.
      * unfold accepted. cbn [Fpdf.op_text].
        apply unsupported_text with (c := c); assumption.
    + apply forallb_false_in
        with (x := Fpdf.multi_cell 0 6 line Fpdf.AlignLeft).
      * right. left. reflexivity.
      * unfold accepted. cbn [Fpdf.op_text].
        apply unsupported_text with (c := c); assumption.
Qed.

Lemma flat_map_rejected {A} (f : A -> list Fpdf.draw_op) x l :
  In x l -> forallb accepted (f x) = false ->
  forallb accepted (flat_map f l) = false.
Proof.
  intros Hin Hx. apply in_split in Hin as (l1 & l2 & ->).
  rewrite flat_map_app, forallb_app. cbn [flat_map].
  rewrite forallb_app, Hx. apply andb_false_r.
Qed.

Lemma forallb_rev {A} (p : A -> bool) l : forallb p (rev l) = forallb p l.
Proof.
  induction l as [|x l IH]; [reflexivity|].
  simpl. rewrite forallb_app, IH. simpl. rewrite andb_true_r. apply andb_comm.
Qed.

Lemma split_on_from_forallb p sep cur s :
  forallb p cur = true -> forallb p s = true ->
  forallb (forallb p) (Py.split_on_from sep cur s) = true.
Proof.
  revert cur. induction s as [|c s IH]; intros cur Hcur Hs.
  - simpl. rewrite forallb_rev, Hcur. reflexivity.
  - simpl in Hs. apply andb_true_iff in Hs as [Hc Hs]. simpl.
    destruct (c =? sep)%N.
    + simpl. rewrite forallb_rev, Hcur. apply IH; [reflexivity | exact Hs].
    + apply IH; [simpl; rewrite Hc, Hcur; reflexivity | exact Hs].
Qed.

Lemma flush_forallb p current_line :
  forallb p current_line = true ->
  forallb (forallb p) (Main.flush current_line) = true.
Proof.
  intros H. unfold Main.flush. destruct (is_empty current_line);
    [reflexivity|]. simpl. rewrite strip_forallb by exact H. reflexivity.
Qed.

Lemma fill_words_forallb p current_line words :
  p 32%N = true -> forallb p current_line = true ->
  forallb (forallb p) words = true ->
  forallb (forallb p) (Main.fill_words current_line words) = true.
Proof.
  intros Hsp. revert current_line.
  induction words as [|word words IH]; intros current_line Hcur Hwords.
  - apply flush_forallb. exact Hcur.
  - simpl in Hwords. apply andb_true_iff in Hwords as [Hword Hwords].
    cbn [Main.fill_words].
    destruct (length (current_line ++ word) <? 80).
    + apply IH; [|exact Hwords].
      rewrite !forallb_app, Hcur, Hword. simpl. rewrite Hsp. reflexivity.
    + rewrite forallb_app, flush_forallb by exact Hcur.
      apply IH; [|exact Hwords].
      rewrite forallb_app, Hword. simpl. rewrite Hsp. reflexivity.
Qed.

Lemma encode_latin1_supported line :
  forallb Fpdf.font_supports (Py.encode_latin1_replace line) = true.
Proof.
  unfold Py.encode_latin1_replace. induction line as [|c line IH];
    [reflexivity|].
  simpl. rewrite IH. unfold Fpdf.font_supports.
  destruct (c <? 256)%N eqn:E; rewrite ?E; reflexivity.
Qed.

Lemma spaced_snoc g word :
  spaced (g ++ [word]) = spaced g ++ word ++ str " ".
Proof.
  unfold spaced. rewrite map_app, concat_app. simpl.
  rewrite app_nil_r. reflexivity.
Qed.

Lemma flush_spaced g :
  Main.flush (spaced g) =
  match g with [] => [] | _ => [Py.strip (spaced g)] end.
Proof.
  destruct g as [|word g]; [reflexivity|].
  unfold Main.flush. rewrite is_empty_nonempty; [reflexivity|].
  unfold spaced. cbn [map concat]. destruct word; discriminate.
Qed.

(** The word loop cuts the words into runs and draws one cell for each
    run. *)
Lemma fill_words_groups words : forall g,
  exists groups,
    concat groups = g ++ words /\
    Forall (fun run => run <> []) groups /\
    Main.fill_words (spaced g) words =
    map (fun run => Py.strip (spaced run)) groups.
Proof.
  induction words as [|word rest IH]; intros g; cbn [Main.fill_words].
  - rewrite flush_spaced, app_nil_r. destruct g as [|w0 g].
    + exists []. auto.
    + exists [w0 :: g]. simpl. rewrite app_nil_r.
      split; [reflexivity|]. split; [|reflexivity].
      constructor; [discriminate | constructor].
  - destruct (length (spaced g ++ word) <? 80).
    + rewrite <- spaced_snoc. destruct (IH (g ++ [word])) as (gs & H1 & H2 & H3).
      exists gs. rewrite <- app_assoc in H1. auto.
    + change (word ++ str " ") with (spaced [] ++ word ++ str " ").
      rewrite <- spaced_snoc. destruct (IH ([] ++ [word])) as (gs & H1 & H2 & H3).
      rewrite H3, flush_spaced. destruct g as [|w0 g].
      * exists gs. auto.
      * exists ((w0 :: g) :: gs). cbn [concat map]. rewrite H1.
        split; [rewrite <- app_assoc; reflexivity|].
        split; [constructor; [discriminate | exact H2] | reflexivity].
Qed.

Lemma regular_line_ops_run line pdf :
  Fpdf.run (Main.regular_line_ops line) pdf =
  Ok (pdf ++ Main.regular_line_ops line).
Proof.
  assert (Hacc : forallb accepted (Main.regular_line_ops line) = true).
  { unfold Main.regular_line_ops.
    destruct (is_empty (Py.strip line)); [reflexivity|].
    apply forallb_forall. intros op Hop.
    apply in_map_iff in Hop as [txt [<- Htxt]].
    unfold accepted. cbn [Fpdf.op_text].
    assert (H : forallb (forallb Fpdf.font_supports)
                  (Main.fill_words []
                     (Py.split_on 32%N (Py.encode_latin1_replace line))) =
                true).
    { apply fill_words_forallb; [reflexivity | reflexivity |].
      apply split_on_from_forallb; [reflexivity|].
      apply encode_latin1_supported. }
    rewrite forallb_forall in H. apply H. exact Htxt. }
  destruct (run_result (Main.regular_line_ops line) pdf)
    as [[_ H]|[H _]]; [exact H|].
  rewrite Hacc, no_multi_cell_flows in H; [discriminate|].
  unfold Main.regular_line_ops.
  destruct (is_empty (Py.strip line)); [reflexivity|].
  apply forallb_forall. intros op Hop.
  apply in_map_iff in Hop as [txt [<- _]]. reflexivity.
Qed.

(** C4 (as amended). app.py substitutes nothing: a body holding a
    character that is neither whitespace nor encodable in the font makes
    [create_pdf_from_article] raise, with no file written.  main.py
    re-encodes every non-blank line that is not a header before drawing
    it: each character outside Latin-1 becomes a question mark at its
    position and all other characters stay; the words of the re-encoded
    line (its pieces between blanks) are cut into runs of consecutive
    words, and for each run one cell is drawn that ends its line and
    holds the words of the run with one blank between them, stripped.
    The backend executes these cells whatever was drawn before. *)
Theorem unsupported_characters (U : Ucd) :
  (forall article topic out_dir w c,
     In c article -> Py.isspace c = false -> Fpdf.font_supports c = false ->
     exists e w',
       App.create_pdf_from_article U article topic out_dir w = (Raise e, w') /\
       files w' = files w) /\
  (forall line,
     length (Py.encode_latin1_replace line) = length line /\
     (forall i,
        nth i (Py.encode_latin1_replace line) 0%N =
        if Fpdf.font_supports (nth i line 0%N) then nth i line 0%N
        else 63%N) /\
     forallb accepted (Main.regular_line_ops line) = true /\
     (forall pdf,
        Fpdf.run (Main.regular_line_ops line) pdf =
        Ok (pdf ++ Main.regular_line_ops line)) /\
     (Py.strip line <> [] ->
      exists runs,
        concat runs =
          Py.split_on 32%N
            (map (fun c => if Fpdf.font_supports c then c else 63%N) line) /\
        Forall (fun run => run <> []) runs /\
        Main.regular_line_ops line =
          map (fun run =>
                 Fpdf.cell 0 6 (Py.strip (spaced run)) true Fpdf.AlignLeft)
            runs)).
Proof.
  split.
  - intros article topic out_dir w c Hin Hspace Hfont.
    destruct out_dir as [|d out_dir].
    { rewrite create_in_no_directory. eauto. }
    assert (Hlayout : In c (filter nonspace (concat (App.layout U article)))).
    { rewrite layout_nonspace. apply filter_In. split; [exact Hin|].
      unfold nonspace. rewrite Hspace. reflexivity. }
    apply filter_In in Hlayout as [Hlayout _].
    apply in_concat in Hlayout as (line & Hline & Hc).
    destruct (create_pdf_from_article_result U article topic (d :: out_dir) w)
      as [[Hacc _]|[_ (e & n & Hrun & _)]]; [discriminate| |].
    + exfalso. apply andb_true_iff in Hacc as [Hacc _].
      rewrite !forallb_app in Hacc.
      apply andb_true_iff in Hacc as [_ Hacc].
      apply andb_true_iff in Hacc as [_ Hacc].
      unfold App.content_ops in Hacc. cbn [forallb] in Hacc.
      apply andb_true_iff in Hacc as [_ Hacc].
      rewrite (flat_map_rejected (App.render_line U) line _ Hline) in Hacc;
        [discriminate|].
      apply render_line_rejected with (c := c); assumption.
    + exists e. eexists. split; [exact Hrun | reflexivity].
  - intros line.
    split; [apply length_map|]. split; [|split; [|split]].
    + intros i. unfold Py.encode_latin1_replace.
      change 0%N with ((fun c => if (c <? 256)%N then c else 63%N) 0%N)
        at 1.
      rewrite map_nth. reflexivity.
    + destruct (run_result (Main.regular_line_ops line) [])
        as [[H _]|[_ [e H]]].
      * apply andb_true_iff in H as [H _]. exact H.
      * rewrite regular_line_ops_run in H. discriminate H.
    + apply regular_line_ops_run.
    + intros Hne. unfold Main.regular_line_ops.
      rewrite (proj2 (is_empty_false _) Hne).
      destruct (fill_words_groups
                  (Py.split_on 32%N (Py.encode_latin1_replace line)) [])
        as (runs & H1 & H2 & H3).
      exists runs. split; [exact H1|]. split; [exact H2|].
      change (spaced []) with (@nil N) in H3. rewrite H3, map_map.
      reflexivity.
Qed.

Lemma unsupported_characters_witness :
  (exists e w',
     App.create_pdf_from_article Ascii7.db [128512%N] (str "AI") App.outputs w0
     = (Raise e, w') /\ files w' = files w0) /\
  forallb accepted (Main.regular_line_ops [72; 105; 32; 128512]%N) = true /\
  exists runs,
    concat runs = [str "Hi"; str "?"] /\
    Forall (fun run => run <> []) runs /\
    Main.regular_line_ops [72; 105; 32; 128512]%N =
      map (fun run =>
             Fpdf.cell 0 6 (Py.strip (spaced run)) true Fpdf.AlignLeft)
        runs.
Proof.
  split; [|split].
  - apply (proj1 (unsupported_characters Ascii7.db)
             [128512%N] (str "AI") App.outputs w0 128512%N).
    + left. reflexivity.
    + reflexivity.
    + reflexivity.
  - apply (proj2 (unsupported_characters Ascii7.db) [72; 105; 32; 128512]%N).
  - apply (proj2 (proj2 (proj2 (proj2
             (proj2 (unsupported_characters Ascii7.db)
                [72; 105; 32; 128512]%N))))).
    discriminate.
Defined.

(** C4, the claim as worded fails: for a body that is one emoji, PDF
    creation in app.py raises on drawing the body and writes no file. *)
Lemma emoji_body_raises :
  App.create_pdf_from_article Ascii7.db [128512%N] (str "AI") App.outputs w0 =
  (Raise (FPDFUnicodeEncodingException 0 128512%N (str "helvetica")),
   mkWorld (clock w0) 2 [App.outputs] []).
Proof. vm_compute. reflexivity. Qed.

(** ** C3 *)

Section Words.

Variable U : Ucd.








Lemma split_from_step fuel before s :
  s <> [] ->
  TextWrap.split_at U (S fuel) before s =
  firstn (TextWrap.chunk_len U before s) s ::
  TextWrap.split_at U fuel
    (rev (firstn (TextWrap.chunk_len U before s) s) ++ before)
    (skipn (TextWrap.chunk_len U before s) s).
Proof. destruct s; [congruence | reflexivity]. Qed.



Lemma expandtabs_from_app tabsize col a b :
  exists col',
    Py.expandtabs_from tabsize col (a ++ b) =
    Py.expandtabs_from tabsize col a ++ Py.expandtabs_from tabsize col' b.
Proof.
  revert col. induction a as [|c a IH]; intros col.
  - exists col. reflexivity.
  - cbn [app Py.expandtabs_from].
    destruct (c =? 9)%N.
    + destruct (IH (col + (tabsize - col mod tabsize))) as [col' ->].
      exists col'. rewrite <- app_assoc. reflexivity.
    + destruct ((c =? 10)%N || (c =? 13)%N).
      * destruct (IH 0) as [col' ->]. exists col'. reflexivity.
      * destruct (IH (S col)) as [col' ->]. exists col'. reflexivity.
Qed.







End Words.





(** * Further properties of the two programs *)

(** ** Wrapped lines: width and alphabet *)

Lemma forallb_concat {A} (p : A -> bool) (l : list (list A)) :
  forallb p (concat l) = forallb (forallb p) l.
Proof.
  induction l as [|x l IH]; [reflexivity|].
  simpl. rewrite forallb_app, IH. reflexivity.
Qed.

Lemma rfind_from_bound c i stop s j :
  Py.rfind_from c i stop s = Some j -> j < stop.
Proof.
  revert i. induction s as [|d s IH]; intros i; simpl; [discriminate|].
  destruct (Py.rfind_from c (S i) stop s) eqn:E.
  - intros H. injection H as <-. eapply IH. exact E.
  - destruct ((d =? c)%N && (i <? stop)) eqn:Ehit; [|discriminate].
    intros H. injection H as <-.
    apply andb_true_iff in Ehit as [_ Ehit]. apply Nat.ltb_lt. exact Ehit.
Qed.

Lemma fill_line_fits width cur_line cur_len chunks :
  cur_len <= width ->
  snd (fst (TextWrap.fill_line width cur_line cur_len chunks)) <= width.
Proof.
  revert cur_line cur_len. induction chunks as [|c chunks IH];
    intros cur_line cur_len Hlen; cbn [TextWrap.fill_line]; [exact Hlen|].
  destruct (cur_len + length c <=? width) eqn:Efit; [|exact Hlen].
  apply IH. apply Nat.leb_le. exact Efit.
Qed.

(** The piece cut off a long chunk fills the room that is left and no
    more. *)
Lemma handle_long_word_fits c rest cur_line cur_len width :
  1 <= width -> cur_len <= width ->
  exists stop,
    TextWrap._handle_long_word c rest cur_line cur_len width =
      (cur_line ++ [firstn stop c], skipn stop c :: rest) /\
    cur_len + stop <= width.
Proof.
  intros Hwidth Hlen. unfold TextWrap._handle_long_word.
  eexists. split; [reflexivity|].
  assert (Hone : (width <? 1) = false) by (apply Nat.ltb_ge; exact Hwidth).
  rewrite Hone.
  destruct (width - cur_len <? length c); [|lia].
  destruct (Py.rfind TextWrap.hyphen (width - cur_len) c) as [h|] eqn:Efind;
    [|lia].
  apply rfind_from_bound in Efind.
  destruct ((0 <? h) &&
            existsb (fun c0 => negb (TextWrap.is_hyphen c0)) (firstn h c));
    lia.
Qed.

(** One pass of the outer loop adds lines no longer than the width, made
    of characters of the chunks. *)
Lemma wrap_iteration_lines width c0 rest0 lines :
  1 <= width ->
  exists chunks' new,
    TextWrap.wrap_iteration width c0 rest0 lines = (chunks', lines ++ new) /\
    (forall l, In l new -> length l <= width) /\
    forall p : N -> bool,
      forallb p (concat (c0 :: rest0)) = true ->
      forallb p (concat new) = true /\ forallb p (concat chunks') = true.
Proof.
  intros Hwidth. unfold TextWrap.wrap_iteration.
  set (chunks1 := if TextWrap.blank c0 && negb (is_empty lines)
                  then rest0 else c0 :: rest0).
  assert (H1 : forall p : N -> bool,
             forallb p (concat (c0 :: rest0)) = true ->
             forallb p (concat chunks1) = true).
  { intros p Hp. subst chunks1.
    destruct (TextWrap.blank c0 && negb (is_empty lines)); [|exact Hp].
    cbn [concat] in Hp. rewrite forallb_app in Hp.
    apply andb_true_iff in Hp. tauto. }
  pose proof (@fill_line_fits width [] 0 chunks1 ltac:(lia)) as Hfits.
  destruct (fill_line_spec width [] 0 chunks1)
    as (cur_line & chunks2 & Hfill & Hchunks & _).
  rewrite Hfill in Hfits |- *. cbn [app Nat.add fst snd] in *.
  set (step := match chunks2 with
               | c :: rest =>
                   if width <? length c
                   then TextWrap._handle_long_word c rest cur_line
                          (length (concat cur_line)) width
                   else (cur_line, chunks2)
               | [] => (cur_line, chunks2)
               end).
  assert (H2 : exists piece chunks3,
             step = (cur_line ++ piece, chunks3) /\
             concat piece ++ concat chunks3 = concat chunks2 /\
             length (concat (cur_line ++ piece)) <= width).
  { subst step. destruct chunks2 as [|c rest].
    - exists [], []. rewrite app_nil_r. auto.
    - destruct (width <? length c).
      + destruct (@handle_long_word_fits c rest cur_line
                    (length (concat cur_line)) width Hwidth Hfits)
          as (stop & -> & Hstop).
        exists [firstn stop c], (skipn stop c :: rest).
        split; [reflexivity|]. cbn [concat]. rewrite app_nil_r.
        split; [rewrite app_assoc, firstn_skipn; reflexivity|].
        rewrite concat_app, length_app. cbn [concat].
        rewrite app_nil_r. pose proof (firstn_le_length stop c). lia.
      + exists [], (c :: rest). rewrite app_nil_r. auto. }
  destruct H2 as (piece & chunks3 & -> & Hpiece & Hlen).
  destruct (drop_last_blank_spec (cur_line ++ piece))
    as (dropped & Hdrop & _ & _).
  set (cur_line'' := TextWrap.drop_last_blank (cur_line ++ piece)) in *.
  clearbody cur_line''.
  exists chunks3, (if is_empty cur_line'' then [] else [concat cur_line'']).
  split.
  { destruct (is_empty cur_line''); rewrite ?app_nil_r; reflexivity. }
  rewrite Hdrop, concat_app, length_app in Hlen.
  split.
  { intros l Hl. destruct (is_empty cur_line''); [destruct Hl|].
    destruct Hl as [<-|[]]. lia. }
  intros p Hp. specialize (H1 p Hp).
  rewrite Hchunks, concat_app, <- Hpiece, !forallb_app in H1.
  apply andb_true_iff in H1 as [Hcur H1].
  apply andb_true_iff in H1 as [Hpc Hc3].
  split; [|exact Hc3].
  assert (Hall : forallb p (concat (cur_line ++ piece)) = true).
  { rewrite concat_app, forallb_app, Hcur, Hpc. reflexivity. }
  rewrite Hdrop, concat_app, forallb_app in Hall.
  apply andb_true_iff in Hall as [Hall _].
  destruct (is_empty cur_line''); [reflexivity|].
  cbn [concat]. rewrite app_nil_r. exact Hall.
Qed.

Lemma wrap_loop_lines width fuel chunks lines out :
  1 <= width ->
  TextWrap.wrap_loop fuel width chunks lines = Some out ->
  exists new,
    out = lines ++ new /\
    (forall l, In l new -> length l <= width) /\
    forall p : N -> bool,
      forallb p (concat chunks) = true -> forallb p (concat new) = true.
Proof.
  intros Hwidth. revert chunks lines.
  induction fuel as [|fuel IH]; intros chunks lines Hrun.
  - destruct chunks; [|discriminate]. injection Hrun as <-.
    exists []. rewrite app_nil_r. split; [reflexivity|].
    split; [intros l []|reflexivity].
  - destruct chunks as [|c0 rest0].
    + injection Hrun as <-. exists []. rewrite app_nil_r.
      split; [reflexivity|]. split; [intros l []|reflexivity].
    + cbn [TextWrap.wrap_loop] in Hrun.
      destruct (wrap_iteration_lines c0 rest0 lines Hwidth)
        as (chunks' & new & E & Hlen & Hp).
      rewrite E in Hrun.
      destruct (IH _ _ Hrun) as (new' & -> & Hlen' & Hp').
      exists (new ++ new'). rewrite app_assoc. split; [reflexivity|].
      split.
      * intros l Hl. apply in_app_or in Hl as [Hl|Hl]; auto.
      * intros p Hall. destruct (Hp p Hall) as [Hnew Hrest].
        rewrite concat_app, forallb_app, Hnew. apply Hp'. exact Hrest.
Qed.

Lemma expandtabs_forallb (p : N -> bool) tabsize col s :
  p 32%N = true -> forallb p s = true ->
  forallb p (Py.expandtabs_from tabsize col s) = true.
Proof.
  intros Hsp. revert col. induction s as [|c s IH]; intros col Hs;
    [reflexivity|].
  simpl in Hs. apply andb_true_iff in Hs as [Hc Hs].
  cbn [Py.expandtabs_from]. destruct (c =? 9)%N.
  - rewrite forallb_app, IH by exact Hs. rewrite andb_true_r.
    induction (tabsize - col mod tabsize) as [|n IHn]; [reflexivity|].
    simpl. rewrite Hsp. exact IHn.
  - destruct ((c =? 10)%N || (c =? 13)%N); simpl; rewrite Hc; apply IH;
      exact Hs.
Qed.

(** The wrapper's lines fit the width and use only characters of the
    text, plus the space that tabs turn into. *)
Lemma wrap_lines (U : Ucd) width text :
  1 <= width ->
  (forall l, In l (TextWrap.wrap U width text) -> length l <= width) /\
  forall p : N -> bool,
    p 32%N = true -> forallb p text = true ->
    forallb (forallb p) (TextWrap.wrap U width text) = true.
Proof.
  intros Hwidth.
  destruct (wrap_loop_lines _ _ _ Hwidth (wrap_total U text Hwidth))
    as (new & E & Hlen & Hp).
  cbn [app] in E. rewrite E. split; [exact Hlen|].
  intros p Hsp Htext. rewrite <- forallb_concat. apply Hp.
  unfold TextWrap._split_chunks. rewrite split_concat.
  apply expandtabs_forallb; assumption.
Qed.

Lemma splitlines_from_forallb (p : N -> bool) after_cr cur s :
  (forall c, In c s -> Py.is_linebreak c = false -> p c = true) ->
  forallb p cur = true ->
  forallb (forallb p) (Py.splitlines_from after_cr cur s) = true.
Proof.
  revert after_cr cur. induction s as [|c s IH]; intros after_cr cur Hs Hcur.
  - simpl. destruct (is_empty cur); [reflexivity|].
    simpl. rewrite forallb_rev, Hcur. reflexivity.
  - assert (Hs' : forall c0, In c0 s -> Py.is_linebreak c0 = false ->
                             p c0 = true)
      by (intros c0 Hin; apply Hs; right; exact Hin).
    cbn [Py.splitlines_from].
    destruct (after_cr && (c =? 10)%N); [apply IH; assumption|].
    destruct (Py.is_linebreak c) eqn:Elb.
    + cbn [forallb]. rewrite forallb_rev, Hcur. apply IH; auto.
    + apply IH; [exact Hs'|]. simpl. rewrite Hcur, (Hs c); auto.
      left. reflexivity.
Qed.

Lemma in_layout (U : Ucd) article l :
  In l (App.layout U article) ->
  exists line, In line (Py.splitlines article) /\ In l (App.layout_line U line).
Proof. unfold App.layout. intros H. apply in_flat_map in H. exact H. Qed.

Lemma layout_line_forallb (U : Ucd) (p : N -> bool) line :
  p 32%N = true -> forallb p line = true ->
  forallb (forallb p) (App.layout_line U line) = true.
Proof.
  intros Hsp Hline. unfold App.layout_line.
  destruct (is_empty (Py.strip line)); [reflexivity|].
  destruct (App.looks_like_heading U (Py.strip line)).
  - simpl. rewrite strip_forallb by exact Hline. reflexivity.
  - apply wrap_lines; [lia | exact Hsp | apply strip_forallb; exact Hline].
Qed.

Lemma layout_forallb (U : Ucd) (p : N -> bool) article :
  p 32%N = true ->
  (forall c, In c article -> Py.is_linebreak c = false -> p c = true) ->
  forallb (forallb p) (App.layout U article) = true.
Proof.
  intros Hsp Hart. apply forallb_forall. intros l Hl.
  apply in_layout in Hl as (line & Hline & Hl).
  pose proof (@splitlines_from_forallb p false [] article Hart eq_refl) as H.
  fold (Py.splitlines article) in H. rewrite forallb_forall in H.
  pose proof (layout_line_forallb U p line Hsp (H line Hline)) as H'.
  rewrite forallb_forall in H'. apply H'. exact Hl.
Qed.

(** X1. Every wrapped line of the layout pass that is longer than 90
    characters is a line that passed the heading test; all lines that
    went through the wrapper fit in 90 columns. *)
Theorem long_wrapped_lines_are_headings (U : Ucd) (article l : pystr) :
  In l (App.layout U article) ->
  length l <= 90 \/ App.looks_like_heading U l = true.
Proof.
  intros Hl. apply in_layout in Hl as (line & _ & Hl).
  unfold App.layout_line in Hl.
  destruct (is_empty (Py.strip line)).
  - destruct Hl as [<-|[]]. left. simpl. lia.
  - destruct (App.looks_like_heading U (Py.strip line)) eqn:Ehead.
    + destruct Hl as [<-|[]]. right. exact Ehead.
    + left. eapply wrap_lines; [|exact Hl]. lia.
Qed.

(** X2. No wrapped line of the layout pass holds a line terminator:
    each one is drawn as a single line of text. *)
Theorem wrapped_lines_hold_no_line_break (U : Ucd) (article l : pystr) :
  In l (App.layout U article) ->
  forallb (fun c => negb (Py.is_linebreak c)) l = true.
Proof.
  intros Hl.
  assert (H : forallb (forallb (fun c => negb (Py.is_linebreak c)))
                (App.layout U article) = true).
  { apply layout_forallb; [reflexivity|].
    intros c _ Hc. rewrite Hc. reflexivity. }
  rewrite forallb_forall in H. apply H. exact Hl.
Qed.

Lemma strip_head_nonspace s :
  Py.strip s <> [] -> filter nonspace (Py.strip s) <> [].
Proof.
  intros Hne. destruct (strip_ends s) as [Hhd _].
  destruct (Py.strip s) as [|c t]; [congruence|].
  simpl in *. unfold nonspace at 1. rewrite Hhd. discriminate.
Qed.

Lemma layout_line_nonempty (U : Ucd) line : App.layout_line U line <> [].
Proof.
  unfold App.layout_line.
  destruct (is_empty (Py.strip line)) eqn:Eblank; [discriminate|].
  destruct (App.looks_like_heading U (Py.strip line)); [discriminate|].
  apply is_empty_false in Eblank. intros E.
  pose proof (@wrap_nonspace U 90 (Py.strip line) ltac:(lia)) as H.
  rewrite E in H. simpl in H. symmetry in H.
  exact (@strip_head_nonspace line Eblank H).
Qed.

(** X3. No input line disappears in the layout pass: the wrapped lines
    are at least as many as the lines of the body, and a line of
    whitespace alone becomes exactly one empty wrapped line. *)
Theorem every_line_is_laid_out (U : Ucd) (article : pystr) :
  length (Py.splitlines article) <= length (App.layout U article) /\
  forall line, Py.strip line = [] -> App.layout_line U line = [[]].
Proof.
  split.
  - unfold App.layout.
    induction (Py.splitlines article) as [|line lines IH]; [reflexivity|].
    cbn [flat_map]. rewrite length_app.
    pose proof (layout_line_nonempty U line) as Hne.
    destruct (App.layout_line U line); [congruence|]. simpl in *. lia.
  - intros line Hblank. unfold App.layout_line. rewrite Hblank. reflexivity.
Qed.

(** ** app.py: when a PDF is written *)

Lemma rstrip_chars_forallb (p : N -> bool) chars s :
  forallb p s = true -> forallb p (Py.rstrip_chars chars s) = true.
Proof.
  intros H. unfold Py.rstrip_chars.
  destruct (dropwhile_suffix (fun c => existsb (N.eqb c) chars) (rev s))
    as [a [Ha _]].
  rewrite <- forallb_rev in H. rewrite Ha, forallb_app in H.
  apply andb_true_iff in H as [_ H]. rewrite forallb_rev. exact H.
Qed.

Lemma render_line_accepted (U : Ucd) line :
  latin1 line = true -> forallb accepted (App.render_line U line) = true.
Proof.
  unfold latin1. intros H. unfold App.render_line.
  destruct (is_empty (Py.strip line)); [reflexivity|].
  destruct (Py.endswith line (str ":") ||
            Py.startswith_any (lower U line) App.section_labels).
  - unfold App.heading_ops, accepted. cbn [forallb Fpdf.op_text].
    rewrite strip_forallb; [reflexivity|].
    apply rstrip_chars_forallb. exact H.
  - destruct (Py.startswith_any line App.bullet_markers);
      unfold App.bullet_ops, App.body_ops, accepted;
      cbn [forallb Fpdf.op_text]; rewrite H; reflexivity.
Qed.

Lemma content_ops_accepted (U : Ucd) lines :
  forallb latin1 lines = true ->
  forallb accepted (App.content_ops U lines) = true.
Proof.
  intros H. unfold App.content_ops. cbn [forallb].
  change (accepted (Fpdf.set_text_color 10 10 30)) with true. cbn [andb].
  induction lines as [|l lines IH]; [reflexivity|].
  simpl in H. apply andb_true_iff in H as [Hl H].
  cbn [flat_map]. rewrite forallb_app, render_line_accepted by exact Hl.
  apply IH. exact H.
Qed.

Lemma latin1_forall article :
  latin1 article = true ->
  forall c, In c article -> Py.is_linebreak c = false ->
            Fpdf.font_supports c = true.
Proof.
  unfold latin1. intros H c Hc _. rewrite forallb_forall in H. auto.
Qed.

Lemma nonblank_has_glyph line :
  is_empty (Py.strip line) = false -> Fpdf.has_glyph line = true.
Proof.
  intros H. apply is_empty_false in H. apply strip_head_nonspace in H.
  destruct (filter nonspace (Py.strip line)) as [|c t] eqn:E; [congruence|].
  assert (Hc : In c (filter nonspace (Py.strip line)))
    by (rewrite E; left; reflexivity).
  apply filter_In in Hc as [Hin Hns].
  destruct (strip_infix line) as [a [b Hab]].
  unfold Fpdf.has_glyph. apply existsb_exists. exists c. split.
  - rewrite Hab. apply in_or_app. right. apply in_or_app. left. exact Hin.
  - unfold nonspace in Hns.
    destruct (c =? 32)%N eqn:E1;
      [apply N.eqb_eq in E1; subst c; discriminate Hns|].
    destruct (c =? 10)%N eqn:E2;
      [apply N.eqb_eq in E2; subst c; discriminate Hns|].
    destruct (c =? 13)%N eqn:E3;
      [apply N.eqb_eq in E3; subst c; discriminate Hns|].
    reflexivity.
Qed.

(** The wrapped lines find room exactly when they are aired. *)
Lemma render_flows (U : Ucd) lines : forall room : bool,
  flows (if room then Fpdf.full else 0) (flat_map (App.render_line U) lines) =
  aired U room lines.
Proof.
  induction lines as [|line rest IH]; intros room; [reflexivity|].
  cbn [flat_map aired]. rewrite flows_app. unfold App.render_line.
  destruct (is_empty (Py.strip line)) eqn:Hblank.
  - rewrite <- (IH true). reflexivity.
  - destruct (Py.endswith line (str ":") ||
              Py.startswith_any (lower U line) App.section_labels).
    + rewrite <- (IH true). unfold App.heading_ops.
      cbn [flows Fpdf.crowded Fpdf.advance fold_left].
      destruct room; cbn [Nat.eqb Fpdf.full andb orb negb];
        rewrite ?andb_true_r; reflexivity.
    + assert (Hg := nonblank_has_glyph line Hblank).
      rewrite <- (IH false).
      destruct (Py.startswith_any line App.bullet_markers);
        unfold App.bullet_ops, App.body_ops;
        cbn [flows Fpdf.crowded Fpdf.advance fold_left];
        rewrite Hg; destruct room; reflexivity.
Qed.

Lemma content_flows (U : Ucd) lines :
  flows Fpdf.full (App.content_ops U lines) = aired U true lines.
Proof. apply (render_flows U lines true). Qed.

(** C10 (as amended). At render time the heading test comes first: for
    a line that starts with a bullet marker and ends with a colon, the
    instructions issued are those of a heading, written out here: bold
    Helvetica of size 14, one [multi_cell] holding the line without the
    whole run of colons that ends it (then stripped), a line feed of 2
    and the return to the body font; the bullet indentation cell is
    never issued.  When the line is Latin-1 and the cursor is not at
    the right margin, the backend executes these instructions.  A line
    whose marker is the bullet character U+2022 takes the heading branch
    too, but its heading text keeps the marker, which the font cannot
    encode: the backend raises on it and nothing is drawn. *)
Theorem bullet_with_colon_renders_as_heading (U : Ucd) (line : pystr) :
  Py.startswith_any line App.bullet_markers = true ->
  Py.endswith line (str ":") = true ->
  exists body k,
    line = body ++ repeat 58%N (S k) /\
    Py.endswith body (str ":") = false /\
    App.render_line U line = App.heading_ops (Py.strip body) /\
    App.render_line U line =
      [Fpdf.set_font (str "Helvetica") (str "B") 14;
       Fpdf.set_text_color 40 40 80;
       Fpdf.multi_cell 0 8 (Py.strip body) Fpdf.AlignLeft;
       Fpdf.ln 2;
       Fpdf.set_font (str "Helvetica") [] 11;
       Fpdf.set_text_color 10 10 30] /\
    ~ In (Fpdf.cell 8 0 [] false Fpdf.AlignLeft) (App.render_line U line) /\
    App.render_line U line <> App.bullet_ops line /\
    (forall pdf,
       latin1 line = true -> Fpdf.room pdf <> 0 ->
       Fpdf.run (App.render_line U line) pdf =
       Ok (pdf ++ App.render_line U line)) /\
    (forall pdf,
       Py.startswith line [8226; 32]%N = true ->
       Fpdf.run (App.render_line U line) pdf =
       Raise (FPDFUnicodeEncodingException 0 8226%N (str "helveticaB"))).
Proof.
  intros _ Hend.
  destruct (rstrip_colons line) as [k [Hk Hbody]].
  assert (Hr : App.render_line U line =
               App.heading_ops (Py.strip (Py.rstrip_chars (str ":") line))).
  { unfold App.render_line.
    rewrite (ends_with_colon_not_blank _ Hend), Hend. reflexivity. }
  destruct k as [|k].
  { simpl in Hk. rewrite app_nil_r in Hk. rewrite <- Hk in Hbody. congruence. }
  exists (Py.rstrip_chars (str ":") line), k.
  split; [exact Hk|]. split; [exact Hbody|]. split; [exact Hr|].
  split; [exact Hr|]. split; [|split; [|split]].
  - rewrite Hr. unfold App.heading_ops. simpl.
    intros [H|[H|[H|[H|[H|[H|[]]]]]]]; discriminate.
  - rewrite Hr. unfold App.heading_ops, App.bullet_ops. discriminate.
  - intros pdf Hlatin Hroom.
    destruct (run_result (App.render_line U line) pdf) as [[_ H]|[H _]];
      [exact H|].
    exfalso. rewrite render_line_accepted in H by exact Hlatin.
    rewrite Hr in H. unfold App.heading_ops in H.
    cbn [flows Fpdf.crowded Fpdf.advance andb] in H.
    destruct (Fpdf.room pdf); [congruence | discriminate H].
  - intros pdf Hdot. rewrite Hr.
    destruct line as [|c0 line]; [discriminate Hdot|].
    cbn [Py.startswith] in Hdot. apply andb_true_iff in Hdot as [Hc0 _].
    apply N.eqb_eq in Hc0. subst c0.
    destruct (@rstrip_chars_cons (str ":") 8226%N line eq_refl) as [t ->].
    destruct (@strip_cons 8226%N t eq_refl) as [t' ->].
    unfold App.heading_ops.
    cbn [Fpdf.run Fpdf.exec Fpdf.op_text Fpdf.first_unsupported
         Fpdf.crowded Fpdf.font_supports].
    unfold Fpdf.exec at 1.
    cbn [Fpdf.op_text Fpdf.first_unsupported Fpdf.font_supports].
    change (Fpdf.font_supports 8226) with false. cbv iota.
    rewrite <- app_assoc. cbn [app].
    rewrite current_font_app by reflexivity. reflexivity.
Qed.

Lemma bullet_with_colon_renders_as_heading_witness :
  exists body k,
    str "- Note:" = body ++ repeat 58%N (S k) /\
    Py.endswith body (str ":") = false /\
    App.render_line Ascii7.db (str "- Note:") =
      App.heading_ops (Py.strip body) /\
    App.render_line Ascii7.db (str "- Note:") =
      [Fpdf.set_font (str "Helvetica") (str "B") 14;
       Fpdf.set_text_color 40 40 80;
       Fpdf.multi_cell 0 8 (Py.strip body) Fpdf.AlignLeft;
       Fpdf.ln 2;
       Fpdf.set_font (str "Helvetica") [] 11;
       Fpdf.set_text_color 10 10 30] /\
    ~ In (Fpdf.cell 8 0 [] false Fpdf.AlignLeft)
        (App.render_line Ascii7.db (str "- Note:")) /\
    App.render_line Ascii7.db (str "- Note:") <>
      App.bullet_ops (str "- Note:") /\
    (forall pdf,
       latin1 (str "- Note:") = true -> Fpdf.room pdf <> 0 ->
       Fpdf.run (App.render_line Ascii7.db (str "- Note:")) pdf =
       Ok (pdf ++ App.render_line Ascii7.db (str "- Note:"))) /\
    (forall pdf,
       Py.startswith (str "- Note:") [8226; 32]%N = true ->
       Fpdf.run (App.render_line Ascii7.db (str "- Note:")) pdf =
       Raise (FPDFUnicodeEncodingException 0 8226%N (str "helveticaB"))).
Proof.
  apply (bullet_with_colon_renders_as_heading Ascii7.db (str "- Note:"));
    reflexivity.
Defined.

(** C10, the claim as worded fails for the third marker: the line made of
    the bullet character U+2022, a blank, [Note] and a colon takes the
    heading branch, and the backend raises on the marker in its heading
    text, so the line is drawn neither as a heading nor as a bullet. *)
Lemma dot_bullet_with_colon_is_not_drawn :
  Py.startswith_any ([8226; 32]%N ++ str "Note:") App.bullet_markers = true /\
  Py.endswith ([8226; 32]%N ++ str "Note:") (str ":") = true /\
  Fpdf.run (App.render_line Ascii7.db ([8226; 32]%N ++ str "Note:")) [] =
  Raise (FPDFUnicodeEncodingException 0 8226%N (str "helveticaB")).
Proof. vm_compute. auto. Qed.

Lemma create_latin1 (U : Ucd) article topic out_dir w :
  out_dir <> [] ->
  latin1 (Py.strip topic) = true -> latin1 article = true ->
  aired U true (App.layout U article) = true ->
  App.create_pdf_from_article U article topic out_dir w =
  (Ok (path_join out_dir (App.filename U topic (clock w (ticks w)))),
   mkWorld (clock w) (S (S (ticks w))) (made out_dir (dirs w))
     (written (path_join out_dir (App.filename U topic (clock w (ticks w))))
        (App.title_ops topic ++
         App.subtitle_ops (clock w (S (ticks w))) ++
         App.content_ops U (App.layout U article)) (files w))).
Proof.
  intros Hdir Htopic Harticle Haired.
  destruct (create_pdf_from_article_result U article topic out_dir w Hdir)
    as [[_ H]|[H _]]; [exact H|].
  exfalso. rewrite content_flows, Haired in H.
  rewrite !forallb_app, title_ops_accepted, subtitle_ops_accepted
    in H by exact Htopic.
  rewrite content_ops_accepted in H; [discriminate H|].
  apply layout_forallb; [reflexivity | apply latin1_forall; exact Harticle].
Qed.

Lemma create_crowded (U : Ucd) article topic out_dir w :
  out_dir <> [] ->
  aired U true (App.layout U article) = false ->
  exists e w',
    App.create_pdf_from_article U article topic out_dir w = (Raise e, w') /\
    files w' = files w.
Proof.
  intros Hdir Haired.
  destruct (create_pdf_from_article_result U article topic out_dir w Hdir)
    as [[H _]|[_ (e & n & H & _)]].
  - rewrite content_flows, Haired, andb_false_r in H. discriminate H.
  - exists e. eexists. split; [exact H | reflexivity].
Qed.

(** X4. In an output directory with a name, when the stripped topic and
    the article are Latin-1 text, PDF creation in app.py succeeds
    exactly when the wrapped lines are aired, that is, when no line
    with something to draw follows a body or bullet line directly.  It
    then makes the output directory, returns the path of the file, and
    the file on disk holds the title block, the subtitle and the
    instructions for every wrapped line.  Otherwise it raises and
    writes no file. *)
Theorem latin1_article_is_written (U : Ucd) (article topic out_dir : pystr)
  (w : world) :
  out_dir <> [] ->
  latin1 (Py.strip topic) = true -> latin1 article = true ->
  (aired U true (App.layout U article) = true ->
   exists path w',
     App.create_pdf_from_article U article topic out_dir w = (Ok path, w') /\
     path = path_join out_dir (App.filename U topic (clock w (ticks w))) /\
     In out_dir (dirs w') /\
     lookup_file path w' =
       Some (App.title_ops topic ++
             App.subtitle_ops (clock w (S (ticks w))) ++
             App.content_ops U (App.layout U article))) /\
  (aired U true (App.layout U article) = false ->
   exists e w',
     App.create_pdf_from_article U article topic out_dir w = (Raise e, w') /\
     files w' = files w).
Proof.
  intros Hdir Htopic Harticle. split.
  - intros Haired. do 2 eexists.
    split; [apply create_latin1; assumption|].
    split; [reflexivity|]. split; [apply made_in | apply lookup_written].
  - intros Haired. apply create_crowded; assumption.
Qed.

Lemma latin1_article_is_written_witness :
  (exists path w',
     App.create_pdf_from_article Ascii7.db
       (str "Introduction:" ++ nl ++ str "Tea is a drink.") (str "Tea")
       App.outputs w0 = (Ok path, w') /\
     path = path_join App.outputs
              (App.filename Ascii7.db (str "Tea") (clock w0 (ticks w0))) /\
     In App.outputs (dirs w') /\
     lookup_file path w' =
       Some (App.title_ops (str "Tea") ++
             App.subtitle_ops (clock w0 (S (ticks w0))) ++
             App.content_ops Ascii7.db
               (App.layout Ascii7.db
                  (str "Introduction:" ++ nl ++ str "Tea is a drink.")))) /\
  (exists e w',
     App.create_pdf_from_article Ascii7.db
       (str "Tea is a drink." ++ nl ++ str "Coffee is a drink.") (str "Tea")
       App.outputs w0 = (Raise e, w') /\
     files w' = files w0).
Proof.
  split.
  - apply (proj1 (@latin1_article_is_written Ascii7.db
             (str "Introduction:" ++ nl ++ str "Tea is a drink.") (str "Tea")
             App.outputs w0 outputs_nonempty eq_refl eq_refl)).
    reflexivity.
  - apply (proj2 (@latin1_article_is_written Ascii7.db
             (str "Tea is a drink." ++ nl ++ str "Coffee is a drink.")
             (str "Tea") App.outputs w0 outputs_nonempty eq_refl eq_refl)).
    reflexivity.
Defined.

Lemma structured_not_error (U : Ucd) topic article :
  Py.startswith article (str "ERROR:") = false ->
  Py.startswith (App.structured U topic article) (str "ERROR:") = false.
Proof.
  intros H. unfold App.structured.
  destruct (existsb (Py.contains article) App.required_sections);
    [exact H | reflexivity].
Qed.

(** The four ways [on_generate] can end. *)
Lemma on_generate_cases (U : Ucd) genai topic w :
  (Py.strip topic = [] /\
   App.on_generate U genai topic w = (Ok (please_enter, None), w)) \/
  (Py.startswith (App.generate_article_from_gemini genai (Py.strip topic))
     (str "ERROR:") = true /\
   App.on_generate U genai topic w =
   (Ok (App.generate_article_from_gemini genai (Py.strip topic), None), w)) \/
  (Py.startswith (App.generate_article_from_gemini genai (Py.strip topic))
     (str "ERROR:") = false /\
   exists path w',
     lookup_file path w' <> None /\
     App.on_generate U genai topic w =
     (Ok (App.structured U (Py.strip topic)
            (App.generate_article_from_gemini genai (Py.strip topic)),
          Some path), w')) \/
  (exists e w',
     files w' = files w /\
     App.on_generate U genai topic w =
     (Ok (App.pdf_failure_text e
            (App.structured U (Py.strip topic)
               (App.generate_article_from_gemini genai (Py.strip topic))),
          None), w')).
Proof.
  unfold App.on_generate.
  destruct (is_empty (Py.strip topic)) eqn:Etopic.
  { left. apply is_empty_true in Etopic. auto. }
  right.
  destruct (Py.startswith
              (App.generate_article_from_gemini genai (Py.strip topic))
              (str "ERROR:")) eqn:Eerr.
  { left. auto. }
  right. unfold try_except, bind, ret.
  destruct (create_pdf_from_article_result U
              (App.structured U (Py.strip topic)
                 (App.generate_article_from_gemini genai (Py.strip topic)))
              (Py.strip topic) App.outputs w outputs_nonempty)
    as [[_ ->]|[_ (e & n & -> & _)]].
  - left. split; [reflexivity|]. do 2 eexists. split; [|reflexivity].
    rewrite lookup_written. discriminate.
  - right. exists e. eexists. split; [|reflexivity]. reflexivity.
Qed.

(** X5. [on_generate] never raises, whatever the topic and whatever the
    upstream call does.  When it hands back a file reference, that file
    is on disk and the text does not carry the error marker; when it
    hands back none, no file was written and the text is the request to
    enter a topic or starts with [ERROR:]. *)
Theorem on_generate_reports_faithfully (U : Ucd)
  (genai : pystr -> result App.response) (topic : pystr) (w : world) :
  exists text file w',
    App.on_generate U genai topic w = (Ok (text, file), w') /\
    match file with
    | Some path =>
        lookup_file path w' <> None /\
        Py.startswith text (str "ERROR:") = false
    | None =>
        files w' = files w /\
        (text = please_enter \/ Py.startswith text (str "ERROR:") = true)
    end.
Proof.
  destruct (on_generate_cases U genai topic w)
    as [[_ ->]|[[Herr ->]|[[Herr (path & w' & Hfile & ->)]|(e & w' & Hf & ->)]]].
  - do 3 eexists. split; [reflexivity|]. cbv beta iota. auto.
  - do 3 eexists. split; [reflexivity|]. cbv beta iota. auto.
  - do 3 eexists. split; [reflexivity|]. cbv beta iota.
    split; [exact Hfile | apply structured_not_error; exact Herr].
  - do 3 eexists. split; [reflexivity|]. cbv beta iota.
    split; [exact Hf | right; reflexivity].
Qed.

(** X6. The error marker is read from the article text itself: when the
    upstream call succeeds with a text that begins with [ERROR:],
    [on_generate] treats it as a failed generation, returns the text
    with no file and does not enter PDF creation. *)
Theorem article_opening_with_marker_gets_no_pdf (U : Ucd)
  (genai : pystr -> result App.response) (topic : pystr) (w : world)
  (r : App.response) :
  Py.strip topic <> [] ->
  genai (Py.strip topic) = Ok r ->
  Py.startswith (Py.strip (App.extract_text r)) (str "ERROR:") = true ->
  App.on_generate U genai topic w =
  (Ok (Py.strip (App.extract_text r), None), w).
Proof.
  intros Hne Hgen Herr. unfold App.on_generate.
  rewrite (proj2 (is_empty_false _) Hne).
  unfold App.generate_article_from_gemini. rewrite Hgen, Herr. reflexivity.
Qed.

Lemma article_opening_with_marker_gets_no_pdf_witness :
  App.on_generate Ascii7.db error_titled_reply (str "Errors") w0 =
  (Ok (Py.strip (App.extract_text
                   (App.RespObject None
                      (Some (str "ERROR: the word and its history")) [])),
       None), w0).
Proof.
  apply (@article_opening_with_marker_gets_no_pdf Ascii7.db
           error_titled_reply (str "Errors") w0).
  - vm_compute. discriminate.
  - reflexivity.
  - vm_compute. reflexivity.
Defined.

Lemma skeleton_has_em_dash (U : Ucd) topic article :
  In 8212%N (App.skeleton U topic article).
Proof.
  unfold App.skeleton. cbn [Py.join].
  do 12 (apply in_or_app; right).
  apply in_or_app. left. apply in_or_app. right.
  apply in_or_app. left. left. reflexivity.
Qed.

(** A text with a character that is neither whitespace nor Latin-1
    cannot be drawn: PDF creation raises and writes nothing. *)
Lemma create_raises (U : Ucd) article topic out_dir w c :
  out_dir <> [] ->
  In c article -> Py.isspace c = false -> Fpdf.font_supports c = false ->
  exists e n,
    App.create_pdf_from_article U article topic out_dir w =
    (Raise e,
     mkWorld (clock w) (S n + ticks w) (made out_dir (dirs w)) (files w)).
Proof.
  intros Hdir Hin Hspace Hfont.
  assert (Hlayout : In c (filter nonspace (concat (App.layout U article)))).
  { rewrite layout_nonspace. apply filter_In. split; [exact Hin|].
    unfold nonspace. rewrite Hspace. reflexivity. }
  apply filter_In in Hlayout as [Hlayout _].
  apply in_concat in Hlayout as (line & Hline & Hc).
  destruct (create_pdf_from_article_result U article topic out_dir w Hdir)
    as [[Hacc _]|[_ (e & n & Hrun & _)]]; [|eauto].
  exfalso. apply andb_true_iff in Hacc as [Hacc _].
  rewrite !forallb_app in Hacc.
  apply andb_true_iff in Hacc as [_ Hacc].
  apply andb_true_iff in Hacc as [_ Hacc].
  unfold App.content_ops in Hacc. cbn [forallb] in Hacc.
  apply andb_true_iff in Hacc as [_ Hacc].
  rewrite (flat_map_rejected (App.render_line U) line _ Hline) in Hacc;
    [discriminate|].
  apply render_line_rejected with (c := c); assumption.
Qed.

(** X7. An article without any of the six section labels never gets a
    PDF from [on_generate]: the skeleton put around it holds an em dash,
    which the core font cannot encode, so PDF creation raises; the
    caller receives the [ERROR: Article generated but failed to create
    PDF] text with the skeleton, and no file. *)
Theorem unlabelled_article_gets_no_pdf (U : Ucd)
  (genai : pystr -> result App.response) (topic : pystr) (w : world) :
  Py.strip topic <> [] ->
  Py.startswith (App.generate_article_from_gemini genai (Py.strip topic))
    (str "ERROR:") = false ->
  existsb
    (Py.contains (App.generate_article_from_gemini genai (Py.strip topic)))
    App.required_sections = false ->
  exists e w',
    App.on_generate U genai topic w =
    (Ok (App.pdf_failure_text e
           (App.skeleton U (Py.strip topic)
              (App.generate_article_from_gemini genai (Py.strip topic))),
         None), w') /\
    files w' = files w.
Proof.
  intros Hne Herr Hlabels. unfold App.on_generate.
  rewrite (proj2 (is_empty_false _) Hne), Herr.
  unfold App.structured. rewrite Hlabels.
  unfold try_except, bind, ret.
  destruct (@create_raises U
              (App.skeleton U (Py.strip topic)
                 (App.generate_article_from_gemini genai (Py.strip topic)))
              (Py.strip topic) App.outputs w 8212%N outputs_nonempty
              (skeleton_has_em_dash U _ _) eq_refl eq_refl)
    as (e & n & ->).
  exists e. eexists. split; reflexivity.
Qed.

Lemma unlabelled_article_gets_no_pdf_witness :
  exists e w',
    App.on_generate Ascii7.db plain_reply (str "Japan") w0 =
    (Ok (App.pdf_failure_text e
           (App.skeleton Ascii7.db (Py.strip (str "Japan"))
              (App.generate_article_from_gemini plain_reply
                 (Py.strip (str "Japan")))),
         None), w') /\
    files w' = files w0.
Proof.
  apply (@unlabelled_article_gets_no_pdf Ascii7.db plain_reply (str "Japan")
           w0).
  - vm_compute. discriminate.
  - vm_compute. reflexivity.
  - vm_compute. reflexivity.
Defined.

(** X8. The way to a PDF: for a non-blank Latin-1 topic and an upstream
    reply whose stripped text is Latin-1, does not open with [ERROR:]
    and holds at least one section label, [on_generate] returns that
    text unchanged together with the path of the file it wrote when the
    wrapped lines of the text are aired; when they are not, because a
    line with something to draw follows a body or bullet line directly,
    it returns the [ERROR: Article generated but failed to create PDF]
    text around the article, and no file. *)
Theorem labelled_latin1_article_gets_a_pdf (U : Ucd)
  (genai : pystr -> result App.response) (topic : pystr) (w : world)
  (r : App.response) :
  Py.strip topic <> [] ->
  latin1 (Py.strip topic) = true ->
  genai (Py.strip topic) = Ok r ->
  Py.startswith (Py.strip (App.extract_text r)) (str "ERROR:") = false ->
  existsb (Py.contains (Py.strip (App.extract_text r)))
    App.required_sections = true ->
  latin1 (Py.strip (App.extract_text r)) = true ->
  (aired U true (App.layout U (Py.strip (App.extract_text r))) = true ->
   exists path w',
     App.on_generate U genai topic w =
     (Ok (Py.strip (App.extract_text r), Some path), w') /\
     path = path_join App.outputs
              (App.filename U (Py.strip topic) (clock w (ticks w))) /\
     lookup_file path w' =
       Some (App.title_ops (Py.strip topic) ++
             App.subtitle_ops (clock w (S (ticks w))) ++
             App.content_ops U
               (App.layout U (Py.strip (App.extract_text r))))) /\
  (aired U true (App.layout U (Py.strip (App.extract_text r))) = false ->
   exists e w',
     App.on_generate U genai topic w =
     (Ok (App.pdf_failure_text e (Py.strip (App.extract_text r)), None), w') /\
     files w' = files w).
Proof.
  intros Hne Htopic Hgen Herr Hlabels Hlatin.
  assert (Hon : App.on_generate U genai topic w =
                try_except
                  (pdf_path <- App.create_pdf_from_article U
                                 (Py.strip (App.extract_text r))
                                 (Py.strip topic) App.outputs ;;
                   ret (Py.strip (App.extract_text r), Some pdf_path))
                  (fun e =>
                     ret (App.pdf_failure_text e
                            (Py.strip (App.extract_text r)), None)) w).
  { unfold App.on_generate. rewrite (proj2 (is_empty_false _) Hne).
    unfold App.generate_article_from_gemini. rewrite Hgen, Herr.
    unfold App.structured. rewrite Hlabels. reflexivity. }
  rewrite Hon. unfold try_except, bind, ret. split; intros Haired.
  - rewrite create_latin1;
      [|exact outputs_nonempty | rewrite strip_idempotent; exact Htopic
       |exact Hlatin | exact Haired].
    do 2 eexists. split; [reflexivity|]. split; [reflexivity|].
    apply lookup_written.
  - destruct (@create_crowded U (Py.strip (App.extract_text r))
                (Py.strip topic) App.outputs w outputs_nonempty Haired)
      as (e & w' & -> & Hfiles).
    exists e, w'. split; [reflexivity | exact Hfiles].
Qed.

Lemma labelled_latin1_article_gets_a_pdf_witness :
  (exists path w',
     App.on_generate Ascii7.db labelled_reply (str "Tea") w0 =
     (Ok (Py.strip (App.extract_text
                      (App.RespObject None
                         (Some (str "Introduction:" ++ nl ++
                                str "Tea is a drink.")) [])),
          Some path), w') /\
     path = path_join App.outputs
              (App.filename Ascii7.db (Py.strip (str "Tea"))
                 (clock w0 (ticks w0))) /\
     lookup_file path w' =
       Some (App.title_ops (Py.strip (str "Tea")) ++
             App.subtitle_ops (clock w0 (S (ticks w0))) ++
             App.content_ops Ascii7.db
               (App.layout Ascii7.db
                  (Py.strip (App.extract_text
                               (App.RespObject None
                                  (Some (str "Introduction:" ++ nl ++
                                         str "Tea is a drink.")) [])))))) /\
  (exists e w',
     App.on_generate Ascii7.db crowded_reply (str "Tea") w0 =
     (Ok (App.pdf_failure_text e
            (Py.strip (App.extract_text
                         (App.RespObject None
                            (Some (str "Summary:" ++ nl ++
                                   str "Tea is a drink." ++ nl ++
                                   str "Coffee is a drink.")) []))),
          None), w') /\
     files w' = files w0).
Proof.
  split.
  - apply (proj1 (@labelled_latin1_article_gets_a_pdf Ascii7.db
                    labelled_reply (str "Tea") w0 _
                    ltac:(vm_compute; discriminate) eq_refl eq_refl
                    eq_refl eq_refl eq_refl)).
    vm_compute. reflexivity.
  - apply (proj2 (@labelled_latin1_article_gets_a_pdf Ascii7.db
                    crowded_reply (str "Tea") w0 _
                    ltac:(vm_compute; discriminate) eq_refl eq_refl
                    eq_refl eq_refl eq_refl)).
    vm_compute. reflexivity.
Defined.

(** ** app.py: the file name and the text handed to PDF creation *)

Lemma digit_not_slash d : digit d <> 47%N.
Proof.
  unfold digit. pose proof (Nat.mod_upper_bound d 10). lia.
Qed.

Lemma stamp_has_no_slash t : ~ In 47%N (strftime_stamp t).
Proof.
  unfold strftime_stamp, pad4, pad2. cbn [app str map list_ascii_of_string].
  cbn [In]. intros H.
  repeat match goal with
         | H : _ \/ _ |- _ => destruct H as [H|H]
         | H : digit _ = 47%N |- _ => exact (@digit_not_slash _ H)
         end; try discriminate H; exact H.
Qed.

Lemma safe_topic_has_no_slash (U : Ucd) topic :
  isalnum U 47%N = false -> ~ In 47%N (App.safe_topic U topic).
Proof.
  intros Hslash Hin.
  assert (H : forallb
                (fun c => isalnum U c || existsb (N.eqb c) [32; 45; 95]%N)
                (App.safe_topic U topic) = true)
    by apply firstn_forallb, strip_forallb, filter_forallb.
  rewrite forallb_forall in H. specialize (H _ Hin).
  rewrite Hslash in H. discriminate H.
Qed.

(** X9. The file name app.py builds is a single path component of at
    most 68 characters (the slash not being alphanumeric): whatever the
    topic, the file lands directly in the output directory. *)
Theorem filename_is_one_short_component (U : Ucd) (topic : pystr)
  (t : datetime) :
  isalnum U 47%N = false ->
  ~ In 47%N (App.filename U topic t) /\
  length (App.filename U topic t) <= 68.
Proof.
  intros Hslash. unfold App.filename. split.
  - pose proof (@stamp_has_no_slash t) as Hstamp.
    assert (Hname : ~ In 47%N (if is_empty (App.safe_topic U topic)
                               then str "topic" else App.safe_topic U topic)).
    { destruct (is_empty (App.safe_topic U topic)).
      - vm_compute. intuition discriminate.
      - apply safe_topic_has_no_slash. exact Hslash. }
    revert Hstamp Hname.
    generalize (strftime_stamp t).
    generalize (if is_empty (App.safe_topic U topic)
                then str "topic" else App.safe_topic U topic).
    intros name stamp Hstamp Hname H.
    apply in_app_or in H as [H|H];
      [vm_compute in H; intuition discriminate|].
    apply in_app_or in H as [H|H]; [exact (Hname H)|].
    apply in_app_or in H as [H|H];
      [vm_compute in H; intuition discriminate|].
    apply in_app_or in H as [H|H]; [exact (Hstamp H)|].
    vm_compute in H. intuition discriminate.
  - rewrite !length_app.
    assert (Hname : length (if is_empty (App.safe_topic U topic)
                            then str "topic" else App.safe_topic U topic)
                    <= 40).
    { destruct (is_empty (App.safe_topic U topic)); [simpl; lia|].
      apply firstn_le_length. }
    change (length (strftime_stamp t)) with 15.
    change (length (str "article_")) with 8.
    change (length (str "_")) with 1.
    change (length (str ".pdf")) with 4. lia.
Qed.

Lemma filename_is_one_short_component_witness :
  ~ In 47%N (App.filename Ascii7.db (str "../../etc/passwd") noon) /\
  length (App.filename Ascii7.db (str "../../etc/passwd") noon) <= 68.
Proof.
  apply (@filename_is_one_short_component Ascii7.db (str "../../etc/passwd")
           noon).
  reflexivity.
Defined.

Lemma startswith_app (p r : pystr) : Py.startswith (p ++ r) p = true.
Proof.
  induction p as [|c p IH]; [apply startswith_nil|].
  simpl. rewrite N.eqb_refl. exact IH.
Qed.

Lemma contains_infix (sub s : pystr) : infix sub s -> Py.contains s sub = true.
Proof.
  intros (a & b & ->). induction a as [|c a IH].
  - simpl. destruct (sub ++ b) eqn:E; cbn [Py.contains]; rewrite <- ?E;
      rewrite startswith_app; reflexivity.
  - cbn [app Py.contains]. rewrite IH. apply orb_true_r.
Qed.

Lemma skeleton_has_summary (U : Ucd) topic article :
  Py.contains (App.skeleton U topic article) (str "Summary:") = true.
Proof.
  apply contains_infix. unfold App.skeleton. cbn [Py.join].
  do 30 apply infix_app_r. apply infix_here.
Qed.

Lemma structured_has_label (U : Ucd) topic article :
  existsb (Py.contains (App.structured U topic article))
    App.required_sections = true.
Proof.
  unfold App.structured.
  destruct (existsb (Py.contains article) App.required_sections) eqn:E;
    [exact E|].
  apply existsb_exists. exists (str "Summary:").
  split; [|apply skeleton_has_summary].
  unfold App.required_sections. simpl. tauto.
Qed.

(** X10. The text handed to PDF creation always holds at least one of
    the six section labels, and putting the skeleton around an article
    is idempotent: a text that went through once is left alone the
    second time. *)
Theorem structuring_is_idempotent (U : Ucd) (topic topic' article : pystr) :
  existsb (Py.contains (App.structured U topic article))
    App.required_sections = true /\
  App.structured U topic' (App.structured U topic article) =
  App.structured U topic article.
Proof.
  split; [apply structured_has_label|].
  unfold App.structured at 1. rewrite structured_has_label. reflexivity.
Qed.

(** ** app.py: what reaches the page *)

Lemma filter_inked l :
  filter inked l = filter (fun c => negb (c =? 58)%N) (filter nonspace l).
Proof.
  induction l as [|c l IH]; [reflexivity|].
  simpl. unfold inked at 1. destruct (nonspace c); simpl;
    [destruct (c =? 58)%N; simpl; rewrite IH; reflexivity | exact IH].
Qed.

Lemma strip_inked s : filter inked (Py.strip s) = filter inked s.
Proof. rewrite !filter_inked, strip_nonspace. reflexivity. Qed.

Lemma dropwhile_filter_out (p q : N -> bool) s :
  (forall c, p c = true -> q c = false) ->
  filter q (Py.dropwhile p s) = filter q s.
Proof.
  intros Hpq. induction s as [|c s IH]; [reflexivity|].
  simpl. destruct (p c) eqn:E; [|reflexivity].
  rewrite (Hpq c E). exact IH.
Qed.

Lemma rstrip_colons_inked s :
  filter inked (Py.rstrip_chars (str ":") s) = filter inked s.
Proof.
  unfold Py.rstrip_chars. rewrite filter_rev, dropwhile_filter_out.
  - rewrite <- filter_rev, rev_involutive. reflexivity.
  - intros c Hc. rewrite in_colons in Hc. unfold inked. rewrite Hc.
    apply andb_false_r.
Qed.

Lemma render_line_inked (U : Ucd) l :
  filter inked (concat (drawn_texts (App.render_line U l))) = filter inked l.
Proof.
  unfold App.render_line.
  destruct (is_empty (Py.strip l)) eqn:Eblank.
  - apply is_empty_true in Eblank. transitivity (@nil N); [reflexivity|].
    rewrite filter_inked, (strip_blank _ Eblank). reflexivity.
  - destruct (Py.endswith l (str ":") ||
              Py.startswith_any (lower U l) App.section_labels).
    + simpl. rewrite app_nil_r, strip_inked. apply rstrip_colons_inked.
    + destruct (Py.startswith_any l App.bullet_markers); simpl;
        rewrite app_nil_r; reflexivity.
Qed.

(** X11. Of the body, the page shows every character that is neither
    whitespace nor a colon, in the order of the body, and no other such
    character: rendering drops only whitespace and colons that end a
    heading. *)
Theorem page_shows_the_body (U : Ucd) (article : pystr) :
  filter inked
    (concat (drawn_texts (App.content_ops U (App.layout U article)))) =
  filter inked article.
Proof.
  unfold App.content_ops. cbn [drawn_texts flat_map app].
  fold (drawn_texts (flat_map (App.render_line U) (App.layout U article))).
  transitivity (filter inked (concat (App.layout U article))).
  - induction (App.layout U article) as [|l lines IH]; [reflexivity|].
    cbn [flat_map]. unfold drawn_texts in *. rewrite flat_map_app.
    rewrite !concat_app, !filter_app, IH.
    fold (drawn_texts (App.render_line U l)).
    rewrite render_line_inked. cbn [concat]. rewrite filter_app. reflexivity.
  - rewrite !filter_inked, layout_nonspace. reflexivity.
Qed.

(** ** main.py *)

Lemma regular_line_ops_accepted line :
  forallb accepted (Main.regular_line_ops line) = true.
Proof.
  unfold Main.regular_line_ops.
  destruct (is_empty (Py.strip line)); [reflexivity|].
  assert (H : forallb (forallb Fpdf.font_supports)
                (Main.fill_words []
                   (Py.split_on 32%N (Py.encode_latin1_replace line))) =
              true).
  { apply fill_words_forallb; [reflexivity | reflexivity |].
    apply split_on_from_forallb; [reflexivity|].
    apply encode_latin1_supported. }
  induction (Main.fill_words []
               (Py.split_on 32%N (Py.encode_latin1_replace line)))
    as [|txt txts IH]; [reflexivity|].
  simpl in H. apply andb_true_iff in H as [Htxt Htxts].
  simpl. unfold accepted at 1. cbn [Fpdf.op_text]. rewrite Htxt.
  apply IH. exact Htxts.
Qed.

Lemma line_ops_accepted line :
  forallb accepted (Main.line_ops line) = latin1 (header_text line).
Proof.
  unfold Main.line_ops, header_text.
  destruct (Py.startswith line (str "# ")).
  - unfold accepted, latin1. cbn [forallb Fpdf.op_text].
    rewrite !andb_true_r. reflexivity.
  - destruct (Py.startswith line (str "## ")).
    + unfold accepted, latin1. cbn [forallb Fpdf.op_text].
      rewrite !andb_true_r. reflexivity.
    + apply regular_line_ops_accepted.
Qed.

Lemma lines_ops_accepted lines :
  forallb accepted (flat_map Main.line_ops lines) =
  forallb (fun line => latin1 (header_text line)) lines.
Proof.
  induction lines as [|l lines IH]; [reflexivity|].
  cbn [flat_map forallb]. rewrite forallb_app, line_ops_accepted, IH.
  reflexivity.
Qed.

Lemma create_pdf_succeeds_latin1 (title content : pystr) (w : world) :
  (latin1 title &&
   forallb (fun line => latin1 (header_text line)) (Py.split_on 10%N content) =
   true ->
   exists w',
     Main.create_pdf title content w =
       (Ok (Main.stamped_name (clock w (ticks w))), w') /\
     lookup_file (Main.stamped_name (clock w (ticks w))) w' =
       Some (Main.header_ops title ++
             flat_map Main.line_ops (Py.split_on 10%N content))) /\
  (latin1 title &&
   forallb (fun line => latin1 (header_text line)) (Py.split_on 10%N content) =
   false ->
   exists e, Main.create_pdf title content w = (Raise e, w)).
Proof.
  assert (Hacc : forallb accepted
                   (Main.header_ops title ++
                    flat_map Main.line_ops (Py.split_on 10%N content)) =
                 latin1 title &&
                 forallb (fun line => latin1 (header_text line))
                   (Py.split_on 10%N content)).
  { rewrite forallb_app, lines_ops_accepted. f_equal.
    unfold Main.header_ops, accepted, latin1. cbn [forallb Fpdf.op_text].
    rewrite !andb_true_r. reflexivity. }
  destruct (create_pdf_result title content w) as [[H R]|[H R]];
    rewrite Hacc in H; split; intros H'.
  - eexists. split; [exact R | apply lookup_written].
  - congruence.
  - congruence.
  - exact R.
Qed.

(** X12. [PDFGenerator.create_pdf] succeeds exactly when the title and
    the text of every [# ] and [## ] header line are Latin-1: it then
    writes [article_<stamp>.pdf] and returns that name; otherwise it
    raises and leaves the world as it was.  Lines that are not headers
    never make it fail. *)
Theorem create_pdf_succeeds_iff_headers_are_latin1 (title content : pystr)
  (w : world) :
  (latin1 title &&
   forallb (fun line => latin1 (header_text line)) (Py.split_on 10%N content) =
   true ->
   exists w',
     Main.create_pdf title content w =
       (Ok (Main.stamped_name (clock w (ticks w))), w') /\
     lookup_file (Main.stamped_name (clock w (ticks w))) w' =
       Some (Main.header_ops title ++
             flat_map Main.line_ops (Py.split_on 10%N content))) /\
  (latin1 title &&
   forallb (fun line => latin1 (header_text line)) (Py.split_on 10%N content) =
   false ->
   exists e, Main.create_pdf title content w = (Raise e, w)).
Proof. exact (create_pdf_succeeds_latin1 title content w). Qed.

Lemma create_pdf_succeeds_iff_headers_are_latin1_witness :
  (exists w',
     Main.create_pdf (str "Tea") (str "# Tea" ++ nl ++ [128512%N]) w0 =
       (Ok (Main.stamped_name (clock w0 (ticks w0))), w') /\
     lookup_file (Main.stamped_name (clock w0 (ticks w0))) w' =
       Some (Main.header_ops (str "Tea") ++
             flat_map Main.line_ops
               (Py.split_on 10%N (str "# Tea" ++ nl ++ [128512%N])))) /\
  (exists e,
     Main.create_pdf (str "Tea") (str "# " ++ [128512%N]) w0 = (Raise e, w0)).
Proof.
  split.
  - apply (proj1 (create_pdf_succeeds_iff_headers_are_latin1 (str "Tea")
                    (str "# Tea" ++ nl ++ [128512%N]) w0)).
    reflexivity.
  - apply (proj2 (create_pdf_succeeds_iff_headers_are_latin1 (str "Tea")
                    (str "# " ++ [128512%N]) w0)).
    reflexivity.
Defined.

(** X13. [generate_and_create_pdf] never raises.  When it hands back a
    file name, that file is on disk and the text is the formatted
    article; when it hands back none, the world is as it was: nothing
    was written. *)
Theorem generate_and_create_pdf_reports_faithfully (U : Ucd)
  (model : pystr -> result pystr) (topic : pystr) (w : world) :
  exists text file w',
    Main.generate_and_create_pdf U model topic w = (Ok (text, file), w') /\
    match file with
    | Some name =>
        lookup_file name w' <> None /\
        Main.generate_article U model topic = Ok text
    | None => w' = w
    end.
Proof.
  unfold Main.generate_and_create_pdf.
  destruct (is_empty (Py.strip topic)).
  { do 3 eexists. split; [reflexivity|]. reflexivity. }
  unfold try_except, bind, lift, ret.
  destruct (Main.generate_article U model topic) as [article|e] eqn:Egen.
  - destruct (create_pdf_result (title U topic) article w)
      as [[_ ->]|[_ [e ->]]].
    + do 3 eexists. split; [reflexivity|]. cbv beta iota.
      split; [rewrite lookup_written; discriminate | reflexivity].
    + do 3 eexists. split; [reflexivity|]. reflexivity.
  - do 3 eexists. split; [reflexivity|]. reflexivity.
Qed.

Lemma flush_nonspace current_line :
  filter nonspace (concat (Main.flush current_line)) =
  filter nonspace current_line.
Proof.
  unfold Main.flush. destruct current_line as [|c s]; [reflexivity|].
  cbn [is_empty concat]. rewrite app_nil_r. apply strip_nonspace.
Qed.

Lemma fill_words_nonspace current_line words :
  filter nonspace (concat (Main.fill_words current_line words)) =
  filter nonspace current_line ++ filter nonspace (concat words).
Proof.
  revert current_line. induction words as [|word words IH];
    intros current_line; cbn [Main.fill_words concat].
  - rewrite flush_nonspace, app_nil_r. reflexivity.
  - destruct (length (current_line ++ word) <? 80).
    + rewrite IH, !filter_app. simpl. rewrite app_nil_r, <- app_assoc.
      reflexivity.
    + rewrite concat_app, filter_app, flush_nonspace, IH, !filter_app.
      simpl. rewrite app_nil_r. reflexivity.
Qed.

Lemma split_on_space_nonspace cur s :
  filter nonspace (concat (Py.split_on_from 32%N cur s)) =
  filter nonspace (rev cur ++ s).
Proof.
  revert cur. induction s as [|c s IH]; intros cur.
  - simpl. rewrite !app_nil_r. reflexivity.
  - cbn [Py.split_on_from]. destruct (c =? 32)%N eqn:E.
    + apply N.eqb_eq in E. subst c. cbn [concat].
      rewrite !filter_app, IH. reflexivity.
    + rewrite IH. simpl. rewrite <- app_assoc. reflexivity.
Qed.

Lemma cells_texts txts :
  concat (drawn_texts
            (map (fun txt => Fpdf.cell 0 6 txt true Fpdf.AlignLeft) txts)) =
  concat txts.
Proof.
  induction txts as [|txt txts IH]; [reflexivity|].
  cbn [map]. unfold drawn_texts in *. cbn [flat_map].
  rewrite concat_app, IH. destruct txt; [reflexivity|].
  cbn [concat]. rewrite app_nil_r. reflexivity.
Qed.

(** X14. main.py's own word wrap loses no text: for a line that is not
    blank, the cells drawn hold, in order, exactly the characters of the
    re-encoded line other than whitespace. *)
Theorem regular_line_keeps_text (line : pystr) :
  Py.strip line <> [] ->
  filter nonspace (concat (drawn_texts (Main.regular_line_ops line))) =
  filter nonspace (Py.encode_latin1_replace line).
Proof.
  intros Hne. unfold Main.regular_line_ops.
  rewrite (proj2 (is_empty_false _) Hne).
  rewrite cells_texts, fill_words_nonspace. unfold Py.split_on.
  rewrite split_on_space_nonspace. reflexivity.
Qed.

Lemma regular_line_keeps_text_witness :
  filter nonspace
    (concat (drawn_texts (Main.regular_line_ops (str "  tea   and cake ")))) =
  filter nonspace (Py.encode_latin1_replace (str "  tea   and cake ")).
Proof.
  apply (@regular_line_keeps_text (str "  tea   and cake ")).
  vm_compute. discriminate.
Defined.

Lemma strip_drops_trailing_space s :
  s <> [] -> last s 0%N = 32%N -> length (Py.strip s) < length s.
Proof.
  intros Hne Hlast. destruct (strip_infix s) as (a & b & E).
  destruct b as [|x b].
  - rewrite app_nil_r in E. destruct (Py.strip s) as [|c t] eqn:Es.
    + destruct s; [congruence | simpl; lia].
    + exfalso. destruct (strip_ends s) as [_ H]. rewrite Es in H.
      rewrite E, last_suffix in Hlast by discriminate.
      rewrite Hlast in H. discriminate H.
  - rewrite E at 2. rewrite !length_app. simpl. lia.
Qed.

Lemma flush_short current_line txt :
  current_line = [] \/
  (last current_line 0%N = 32%N /\ length current_line <= 80) ->
  In txt (Main.flush current_line) -> length txt < 80.
Proof.
  intros Hcur Hin. unfold Main.flush in Hin.
  destruct current_line as [|c s] eqn:E; [destruct Hin|].
  destruct Hcur as [Hcur|[Hlast Hlen]]; [discriminate|].
  destruct Hin as [<-|[]].
  pose proof (@strip_drops_trailing_space (c :: s) ltac:(discriminate) Hlast).
  lia.
Qed.

Lemma fill_words_short current_line words txt :
  current_line = [] \/
  (last current_line 0%N = 32%N /\ length current_line <= 80) ->
  (forall word, In word words -> length word < 80) ->
  In txt (Main.fill_words current_line words) -> length txt < 80.
Proof.
  revert current_line. induction words as [|word words IH];
    intros current_line Hcur Hwords Hin; cbn [Main.fill_words] in Hin.
  - eapply flush_short; eassumption.
  - assert (Hword : length word < 80) by (apply Hwords; left; reflexivity).
    assert (Hrest : forall word0, In word0 words -> length word0 < 80)
      by (intros word0 H0; apply Hwords; right; exact H0).
    destruct (length (current_line ++ word) <? 80) eqn:Efit.
    + apply Nat.ltb_lt in Efit.
      apply (IH (current_line ++ word ++ str " ")); [|exact Hrest|exact Hin].
      right. split.
      * rewrite app_assoc. apply last_last.
      * rewrite app_assoc, length_app. simpl. lia.
    + apply in_app_or in Hin as [Hin|Hin].
      * eapply flush_short; eassumption.
      * apply (IH (word ++ str " ")); [|exact Hrest|exact Hin].
        right. split; [apply last_last|].
        rewrite length_app. simpl. lia.
Qed.

(** X15. main.py's word wrap keeps every drawn cell under 80 characters
    as long as no single space-separated word of the re-encoded line
    has 80 characters or more (such a word is never split). *)
Theorem regular_line_cells_are_short (line txt : pystr) :
  (forall word,
     In word (Py.split_on 32%N (Py.encode_latin1_replace line)) ->
     length word < 80) ->
  In txt (drawn_texts (Main.regular_line_ops line)) ->
  length txt < 80.
Proof.
  intros Hwords Hin. unfold Main.regular_line_ops in Hin.
  destruct (is_empty (Py.strip line)); [destruct Hin|].
  assert (Htxt : In txt (Main.fill_words []
                           (Py.split_on 32%N (Py.encode_latin1_replace line)))).
  { revert Hin.
    induction (Main.fill_words []
                 (Py.split_on 32%N (Py.encode_latin1_replace line)))
      as [|t ts IH]; [intros []|].
    cbn [map]. unfold drawn_texts in *. cbn [flat_map].
    intros Hin. apply in_app_or in Hin as [Hin|Hin].
    - destruct t; [destruct Hin|]. destruct Hin as [<-|[]]. left. reflexivity.
    - right. apply IH. exact Hin. }
  eapply fill_words_short; [left; reflexivity | exact Hwords | exact Htxt].
Qed.

Lemma regular_line_cells_are_short_witness :
  length (str "tea and cake") < 80.
Proof.
  apply (@regular_line_cells_are_short (str "tea and cake")
           (str "tea and cake")).
  - intros word Hword. vm_compute in Hword.
    repeat (destruct Hword as [<-|Hword]; [vm_compute; lia|]).
    destruct Hword.
  - vm_compute. left. reflexivity.
Defined.

(** ** Time stamps and the order of file names *)

Lemma lex_compare_prefix p a b :
  lex_compare (p ++ a) (p ++ b) = lex_compare a b.
Proof.
  induction p as [|c p IH]; [reflexivity|].
  simpl. rewrite N.compare_refl. exact IH.
Qed.

Lemma lex_compare_app a b x y :
  length a = length b ->
  lex_compare (a ++ x) (b ++ y) = and_then (lex_compare a b) (lex_compare x y).
Proof.
  revert b. induction a as [|c a IH]; intros [|d b] Hlen;
    try discriminate Hlen; [reflexivity|].
  simpl. destruct (c ?= d)%N; [|reflexivity|reflexivity].
  apply IH. simpl in Hlen. lia.
Qed.

Lemma digit_compare a b :
  a < 10 -> b < 10 -> (digit a ?= digit b)%N = (a ?= b).
Proof.
  intros Ha Hb. unfold digit.
  rewrite !Nat.mod_small by assumption.
  destruct (Nat.compare_spec a b) as [H|H|H].
  - subst. apply N.compare_refl.
  - apply N.compare_lt_iff. lia.
  - apply N.compare_gt_iff. lia.
Qed.

Lemma digit_mod d : digit d = digit (d mod 10).
Proof. unfold digit. rewrite Nat.Div0.mod_mod. reflexivity. Qed.

Lemma pad2_compare n m :
  n < 100 -> m < 100 -> lex_compare (pad2 n) (pad2 m) = (n ?= m).
Proof.
  intros Hn Hm. unfold pad2. cbn [lex_compare].
  rewrite (digit_mod n), (digit_mod m).
  rewrite !digit_compare by lia.
  destruct (Nat.compare_spec (n / 10) (m / 10)) as [H1|H1|H1];
    destruct (Nat.compare_spec (n mod 10) (m mod 10)) as [H2|H2|H2];
    symmetry;
    first [ apply Nat.compare_eq_iff; lia
          | apply Nat.compare_lt_iff; lia
          | apply Nat.compare_gt_iff; lia ].
Qed.

Lemma pad4_compare n m :
  n < 10 * 1000 -> m < 10 * 1000 ->
  lex_compare (pad4 n) (pad4 m) = (n ?= m).
Proof.
  intros Hn Hm. unfold pad4. cbn [lex_compare].
  rewrite (digit_mod (n / 100)), (digit_mod (m / 100)).
  rewrite (digit_mod (n / 10)), (digit_mod (m / 10)).
  rewrite (digit_mod n), (digit_mod m).
  rewrite !digit_compare by lia.
  destruct (Nat.compare_spec (n / 1000) (m / 1000)) as [H1|H1|H1];
    destruct (Nat.compare_spec ((n / 100) mod 10) ((m / 100) mod 10))
      as [H2|H2|H2];
    destruct (Nat.compare_spec ((n / 10) mod 10) ((m / 10) mod 10))
      as [H3|H3|H3];
    destruct (Nat.compare_spec (n mod 10) (m mod 10)) as [H4|H4|H4];
    symmetry;
    first [ apply Nat.compare_eq_iff; lia
          | apply Nat.compare_lt_iff; lia
          | apply Nat.compare_gt_iff; lia ].
Qed.

Lemma stamp_compare t t' :
  valid_datetime t -> valid_datetime t' ->
  lex_compare (strftime_stamp t) (strftime_stamp t') = datetime_compare t t'.
Proof.
  intros (Hy & Hm & Hd & Hh & Hn & Hs) (Hy' & Hm' & Hd' & Hh' & Hn' & Hs').
  unfold strftime_stamp, datetime_compare.
  rewrite lex_compare_app by reflexivity. rewrite pad4_compare by lia.
  rewrite lex_compare_app by reflexivity. rewrite pad2_compare by lia.
  rewrite lex_compare_app by reflexivity. rewrite pad2_compare by lia.
  rewrite lex_compare_prefix.
  rewrite lex_compare_app by reflexivity. rewrite pad2_compare by lia.
  rewrite lex_compare_app by reflexivity. rewrite !pad2_compare by lia.
  reflexivity.
Qed.

(** X16. File names sort by time: for two valid clock readings, the
    names app.py gives to files of the same topic, and the names main.py
    gives, compare as strings exactly as the readings compare as
    times. *)
Theorem file_names_sort_by_time (U : Ucd) (topic : pystr) (t t' : datetime) :
  valid_datetime t -> valid_datetime t' ->
  lex_compare (App.filename U topic t) (App.filename U topic t') =
    datetime_compare t t' /\
  lex_compare (Main.stamped_name t) (Main.stamped_name t') =
    datetime_compare t t'.
Proof.
  intros Ht Ht'.
  assert (Hpdf : lex_compare (strftime_stamp t ++ str ".pdf")
                   (strftime_stamp t' ++ str ".pdf") =
                 datetime_compare t t').
  { rewrite lex_compare_app by reflexivity.
    rewrite (stamp_compare Ht Ht').
    destruct (datetime_compare t t'); reflexivity. }
  unfold App.filename, Main.stamped_name. split.
  - do 3 rewrite lex_compare_prefix. exact Hpdf.
  - rewrite lex_compare_prefix. exact Hpdf.
Qed.

Lemma file_names_sort_by_time_witness :
  lex_compare (App.filename Ascii7.db (str "Tea") noon)
    (App.filename Ascii7.db (str "Tea") (mkDatetime 2024 1 1 12 0 1)) =
    datetime_compare noon (mkDatetime 2024 1 1 12 0 1) /\
  lex_compare (Main.stamped_name noon)
    (Main.stamped_name (mkDatetime 2024 1 1 12 0 1)) =
    datetime_compare noon (mkDatetime 2024 1 1 12 0 1).
Proof.
  apply (@file_names_sort_by_time Ascii7.db (str "Tea") noon
           (mkDatetime 2024 1 1 12 0 1)).
  - exact noon_valid.
  - unfold valid_datetime. simpl. lia.
Defined.

(** ** main.py: the way to a PDF *)

Lemma skipn_forallb {A} (p : A -> bool) n l :
  forallb p l = true -> forallb p (skipn n l) = true.
Proof.
  intros H. rewrite <- (firstn_skipn n l), forallb_app in H.
  apply andb_true_iff in H. tauto.
Qed.

Lemma header_text_latin1 line :
  latin1 line = true -> latin1 (header_text line) = true.
Proof.
  unfold latin1, header_text. intros H.
  destruct (Py.startswith line (str "# ")); [apply skipn_forallb; exact H|].
  destruct (Py.startswith line (str "## ")); [apply skipn_forallb; exact H|].
  reflexivity.
Qed.

Lemma headers_latin1 content :
  latin1 content = true ->
  forallb (fun line => latin1 (header_text line)) (Py.split_on 10%N content) =
  true.
Proof.
  intros H. apply forallb_forall. intros line Hline.
  apply header_text_latin1.
  pose proof (@split_on_from_forallb Fpdf.font_supports 10%N [] content
                eq_refl H) as Hall.
  rewrite forallb_forall in Hall. apply Hall. exact Hline.
Qed.

Lemma format_article_latin1 (U : Ucd) article topic :
  latin1 (title U topic) = true -> latin1 topic = true ->
  latin1 article = true ->
  latin1 (Main.format_article U article topic) = true.
Proof.
  unfold latin1. intros Htitle Htopic Harticle.
  pose proof (strip_forallb Fpdf.font_supports article Harticle) as Hstrip.
  unfold Main.format_article.
  rewrite !forallb_app, Htitle, Htopic, Hstrip. reflexivity.
Qed.

(** X17. The way to a PDF in main.py: for a non-blank topic, when the
    topic, its title-cased form and the model's text are all Latin-1,
    [generate_and_create_pdf] returns the formatted article together
    with the name of the file it wrote. *)
Theorem latin1_topic_gets_a_pdf (U : Ucd) (model : pystr -> result pystr)
  (topic article : pystr) (w : world) :
  Py.strip topic <> [] ->
  model topic = Ok article ->
  latin1 topic = true -> latin1 (title U topic) = true ->
  latin1 article = true ->
  exists w',
    Main.generate_and_create_pdf U model topic w =
    (Ok (Main.format_article U article topic,
         Some (Main.stamped_name (clock w (ticks w)))), w') /\
    lookup_file (Main.stamped_name (clock w (ticks w))) w' <> None.
Proof.
  intros Hne Hmodel Htopic Htitle Harticle.
  unfold Main.generate_and_create_pdf, Main.generate_article.
  rewrite (proj2 (is_empty_false _) Hne), Hmodel.
  unfold try_except, bind, lift, ret.
  destruct (proj1 (create_pdf_succeeds_latin1 (title U topic)
                     (Main.format_article U article topic) w))
    as (w' & -> & Hfile).
  - rewrite Htitle. apply headers_latin1.
    apply format_article_latin1; assumption.
  - exists w'. split; [reflexivity|]. rewrite Hfile. discriminate.
Qed.

Lemma latin1_topic_gets_a_pdf_witness :
  exists w',
    Main.generate_and_create_pdf Ascii7.db short_story (str "Japan") w0 =
    (Ok (Main.format_article Ascii7.db (str "Tokyo is the capital of Japan.")
           (str "Japan"),
         Some (Main.stamped_name (clock w0 (ticks w0)))), w') /\
    lookup_file (Main.stamped_name (clock w0 (ticks w0))) w' <> None.
Proof.
  apply (@latin1_topic_gets_a_pdf Ascii7.db short_story (str "Japan")
           (str "Tokyo is the capital of Japan.") w0).
  - vm_compute. discriminate.
  - reflexivity.
  - reflexivity.
  - reflexivity.
  - reflexivity.
Defined.

(** ** Short lines and the wrapper *)

Lemma fill_line_all width cur_line cur_len chunks :
  cur_len + length (concat chunks) <= width ->
  TextWrap.fill_line width cur_line cur_len chunks =
  (cur_line ++ chunks, cur_len + length (concat chunks), []).
Proof.
  revert cur_line cur_len. induction chunks as [|c chunks IH];
    intros cur_line cur_len Hlen.
  - simpl. rewrite app_nil_r, Nat.add_0_r. reflexivity.
  - cbn [TextWrap.fill_line concat] in *. rewrite length_app in Hlen.
    replace (cur_len + length c <=? width) with true
      by (symmetry; apply Nat.leb_le; lia).
    rewrite IH by lia. rewrite <- app_assoc, length_app, Nat.add_assoc.
    reflexivity.
Qed.

Lemma drop_last_blank_keeps chunks :
  TextWrap.blank (last chunks []) = false ->
  TextWrap.drop_last_blank chunks = chunks.
Proof.
  intros Hlast. unfold TextWrap.drop_last_blank.
  destruct (rev chunks) as [|c before] eqn:E; [reflexivity|].
  apply rev_head_last in E. subst chunks. rewrite last_last in Hlast.
  rewrite Hlast. reflexivity.
Qed.

(** Chunks that fit the width together make one line. *)
Lemma wrap_loop_one_line width fuel chunks :
  chunks <> [] -> length (concat chunks) <= width ->
  TextWrap.blank (last chunks []) = false ->
  TextWrap.wrap_loop (S fuel) width chunks [] = Some [concat chunks].
Proof.
  intros Hne Hlen Hlast. destruct chunks as [|c0 rest0]; [congruence|].
  cbn [TextWrap.wrap_loop]. unfold TextWrap.wrap_iteration.
  cbn [is_empty negb]. rewrite andb_false_r.
  rewrite fill_line_all by (simpl; exact Hlen). cbn [app].
  rewrite drop_last_blank_keeps by exact Hlast.
  cbn [is_empty app]. destruct fuel; reflexivity.
Qed.

Section ShortLines.

Variable U : Ucd.

Lemma split_at_nonempty fuel before s :
  Forall (fun c : list N => c <> []) (TextWrap.split_at U fuel before s).
Proof.
  revert before s. induction fuel as [|fuel IH]; intros before s.
  - destruct s; simpl; [constructor|]. constructor; [discriminate|constructor].
  - destruct s as [|c s]; [constructor|].
    rewrite split_from_step by discriminate. constructor; [|apply IH].
    pose proof (@chunk_len_bounds U before (c :: s) ltac:(discriminate)) as H.
    destruct (TextWrap.chunk_len U before (c :: s)); [lia|discriminate].
Qed.

Lemma last_concat (l : list (list N)) :
  l <> [] -> Forall (fun c : list N => c <> []) l ->
  last (concat l) 0%N = last (last l []) 0%N.
Proof.
  intros Hne Hall. induction l as [|c l IH]; [congruence|].
  inversion Hall as [|? ? Hc Hl]; subst.
  destruct l as [|d l].
  - simpl. rewrite app_nil_r. reflexivity.
  - change (concat (c :: d :: l)) with (c ++ concat (d :: l)).
    change (last (c :: d :: l) []) with (last (d :: l) []).
    rewrite last_suffix.
    + apply IH; [discriminate | exact Hl].
    + inversion Hl as [|? ? Hd _]; subst. cbn [concat].
      destruct d; [congruence | discriminate].
Qed.

Lemma last_chunk_not_blank text :
  text <> [] -> Py.isspace (last text 0%N) = false ->
  TextWrap._split U text <> [] /\
  TextWrap.blank (last (TextWrap._split U text) []) = false.
Proof.
  intros Hne Hlast.
  pose proof (split_concat U text) as Hcat.
  pose proof (split_at_nonempty (length text) [] text) as Hall.
  fold (TextWrap._split U text) in Hall.
  assert (Hchunks : TextWrap._split U text <> []).
  { intros E. rewrite E in Hcat. simpl in Hcat. congruence. }
  split; [exact Hchunks|].
  pose proof (last_concat Hchunks Hall) as Hl. rewrite Hcat in Hl.
  assert (Hc : last (TextWrap._split U text) [] <> []).
  { rewrite Forall_forall in Hall. apply Hall.
    rewrite (app_removelast_last [] Hchunks) at 2.
    apply in_or_app. right. left. reflexivity. }
  unfold TextWrap.blank. apply is_empty_false. intros E.
  assert (Hin : In (last text 0%N) (Py.strip (last (TextWrap._split U text) []))).
  { apply strip_keeps; [|exact Hlast]. rewrite Hl.
    rewrite (app_removelast_last 0%N Hc) at 2.
    apply in_or_app. right. left. reflexivity. }
  rewrite E in Hin. exact Hin.
Qed.

Lemma expandtabs_last tabsize col s :
  s <> [] -> Py.isspace (last s 0%N) = false ->
  Py.expandtabs_from tabsize col s <> [] /\
  last (Py.expandtabs_from tabsize col s) 0%N = last s 0%N.
Proof.
  intros Hne Hlast.
  rewrite (app_removelast_last 0%N Hne) at 1 2.
  destruct (expandtabs_from_app tabsize col (removelast s) [last s 0%N])
    as [col' ->].
  assert (E : Py.expandtabs_from tabsize col' [last s 0%N] = [last s 0%N]).
  { cbn [Py.expandtabs_from].
    destruct (last s 0%N =? 9)%N eqn:E9.
    - apply N.eqb_eq in E9. rewrite E9 in Hlast. discriminate Hlast.
    - destruct ((last s 0%N =? 10)%N || (last s 0%N =? 13)%N); reflexivity. }
  rewrite E. split.
  - destruct (Py.expandtabs_from tabsize col (removelast s)); discriminate.
  - apply last_last.
Qed.

Lemma expandtabs_no_tab tabsize col s :
  forallb (fun c => negb (c =? 9)%N) s = true ->
  Py.expandtabs_from tabsize col s = s.
Proof.
  revert col. induction s as [|c s IH]; intros col H; [reflexivity|].
  simpl in H. apply andb_true_iff in H as [Hc H].
  apply negb_true_iff in Hc. cbn [Py.expandtabs_from]. rewrite Hc.
  destruct ((c =? 10)%N || (c =? 13)%N); rewrite IH by exact H; reflexivity.
Qed.

(** X18. A short line is not touched by the wrapper: a non-blank line
    that is not a heading and whose stripped, tab-expanded text has at
    most 90 characters becomes exactly one wrapped line, that text; when
    it holds no tab, the wrapped line is the stripped line itself. *)
Theorem short_lines_pass_through (line : pystr) :
  Py.strip line <> [] ->
  App.looks_like_heading U (Py.strip line) = false ->
  length (Py.expandtabs 8 (Py.strip line)) <= 90 ->
  App.layout_line U line = [Py.expandtabs 8 (Py.strip line)] /\
  (forallb (fun c => negb (c =? 9)%N) (Py.strip line) = true ->
   App.layout_line U line = [Py.strip line]).
Proof.
  intros Hne Hhead Hlen.
  assert (Hline : App.layout_line U line = [Py.expandtabs 8 (Py.strip line)]).
  { unfold App.layout_line.
    rewrite (proj2 (is_empty_false _) Hne), Hhead.
    unfold TextWrap.wrap, TextWrap._wrap_chunks, TextWrap._split_chunks,
      TextWrap._munge_whitespace.
    destruct (strip_ends line) as [_ Hlast].
    destruct (@expandtabs_last 8 0 (Py.strip line) Hne Hlast) as [Hne' Hlast'].
    fold (Py.expandtabs 8 (Py.strip line)) in Hne', Hlast'.
    rewrite <- Hlast' in Hlast.
    destruct (last_chunk_not_blank Hne' Hlast) as [Hchunks Hblank].
    pose proof (split_concat U (Py.expandtabs 8 (Py.strip line))) as Hcat.
    unfold TextWrap.wrap_fuel.
    destruct (TextWrap._split U (Py.expandtabs 8 (Py.strip line)))
      as [|c0 rest0] eqn:E; [congruence|].
    cbn [length Nat.add].
    rewrite wrap_loop_one_line;
      [rewrite Hcat; reflexivity | discriminate | rewrite Hcat; exact Hlen
      | exact Hblank]. }
  split; [exact Hline|].
  intros Htab. rewrite Hline. unfold Py.expandtabs.
  rewrite expandtabs_no_tab by exact Htab. reflexivity.
Qed.

End ShortLines.

Lemma short_lines_pass_through_witness :
  App.layout_line Ascii7.db (str "  Tea is a drink.  ") =
    [Py.expandtabs 8 (Py.strip (str "  Tea is a drink.  "))] /\
  (forallb (fun c => negb (c =? 9)%N) (Py.strip (str "  Tea is a drink.  "))
   = true ->
   App.layout_line Ascii7.db (str "  Tea is a drink.  ") =
   [Py.strip (str "  Tea is a drink.  ")]).
Proof.
  apply (@short_lines_pass_through Ascii7.db (str "  Tea is a drink.  ")).
  - vm_compute. discriminate.
  - vm_compute. reflexivity.
  - vm_compute. lia.
Defined.

Lemma long_wrapped_lines_are_headings_witness :
  length (str "Tea is a drink.") <= 90 \/
  App.looks_like_heading Ascii7.db (str "Tea is a drink.") = true.
Proof.
  apply (@long_wrapped_lines_are_headings Ascii7.db
           (str "Summary:" ++ nl ++ str "Tea is a drink.")
           (str "Tea is a drink.")).
  vm_compute. right. left. reflexivity.
Defined.

Lemma wrapped_lines_hold_no_line_break_witness :
  forallb (fun c => negb (Py.is_linebreak c)) (str "Tea is a drink.") = true.
Proof.
  apply (@wrapped_lines_hold_no_line_break Ascii7.db
           (str "Summary:" ++ nl ++ str "Tea is a drink.")
           (str "Tea is a drink.")).
  vm_compute. right. left. reflexivity.
Defined.

Lemma every_line_is_laid_out_witness :
  App.layout_line Ascii7.db (str "   ") = [[]].
Proof.
  apply (proj2 (every_line_is_laid_out Ascii7.db (str "Summary:"))
           (str "   ")).
  reflexivity.
Defined.

(** ** The layout pass and the whitespace of the body *)

Lemma only_space_forallb s :
  filter nonspace s = [] -> forallb Py.isspace s = true.
Proof.
  induction s as [|c s IH]; [reflexivity|]. simpl. unfold nonspace at 1.
  destruct (Py.isspace c); simpl; [exact IH | discriminate].
Qed.

Lemma cut_gap gap text lines :
  forallb Py.isspace gap = true -> cut text lines -> cut (gap ++ text) lines.
Proof.
  intros Hg H. destruct H as [g Hws|g line rest lines Hws Hrest].
  - apply cut_end. rewrite forallb_app, Hg, Hws. reflexivity.
  - rewrite app_assoc. apply cut_line; [|exact Hrest].
    rewrite forallb_app, Hg, Hws. reflexivity.
Qed.

Lemma cut_app text1 lines1 text2 lines2 :
  cut text1 lines1 -> cut text2 lines2 ->
  cut (text1 ++ text2) (lines1 ++ lines2).
Proof.
  intros H1 H2. induction H1 as [g Hws|g line rest lines Hws Hrest IH].
  - apply cut_gap; assumption.
  - rewrite <- !app_assoc. cbn [app]. apply cut_line; assumption.
Qed.

Section Cuts.

Variable U : Ucd.

(** One pass of the wrapper's loop takes a piece off the front of the
    text that is left: the line it finishes, if any, between two runs
    of whitespace that it drops. *)
Lemma wrap_iteration_cut width c0 rest0 lines :
  exists chunks' new text,
    TextWrap.wrap_iteration width c0 rest0 lines = (chunks', lines ++ new) /\
    concat (c0 :: rest0) = text ++ concat chunks' /\
    cut text new.
Proof.
  unfold TextWrap.wrap_iteration.
  set (chunks1 := if TextWrap.blank c0 && negb (is_empty lines)
                  then rest0 else c0 :: rest0).
  assert (H1 : exists gap,
             concat (c0 :: rest0) = gap ++ concat chunks1 /\
             forallb Py.isspace gap = true).
  { subst chunks1. destruct (TextWrap.blank c0) eqn:Eb; cbn [andb].
    - destruct (negb (is_empty lines)).
      + exists c0. split; [reflexivity|].
        apply only_space_forallb, blank_nonspace, Eb.
      + exists []. auto.
    - exists []. auto. }
  destruct H1 as (gap & Hgap & Hws). clearbody chunks1.
  destruct (fill_line_spec width [] 0 chunks1)
    as (cur_line & chunks2 & Hfill & Hchunks & _).
  rewrite Hfill. cbn [app Nat.add] in *.
  set (step := match chunks2 with
               | c :: rest =>
                   if width <? length c
                   then TextWrap._handle_long_word c rest cur_line
                          (length (concat cur_line)) width
                   else (cur_line, chunks2)
               | [] => (cur_line, chunks2)
               end).
  assert (H2 : exists piece chunks3,
             step = (cur_line ++ piece, chunks3) /\
             concat piece ++ concat chunks3 = concat chunks2).
  { subst step. destruct chunks2 as [|c rest].
    - exists [], []. rewrite app_nil_r. auto.
    - destruct (width <? length c).
      + destruct (handle_long_word_spec c rest cur_line
                    (length (concat cur_line)) width) as (stop & -> & _).
        exists [firstn stop c], (skipn stop c :: rest).
        split; [reflexivity|]. cbn [concat]. rewrite app_nil_r.
        rewrite app_assoc, firstn_skipn. reflexivity.
      + exists [], (c :: rest). rewrite app_nil_r. auto. }
  destruct H2 as (piece & chunks3 & -> & Hpiece).
  destruct (drop_last_blank_spec (cur_line ++ piece))
    as (dropped & Hdrop & Hdropped & _).
  set (cur_line'' := TextWrap.drop_last_blank (cur_line ++ piece)) in *.
  clearbody cur_line''.
  exists chunks3, (if is_empty cur_line'' then [] else [concat cur_line'']),
    (gap ++ concat cur_line'' ++ concat dropped).
  split.
  { destruct (is_empty cur_line''); rewrite ?app_nil_r; reflexivity. }
  split.
  { assert (Hd : concat cur_line ++ concat piece =
                 concat cur_line'' ++ concat dropped)
      by (rewrite <- !concat_app, Hdrop; reflexivity).
    rewrite Hgap, Hchunks, concat_app, <- Hpiece.
    rewrite <- !app_assoc. f_equal. rewrite !app_assoc, Hd. reflexivity. }
  apply only_space_forallb in Hdropped.
  destruct cur_line'' as [|x cur_line'']; cbn [is_empty].
  - cbn [concat app]. apply cut_end.
    rewrite forallb_app, Hws, Hdropped. reflexivity.
  - apply cut_line; [exact Hws | apply cut_end; exact Hdropped].
Qed.

Lemma wrap_loop_cut width fuel : forall chunks lines res,
  TextWrap.wrap_loop fuel width chunks lines = Some res ->
  exists out, res = lines ++ out /\ cut (concat chunks) out.
Proof.
  induction fuel as [|fuel IH]; intros chunks lines res H.
  - destruct chunks as [|c0 rest0]; [|discriminate H].
    simpl in H. injection H as <-. exists []. rewrite app_nil_r.
    split; [reflexivity | apply cut_end; reflexivity].
  - destruct chunks as [|c0 rest0].
    + simpl in H. injection H as <-. exists []. rewrite app_nil_r.
      split; [reflexivity | apply cut_end; reflexivity].
    + cbn [TextWrap.wrap_loop] in H.
      destruct (wrap_iteration_cut width c0 rest0 lines)
        as (chunks' & new & text & Hit & Htext & Hcut).
      rewrite Hit in H. apply IH in H as (out & -> & Hout).
      exists (new ++ out). split; [rewrite app_assoc; reflexivity|].
      rewrite Htext. apply cut_app; assumption.
Qed.

(** The wrapped lines are the tab-expanded text, cut at runs of
    whitespace. *)
Lemma wrap_cut width text :
  1 <= width -> cut (Py.expandtabs 8 text) (TextWrap.wrap U width text).
Proof.
  intros Hw. pose proof (@wrap_total U width text Hw) as H.
  unfold TextWrap._wrap_chunks in H.
  apply wrap_loop_cut in H as (out & Hout & Hcut).
  cbn [app] in Hout. subst out.
  unfold TextWrap._split_chunks, TextWrap._munge_whitespace in Hcut.
  rewrite split_concat in Hcut. exact Hcut.
Qed.

End Cuts.

Lemma splitlines_from_concat after_cr cur s :
  concat (Py.splitlines_from after_cr cur s) =
  rev cur ++ filter (fun c => negb (Py.is_linebreak c)) s.
Proof.
  revert after_cr cur. induction s as [|c s IH]; intros after_cr cur.
  - simpl. destruct cur as [|x cur]; simpl; rewrite ?app_nil_r; reflexivity.
  - cbn [Py.splitlines_from filter].
    destruct (after_cr && (c =? 10)%N) eqn:Ecr.
    + rewrite IH. apply andb_true_iff in Ecr as [_ Ec].
      apply N.eqb_eq in Ec. subst c. reflexivity.
    + destruct (Py.is_linebreak c) eqn:Elb; cbn [negb].
      * cbn [concat]. rewrite IH. reflexivity.
      * rewrite IH. simpl. rewrite <- app_assoc. reflexivity.
Qed.

(** C1 (as amended). The layout pass loses whitespace only, and which
    whitespace is spelled out.  The body is split at its line
    terminators, which go: the lines put together are the body without
    them.  Of each line the leading and the trailing run of whitespace
    go: the line is such a run, the stripped line (which neither starts
    nor ends with whitespace), and such a run.  A line left empty gives
    one empty wrapped line; a stripped line that looks like a heading is
    the single wrapped line, unchanged; any other stripped line has its
    tabs expanded and is then cut into its wrapped lines at runs of
    whitespace, which go, while everything else, the blanks between the
    words of a wrapped line included, stays as it is.  In all, the
    wrapped lines put together hold exactly the body's characters other
    than whitespace, in their order. *)
Theorem layout_keeps_text (U : Ucd) (body : pystr) :
  filter (fun c => negb (Py.isspace c)) (concat (App.layout U body)) =
  filter (fun c => negb (Py.isspace c)) body /\
  concat (Py.splitlines body) =
    filter (fun c => negb (Py.is_linebreak c)) body /\
  App.layout U body = flat_map (App.layout_line U) (Py.splitlines body) /\
  forall line,
    (exists lead trail,
       line = lead ++ Py.strip line ++ trail /\
       forallb Py.isspace lead = true /\ forallb Py.isspace trail = true /\
       Py.isspace (hd 0%N (Py.strip line)) = false /\
       Py.isspace (last (Py.strip line) 0%N) = false) /\
    (Py.strip line = [] -> App.layout_line U line = [[]]) /\
    (Py.strip line <> [] ->
     App.looks_like_heading U (Py.strip line) = true ->
     App.layout_line U line = [Py.strip line]) /\
    (Py.strip line <> [] ->
     App.looks_like_heading U (Py.strip line) = false ->
     cut (Py.expandtabs 8 (Py.strip line)) (App.layout_line U line) /\
     (forallb (fun c => negb (c =? 9)%N) (Py.strip line) = true ->
      cut (Py.strip line) (App.layout_line U line))).
Proof.
  split; [exact (layout_nonspace U body)|].
  split; [apply (splitlines_from_concat false [] body)|].
  split; [reflexivity|].
  intros line. split; [|split; [|split]].
  - destruct (strip_decompose line) as (lead & trail & H1 & H2 & H3).
    exists lead, trail. split; [exact H1|]. split; [exact H2|].
    split; [exact H3|]. apply strip_ends.
  - intros H. unfold App.layout_line. rewrite H. reflexivity.
  - intros Hne Hh. unfold App.layout_line.
    rewrite (proj2 (is_empty_false _) Hne), Hh. reflexivity.
  - intros Hne Hh.
    assert (Hcut : cut (Py.expandtabs 8 (Py.strip line))
                     (App.layout_line U line)).
    { unfold App.layout_line.
      rewrite (proj2 (is_empty_false _) Hne), Hh.
      apply wrap_cut. lia. }
    split; [exact Hcut|]. intros Htab.
    unfold Py.expandtabs in Hcut.
    rewrite expandtabs_no_tab in Hcut by exact Htab. exact Hcut.
Qed.

Lemma layout_keeps_text_witness :
  App.layout_line Ascii7.db (str "  SUMMARY  ") = [str "SUMMARY"] /\
  cut (str "tea and cake") (App.layout_line Ascii7.db (str "  tea and cake ")).
Proof.
  pose proof (proj2 (proj2 (proj2 (layout_keeps_text Ascii7.db [])))) as H.
  split.
  - apply (proj1 (proj2 (proj2 (H (str "  SUMMARY  ")))));
      [discriminate | reflexivity].
  - apply (proj2 (proj2 (proj2 (H (str "  tea and cake "))))
             ltac:(discriminate) eq_refl).
    reflexivity.
Defined.
